(** * vtkio: the file loaders, the two text parsers, Video and ProgressBar

    A shallow embedding of [vtkio.py] (vtkplotter).  Python strings are
    [string] (ASCII text), Python integers are [Z], Python lists that are
    indexed by position are [list], the files of the file system are a
    [gmap] from path to content.  Floating-point numbers and the calls into
    the visualization toolkit are not defined here: they are the fields of
    the classes [PyFloat] and [Toolkit], and every definition that needs
    them takes them as parameters. *)

From Stdlib Require Import ZArith String Ascii List Lia Bool.
From Stdlib Require Import DecimalString DecimalZ DecimalPos.
From stdpp Require Import base option list strings sorting gmap.

Local Open Scope Z_scope.

(** ** The Python runtime: exceptions, strings, integers, indexing *)

Module Py.

Inductive exn : Type :=
| IndexError | ValueError | TypeError | KeyError
| UnboundLocalError | IOError | ZeroDivisionError | ParseError.

(** How a call ends: it returns, raises, or [exit(code)] ends the process. *)
Inductive outcome (A : Type) : Type :=
| Ret (a : A)
| Raise (e : exn)
| Exit (code : Z).
Global Arguments Ret {A} a.
Global Arguments Raise {A} e.
Global Arguments Exit {A} code.

Definition bind {A B} (m : outcome A) (k : A -> outcome B) : outcome B :=
  match m with
  | Ret a => k a
  | Raise e => Raise e
  | Exit c => Exit c
  end.

Definition returns {A} (m : outcome A) : Prop := exists a, m = Ret a.
Definition raises {A} (m : outcome A) : Prop := exists e, m = Raise e.
(** A computation that never ends the process. *)
Definition pure {A} (m : outcome A) : Prop := forall c, m <> Exit c.

(** [for x in xs: ys.append(f(x))], stopping at the first exception. *)
Fixpoint for_append {A B} (f : A -> outcome B) (xs : list A) : outcome (list B) :=
  match xs with
  | [] => Ret []
  | x :: xs' =>
      bind (f x) (fun y => bind (for_append f xs') (fun ys => Ret (y :: ys)))
  end.

(** [range(a, b)] *)
Definition range (a b : Z) : list Z :=
  map (fun k => a + Z.of_nat k) (seq 0 (Z.to_nat (b - a))).

(** [l[i]] with Python's negative indices. *)
Definition getitem {A} (l : list A) (i : Z) : outcome A :=
  let n := Z.of_nat (length l) in
  let j := if i <? 0 then n + i else i in
  if (0 <=? j) && (j <? n) then
    match l !! Z.to_nat j with
    | Some a => Ret a
    | None => Raise IndexError
    end
  else Raise IndexError.

(** Whitespace of [str.split()] and of the stripping done by [int()],
    on the ASCII range: TAB, LF, VT, FF, CR, FS, GS, RS, US and space. *)
Definition is_space (c : ascii) : bool :=
  match c with
  | "009" | "010" | "011" | "012" | "013"
  | "028" | "029" | "030" | "031" | " " => true
  | _ => false
  end%char.

(** [s.split()]: the maximal runs of non-whitespace characters. [cur] is
    the token being read, reversed. *)
Fixpoint split_go (cur : string) (s : string) : list string :=
  match s with
  | EmptyString =>
      match cur with EmptyString => [] | _ => [String.rev cur] end
  | String c s' =>
      if is_space c then
        match cur with
        | EmptyString => split_go EmptyString s'
        | _ => String.rev cur :: split_go EmptyString s'
        end
      else split_go (String c cur) s'
  end.
Definition split (s : string) : list string := split_go EmptyString s.

(** [f.readlines()]: the lines of a text, each with its newline. *)
Fixpoint readlines_go (cur : string) (s : string) : list string :=
  match s with
  | EmptyString =>
      match cur with EmptyString => [] | _ => [String.rev cur] end
  | String c s' =>
      if Ascii.eqb c "010" then
        String.rev (String c cur) :: readlines_go EmptyString s'
      else readlines_go (String c cur) s'
  end.
Definition readlines (s : string) : list string := readlines_go EmptyString s.

(** [s.startswith(p)] and [p in s]. *)
Fixpoint startswith (p s : string) : bool :=
  match p, s with
  | EmptyString, _ => true
  | String a p', String b s' => Ascii.eqb a b && startswith p' s'
  | String _ _, EmptyString => false
  end.
Fixpoint contains (p s : string) : bool :=
  startswith p s ||
  match s with
  | EmptyString => false
  | String _ s' => contains p s'
  end.

(** [s.lower()] on ASCII text. *)
Definition lower_char (c : ascii) : ascii :=
  let n := nat_of_ascii c in
  if (65 <=? n)%nat && (n <=? 90)%nat then ascii_of_nat (n + 32) else c.
Fixpoint lower (s : string) : string :=
  match s with
  | EmptyString => EmptyString
  | String c s' => String (lower_char c) (lower s')
  end.

(** Stripping of leading and trailing whitespace. *)
Fixpoint lstrip (s : string) : string :=
  match s with
  | String c s' => if is_space c then lstrip s' else s
  | EmptyString => EmptyString
  end.
Definition strip (s : string) : string :=
  String.rev (lstrip (String.rev (lstrip s))).

(** [int(s)] in base ten: optional whitespace around an optional sign
    and at least one decimal digit.  (The digit-grouping underscores of
    later Python versions are not accepted.) *)
Definition int (s : string) : outcome Z :=
  let t := strip s in
  let r :=
    match t with
    | String "+" d => option_map Z.of_uint (NilZero.uint_of_string d)
    | _ => option_map Z.of_int (NilZero.int_of_string t)
    end in
  match r with
  | Some z => Ret z
  | None => Raise ValueError
  end.

(** [str(z)] for an integer. *)
Definition str (z : Z) : string := NilZero.string_of_int (Z.to_int z).

(** [sep.join(l)] *)
Fixpoint join (sep : string) (l : list string) : string :=
  match l with
  | [] => EmptyString
  | [s] => s
  | s :: l' => s +:+ sep +:+ join sep l'
  end.

(** [''.join(l)] *)
Definition concat_str (l : list string) : string := foldr String.append EmptyString l.

End Py.

Import Py.

Declare Scope py_scope.
Delimit Scope py_scope with py.
Notation "'let*' x ':=' m 'in' k" := (Py.bind m (fun x => k))
  (at level 10, x name, m at level 200, k at level 200, only parsing) : py_scope.
Local Open Scope py_scope.

(** Floating-point numbers are a parameter: [float(s)], [str(x)] and the
    few operations the source applies to them. *)
Class PyFloat := {
  float : Type;
  float_of_string : string -> option float;   (* float(s); None is ValueError *)
  str_float : float -> string;                (* str(x) *)
  float_of_Z : Z -> float;                    (* float(n) *)
  float_div : float -> float -> float;        (* x / y, y not zero *)
  float_mul : float -> float -> float;        (* x * y *)
  float_is_zero : float -> bool;              (* x == 0 *)
  float_round : float -> Z;                   (* int(round(x)) *)
  float_round_to : float -> Z -> float;       (* round(x, n) *)
}.


(** ** xml.etree.ElementTree, on the subset of XML that is used

    An element has a tag, attributes and child elements; character data
    is dropped, as no caller reads it.  [parse] covers declarations
    [<?...?>], start, end and empty-element tags and quoted attribute
    values.  Entity references, comments, CDATA sections and document
    types are outside the subset and end in [ParseError]. *)

Module ET.

#[warnings="-register-all"]
Inductive element : Type :=
| Element (tag : string) (attrib : list (string * string)) (children : list element).

Definition tag (e : element) : string := let 'Element t _ _ := e in t.
Definition attrib (e : element) : list (string * string) := let 'Element _ a _ := e in a.
Definition children (e : element) : list element := let 'Element _ _ c := e in c.

(** [e.get(key)] *)
Fixpoint assoc (key : string) (l : list (string * string)) : option string :=
  match l with
  | [] => None
  | (k, v) :: l' => if String.eqb k key then Some v else assoc key l'
  end.
Definition get (e : element) (key : string) : option string := assoc key (attrib e).

(** [e.findall(name)]: the children with that tag. *)
Definition findall (name : string) (e : element) : list element :=
  filter (fun c => String.eqb (tag c) name = true) (children e).

(** An open element: its tag, its attributes, its children so far (last first). *)
Record frame := Frame {
  f_tag : string;
  f_attrib : list (string * string);
  f_children : list element;
}.

(** Where the reader is.  Names and values being read are kept reversed;
    [t] and [a] are the tag and the attributes (last first) of the start
    tag being read. *)
Inductive mode : Type :=
| Content
| TagOpen
| Decl (question : bool)
| Name (n : string)
| Attrs (t : string) (a : list (string * string))
| AttrName (t : string) (a : list (string * string)) (n : string)
| AttrEq (t : string) (a : list (string * string)) (n : string)
| AttrQuote (t : string) (a : list (string * string)) (n : string)
| AttrValue (t : string) (a : list (string * string)) (n : string) (q : ascii) (v : string)
| SelfClose (t : string) (a : list (string * string))
| CloseName (n : string)
| CloseEnd (n : string)
| Failed.

Record pstate := PState {
  p_mode : mode;
  p_stack : list frame;
  p_root : option element;
}.

Definition is_letter (c : ascii) : bool :=
  let n := nat_of_ascii c in
  ((65 <=? n)%nat && (n <=? 90)%nat) || ((97 <=? n)%nat && (n <=? 122)%nat).
Definition is_digit (c : ascii) : bool :=
  let n := nat_of_ascii c in (48 <=? n)%nat && (n <=? 57)%nat.
Definition name_start (c : ascii) : bool :=
  is_letter c || Ascii.eqb c "_" || Ascii.eqb c ":".
Definition name_char (c : ascii) : bool :=
  name_start c || is_digit c || Ascii.eqb c "-" || Ascii.eqb c ".".
Definition xml_space (c : ascii) : bool :=
  match c with
  | " " | "009" | "010" | "013" => true
  | _ => false
  end%char.

Definition failed (st : pstate) : pstate := PState Failed (p_stack st) (p_root st).
Definition goto (m : mode) (st : pstate) : pstate := PState m (p_stack st) (p_root st).

(** A start tag is complete: the element is opened. *)
Definition open_elem (t : string) (a : list (string * string)) (st : pstate) : pstate :=
  match p_stack st, p_root st with
  | [], Some _ => failed st
  | _, _ => PState Content (Frame t (rev a) [] :: p_stack st) (p_root st)
  end.

(** An element is complete: it is the root or a child of the open element. *)
Definition close_elem (e : element) (stack : list frame) (st : pstate) : pstate :=
  match stack with
  | [] =>
      match p_root st with
      | None => PState Content [] (Some e)
      | Some _ => failed st
      end
  | Frame t a cs :: stack' => PState Content (Frame t a (e :: cs) :: stack') (p_root st)
  end.

Definition step (st : pstate) (c : ascii) : pstate :=
  match p_mode st with
  | Content =>
      if Ascii.eqb c "<" then goto TagOpen st
      else match p_stack st with
           | [] => if xml_space c then st else failed st
           | _ => if Ascii.eqb c "&" then failed st else st
           end
  | TagOpen =>
      if Ascii.eqb c "?" then goto (Decl false) st
      else if Ascii.eqb c "/" then goto (CloseName EmptyString) st
      else if name_start c then goto (Name (String c EmptyString)) st
      else failed st
  | Decl q =>
      if Ascii.eqb c "?" then goto (Decl true) st
      else if q && Ascii.eqb c ">" then goto Content st
      else goto (Decl false) st
  | Name n =>
      if name_char c then goto (Name (String c n)) st
      else if xml_space c then goto (Attrs (String.rev n) []) st
      else if Ascii.eqb c ">" then open_elem (String.rev n) [] st
      else if Ascii.eqb c "/" then goto (SelfClose (String.rev n) []) st
      else failed st
  | Attrs t a =>
      if xml_space c then st
      else if Ascii.eqb c ">" then open_elem t a st
      else if Ascii.eqb c "/" then goto (SelfClose t a) st
      else if name_start c then goto (AttrName t a (String c EmptyString)) st
      else failed st
  | AttrName t a n =>
      if name_char c then goto (AttrName t a (String c n)) st
      else if Ascii.eqb c "=" then goto (AttrQuote t a n) st
      else if xml_space c then goto (AttrEq t a n) st
      else failed st
  | AttrEq t a n =>
      if Ascii.eqb c "=" then goto (AttrQuote t a n) st
      else if xml_space c then st
      else failed st
  | AttrQuote t a n =>
      if Ascii.eqb c "034" || Ascii.eqb c "'" then goto (AttrValue t a n c EmptyString) st
      else if xml_space c then st
      else failed st
  | AttrValue t a n q v =>
      if Ascii.eqb c q then goto (Attrs t ((String.rev n, String.rev v) :: a)) st
      else if Ascii.eqb c "<" || Ascii.eqb c "&" then failed st
      else goto (AttrValue t a n q (String c v)) st
  | SelfClose t a =>
      if Ascii.eqb c ">" then
        match p_stack st, p_root st with
        | [], Some _ => failed st
        | _, _ => close_elem (Element t (rev a) []) (p_stack st) st
        end
      else failed st
  | CloseName n =>
      if name_char c then goto (CloseName (String c n)) st
      else if xml_space c then goto (CloseEnd n) st
      else if Ascii.eqb c ">" then
        match p_stack st with
        | Frame t a cs :: stack' =>
            if String.eqb t (String.rev n)
            then close_elem (Element t a (rev cs)) stack' st
            else failed st
        | [] => failed st
        end
      else failed st
  | CloseEnd n =>
      if xml_space c then st
      else if Ascii.eqb c ">" then
        match p_stack st with
        | Frame t a cs :: stack' =>
            if String.eqb t (String.rev n)
            then close_elem (Element t a (rev cs)) stack' st
            else failed st
        | [] => failed st
        end
      else failed st
  | Failed => st
  end.

Fixpoint run (s : string) (st : pstate) : pstate :=
  match s with
  | EmptyString => st
  | String c s' => run s' (step st c)
  end.

Definition start : pstate := PState Content [] None.

(** [ET.parse(file).getroot()] on the text of the file. *)
Definition parse (text : string) : outcome element :=
  match run text start with
  | PState Content [] (Some e) => Ret e
  | _ => Raise ParseError
  end.

End ET.

(** The texts that can stand between double quotes as they are: no double
    quote, no [<], no [&]. *)
Fixpoint attr_plain (s : string) : bool :=
  match s with
  | EmptyString => true
  | String c s' =>
      negb (Ascii.eqb c "034") && negb (Ascii.eqb c "<") && negb (Ascii.eqb c "&")
      && attr_plain s'
  end.

(** The names of elements and attributes. *)
Fixpoint name_chars (s : string) : bool :=
  match s with
  | EmptyString => true
  | String c s' => ET.name_char c && name_chars s'
  end.
Definition name_ok (s : string) : bool :=
  match s with
  | EmptyString => false
  | String c s' => ET.name_start c && name_chars s'
  end.

(** Texts without whitespace, and the characters of [str] of an integer. *)
Fixpoint no_space (s : string) : bool :=
  match s with
  | EmptyString => true
  | String c s' => negb (is_space c) && no_space s'
  end.

Definition int_char (c : ascii) : bool := ET.is_digit c || Ascii.eqb c "-".

Fixpoint int_chars (s : string) : bool :=
  match s with
  | EmptyString => true
  | String c s' => int_char c && int_chars s'
  end.

(** ** State: the file system, the terminal, the shell *)

Record World := {
  files : gmap string string;         (* regular files: path to text, as read in text mode *)
  dirs : gmap string (list string);   (* directories: path to os.listdir *)
  has_colors : bool;                  (* _terminal_has_colors *)
  stdout : list string;               (* what was written, oldest first *)
  commands : list string;             (* os.system calls, oldest first *)
}.

(** The state in which the file at [p] holds [text]. *)
Definition with_file (p text : string) (w : World) : World :=
  {| files := <[p := text]> (files w); dirs := dirs w; has_colors := has_colors w;
     stdout := stdout w; commands := commands w |}.

(** A call runs in a state [S], ends in an outcome and leaves a state. *)
Definition St (S A : Type) : Type := S -> outcome A * S.

Definition ret {S A} (a : A) : St S A := fun s => (Ret a, s).
Definition raise {S A} (e : exn) : St S A := fun s => (Raise e, s).
Definition exit {S A} (code : Z) : St S A := fun s => (Exit code, s).
Definition lift {S A} (m : outcome A) : St S A := fun s => (m, s).
Definition bindS {S A B} (m : St S A) (k : A -> St S B) : St S B :=
  fun s =>
    match m s with
    | (Ret a, s') => k a s'
    | (Raise e, s') => (Raise e, s')
    | (Exit c, s') => (Exit c, s')
    end.

Notation "'let+' x ':=' m 'in' k" := (bindS m (fun x => k))
  (at level 10, x name, m at level 200, k at level 200, only parsing) : py_scope.
Notation "m ';;;' k" := (bindS m (fun _ => k))
  (at level 100, k at level 200, right associativity, only parsing) : py_scope.

(** [for x in xs: f(x)], the results dropped. *)
Fixpoint for_each {S A B} (f : A -> St S B) (xs : list A) : St S unit :=
  match xs with
  | [] => ret tt
  | x :: xs' => f x ;;; for_each f xs'
  end.

Definition M : Type -> Type := St World.

(** [os.path.exists(p)] *)
Definition path_exists (p : string) : M bool :=
  fun w =>
    match files w !! p, dirs w !! p with
    | None, None => (Ret false, w)
    | _, _ => (Ret true, w)
    end.

(** [open(p,'r')], [readlines()], [close()] *)
Definition read_lines (p : string) : M (list string) :=
  fun w =>
    match files w !! p with
    | Some text => (Ret (readlines text), w)
    | None => (Raise IOError, w)
    end.

(** [open(p,'w')]: the file is created or emptied; a directory cannot be opened. *)
Definition open_w (p : string) : M unit :=
  fun w =>
    match dirs w !! p with
    | Some _ => (Raise IOError, w)
    | None =>
        (Ret tt, with_file p EmptyString w)
    end.

(** [outF.write(s)] on the file opened at [p]. *)
Definition file_write (p : string) (s : string) : M unit :=
  fun w =>
    let old := default EmptyString (files w !! p) in
    (Ret tt, with_file p (old +:+ s) w).

Definition stdout_write (s : string) : M unit :=
  fun w =>
    (Ret tt, {| files := files w; dirs := dirs w; has_colors := has_colors w;
                stdout := stdout w ++ [s]; commands := commands w |}).

(** [os.system(cmd)], the exit status given by the oracle [status]. *)
Definition os_system (status : string -> Z) (cmd : string) : M Z :=
  fun w =>
    (Ret (status cmd),
     {| files := files w; dirs := dirs w; has_colors := has_colors w;
        stdout := stdout w; commands := commands w ++ [cmd] |}).

(** The newline and the double quote, as one-character strings. *)
Definition nl : string := String (ascii_of_nat 10) EmptyString.
Definition dq : string := String (ascii_of_nat 34) EmptyString.

(** [print(a, b, ...)] *)
Definition print (strings : list string) : M unit :=
  stdout_write (join " " strings +:+ nl).

(** *** printc (lines 605-639)

    [strings] holds the [str()] of the elements of the tuple or list that
    is printed, [c] is a color number or name, bold is left at its
    default. *)

Inductive color : Type := CInt (n : Z) | CStr (s : string).

Definition cols (s : string) : option Z :=
  if String.eqb s "black" then Some 0 else if String.eqb s "red" then Some 1
  else if String.eqb s "green" then Some 2 else if String.eqb s "yellow" then Some 3
  else if String.eqb s "blue" then Some 4 else if String.eqb s "magenta" then Some 5
  else if String.eqb s "cyan" then Some 6 else if String.eqb s "white" then Some 7
  else if String.eqb s "k" then Some 0 else if String.eqb s "r" then Some 1
  else if String.eqb s "g" then Some 2 else if String.eqb s "y" then Some 3
  else if String.eqb s "b" then Some 4 else if String.eqb s "m" then Some 5
  else if String.eqb s "c" then Some 6 else if String.eqb s "w" then Some 7
  else None.

Definition esc : string := String (ascii_of_nat 27) EmptyString.

Definition printc (strings : list string) (c : color) (end_ : string) : M unit :=
  let txt := join " " strings in
  fun w =>
    if has_colors w then
      let ncol :=
        match c with
        | CInt n => Some (n mod 8)
        | CStr s => cols (lower s)
        end in
      match ncol with
      | Some n =>
          stdout_write (esc +:+ "[1;" +:+ str (30 + n) +:+ "m" +:+ txt
                        +:+ esc +:+ "[0m" +:+ end_) w
      | None => stdout_write (txt +:+ end_) w
      end
    else stdout_write (txt +:+ end_) w.

(** What the round trip through a text needs of [str] and [float]: the
    text of a float reads back as that float, and is plain.  Python 3
    writes a float with the shortest digits that read back to it (NaN
    apart, which is equal to nothing); the twelve digits of Python 2 do
    not. *)
Class PyFloatRepr `{PyFloat} := {
  float_str_inv : forall x, float_of_string (str_float x) = Some x;
  float_str_plain : forall x, attr_plain (str_float x) = true;
}.

Section Parsers.
Context `{PyFloat}.

Definition pyfloat (s : string) : outcome float :=
  match float_of_string s with
  | Some x => Ret x
  | None => Raise ValueError
  end.

Definition point : Type := float * float * float.
Definition tetra : Type := Z * Z * Z * Z.

(** *** convertNeutral2Xml, the parsing half (lines 565-576) *)

(** Body of the first loop: [x,y,z = lines[i].split()] and the append. *)
Definition neutral_coord (lines : list string) (i : Z) : outcome point :=
  let* l := getitem lines i in
  match split l with
  | [x; y; z] =>
      let* fx := pyfloat x in let* fy := pyfloat y in let* fz := pyfloat z in
      Ret (fx, fy, fz)
  | _ => Raise ValueError
  end.

(** Body of the second loop. *)
Definition neutral_tet (lines : list string) (i : Z) : outcome tetra :=
  let* l := getitem lines i in
  let text := split l in
  let* v0 := getitem text 1 in let* v1 := getitem text 2 in
  let* v2 := getitem text 3 in let* v3 := getitem text 4 in
  let* a := int v0 in let* b := int v1 in let* c := int v2 in let* d := int v3 in
  Ret (a - 1, b - 1, c - 1, d - 1).

Record neutral_mesh := {
  ncoords : Z;
  fdolf_coords : list point;
  ntets : Z;
  idolf_tets : list tetra;
}.

Definition neutral_parse (lines : list string) : outcome neutral_mesh :=
  let* l0 := getitem lines 0 in
  let* n := int l0 in
  let* cs := for_append (neutral_coord lines) (range 1 (n + 1)) in
  let* lt := getitem lines (n + 1) in
  let* t := int lt in
  let* ts := for_append (neutral_tet lines) (range (n + 2) (n + t + 2)) in
  Ret {| ncoords := n; fdolf_coords := cs; ntets := t; idolf_tets := ts |}.

(** *** convertNeutral2Xml, the writing half (lines 578-600) *)

Definition xml_attr (name value : string) : string :=
  " " +:+ name +:+ "=" +:+ dq +:+ value +:+ dq.

Definition vertex_elem (i : Z) (p : point) : string :=
  let '(x, y, z) := p in
  "      <vertex" +:+ xml_attr "index" (str i) +:+ xml_attr "x" (str_float x)
  +:+ xml_attr "y" (str_float y) +:+ xml_attr "z" (str_float z) +:+ "/>" +:+ nl.

Definition tetra_elem (i : Z) (t : tetra) : string :=
  let '(v0, v1, v2, v3) := t in
  "      <tetrahedron" +:+ xml_attr "index" (str i) +:+ xml_attr "v0" (str v0)
  +:+ xml_attr "v1" (str v1) +:+ xml_attr "v2" (str v2)
  +:+ xml_attr "v3" (str v3) +:+ "/>" +:+ nl.

Definition write_dolfin (outfile : string) (m : neutral_mesh) : M unit :=
  open_w outfile ;;;
  file_write outfile ("<?xml" +:+ xml_attr "version" "1.0"
                      +:+ xml_attr "encoding" "UTF-8" +:+ "?>" +:+ nl) ;;;
  file_write outfile ("<dolfin" +:+ xml_attr "xmlns:dolfin" "http://www.fenicsproject.org"
                      +:+ ">" +:+ nl) ;;;
  file_write outfile ("  <mesh" +:+ xml_attr "celltype" "tetrahedron"
                      +:+ xml_attr "dim" "3" +:+ ">" +:+ nl) ;;;
  file_write outfile ("    <vertices" +:+ xml_attr "size" (str (ncoords m)) +:+ ">" +:+ nl) ;;;
  for_each (fun i => let+ p := lift (getitem (fdolf_coords m) i) in
                     file_write outfile (vertex_elem i p))
           (range 0 (ncoords m)) ;;;
  file_write outfile ("    </vertices>" +:+ nl) ;;;
  file_write outfile ("    <cells" +:+ xml_attr "size" (str (ntets m)) +:+ ">" +:+ nl) ;;;
  for_each (fun i => let+ t := lift (getitem (idolf_tets m) i) in
                     file_write outfile (tetra_elem i t))
           (range 0 (ntets m)) ;;;
  file_write outfile ("    </cells>" +:+ nl) ;;;
  file_write outfile ("  </mesh>" +:+ nl) ;;;
  file_write outfile ("</dolfin>" +:+ nl).

(** [if outfile:] holds for a non-empty name. *)
Definition outfile_given (outfile : option string) : option string :=
  match outfile with
  | Some (String c s) => Some (String c s)
  | _ => None
  end.

Definition convertNeutral2Xml (infile : string) (outfile : option string)
  : M (list point * list tetra) :=
  let+ lines := read_lines infile in
  let+ m := lift (neutral_parse lines) in
  match outfile_given outfile with
  | Some o => write_dolfin o m
  | None => ret tt
  end ;;;
  ret (fdolf_coords m, idolf_tets m).

(** *** loadGmesh, the parsing part (lines 210-236) *)

(** [for i,line in enumerate(lines): if marker in line: ...; break] *)
Fixpoint first_with (marker : string) (lines : list string) (i : Z) : option Z :=
  match lines with
  | [] => None
  | l :: ls => if contains marker l then Some i else first_with marker ls (i + 1)
  end.

(** The index after the marker line and the count read there; 0 and 0
    when no line has the marker. *)
Definition gmesh_count (marker : string) (lines : list string) : outcome (Z * Z) :=
  match first_with marker lines 0 with
  | Some i =>
      let* l := getitem lines (i + 1) in
      let* n := int l in
      Ret (i + 1, n)
  | None => Ret (0, 0)
  end.

Definition gmesh_node (lines : list string) (i : Z) : outcome point :=
  let* l := getitem lines i in
  let cn := split l in
  let* a := getitem cn 1 in let* x := pyfloat a in
  let* b := getitem cn 2 in let* y := pyfloat b in
  let* c := getitem cn 3 in let* z := pyfloat c in
  Ret (x, y, z).

Definition gmesh_element (lines : list string) (i : Z) : outcome (Z * Z * Z) :=
  let* l := getitem lines i in
  let ele := split l in
  let* a := getitem ele (-3) in let* e0 := int a in
  let* b := getitem ele (-2) in let* e1 := int b in
  let* c := getitem ele (-1) in let* e2 := int c in
  Ret (e0, e1, e2).

Definition gmesh_parse (lines : list string)
  : outcome (list point * list (Z * Z * Z)) :=
  let* nodes := gmesh_count "$Nodes" lines in
  let index_nodes := nodes.1 in
  let nnodes := nodes.2 in
  let* node_coords :=
    for_append (gmesh_node lines) (range (index_nodes + 1) (index_nodes + 1 + nnodes)) in
  let* elems := gmesh_count "$Elements" lines in
  let index_elements := elems.1 in
  let nelements := elems.2 in
  let* elements :=
    for_append (gmesh_element lines)
               (range (index_elements + 1) (index_elements + 1 + nelements)) in
  Ret (node_coords, elements).

(** The point ids given to each [vtkTriangle] (lines 245-249). *)
Definition gmesh_triangles (elements : list (Z * Z * Z)) : list (Z * Z * Z) :=
  map (fun e => (e.1.1 - 1, e.1.2 - 1, e.2 - 1)) elements.

(** *** loadXml, the extraction loop (lines 101-115) *)

Definition xml_float (e : ET.element) (key : string) : outcome float :=
  match ET.get e key with
  | Some s => pyfloat s
  | None => Raise TypeError
  end.

Definition xml_int (e : ET.element) (key : string) : outcome Z :=
  match ET.get e key with
  | Some s => int s
  | None => Raise TypeError
  end.

Definition xml_vertex (e : ET.element) : outcome point :=
  let* x := xml_float e "x" in
  let* y := xml_float e "y" in
  let* z := xml_float e "z" in
  Ret (x, y, z).

Definition xml_tetrahedron (e : ET.element) : outcome tetra :=
  let* v0 := xml_int e "v0" in
  let* v1 := xml_int e "v1" in
  let* v2 := xml_int e "v2" in
  let* v3 := xml_int e "v3" in
  Ret (v0, v1, v2, v3).

(** The body of [for elem in mesh]: what it appends to [coords] and to
    [connectivity]. *)
Definition xml_elem (elem : ET.element) : outcome (list point * list tetra) :=
  let* vs := for_append xml_vertex (ET.findall "vertex" elem) in
  let* ts := for_append xml_tetrahedron (ET.findall "tetrahedron" elem) in
  Ret (vs, ts).

(** The extraction loop (lines 101-115) on the root of the tree. *)
Definition xml_extract (root : ET.element) : outcome (list point * list tetra) :=
  let* parts :=
    for_append xml_elem (concat (map ET.children (ET.children root))) in
  Ret (concat (map fst parts), concat (map snd parts)).

End Parsers.

(** ** The loaders *)

(** What a loader hands back: an object of the toolkit, [None] or [False]. *)
Inductive pyval (O : Type) : Type := PyNone | PyFalse | PyObj (o : O).
Global Arguments PyNone {O}.
Global Arguments PyFalse {O}.
Global Arguments PyObj {O} o.

(** The readers and writers of the toolkit that are chosen by file name. *)
Inductive reader : Type :=
| vtkPolyDataReader | vtkPLYReader | vtkOBJReader | vtkSTLReader | vtkBYUReader
| vtkXMLPolyDataReader | vtkXMLStructuredGridReader | vtkXMLUnstructuredGridReader
| vtkParticleReader | vtkDataReader | vtkPNGReader | vtkJPEGReader.

Inductive writer : Type :=
| vtkPolyDataWriter | vtkPLYWriter | vtkSTLWriter | vtkBYUWriter | vtkXMLPolyDataWriter.

Inductive geometry : Type :=
| vtkStructuredGridGeometryFilter | vtkGeometryFilter | NoFilter.

(** The calls into the visualization toolkit.  [pyobj] is the type of the
    display arguments (c, alpha, wire, bc, edges, legend, texture, ...),
    [vtkobj] the type of the objects the toolkit builds.  Each field
    stands for the calls named in its comment. *)
Class Toolkit `{PyFloat} := {
  pyobj : Type;
  vtkobj : Type;
  is_True : pyobj -> bool;                      (* x is True *)
  py_string : string -> pyobj;
  gunzip : string -> outcome string;            (* gzip.open(f).read() *)
  (* loadXml, lines 116-151: c alpha wire edges legend *)
  xml_actor : list point -> list tetra ->
              pyobj -> pyobj -> pyobj -> pyobj -> pyobj -> M (pyval vtkobj);
  (* loadNeutral, lines 163-199: c alpha edges legend *)
  neutral_actor : string -> list point -> list tetra ->
                  pyobj -> pyobj -> pyobj -> pyobj -> M (pyval vtkobj);
  (* loadGmesh, lines 238-265: c alpha bc legend *)
  gmesh_actor : list point -> list (Z * Z * Z) ->
                pyobj -> pyobj -> pyobj -> pyobj -> M (pyval vtkobj);
  (* loadPCD, lines 273-303 *)
  pcd_actor : string -> pyobj -> pyobj -> pyobj -> M (pyval vtkobj);
  (* loadVolume, lines 313-369 *)
  volume_actor : string -> list pyobj -> M (pyval vtkobj);
  (* load2Dimage, lines 381-388 *)
  image_actor : reader -> string -> pyobj -> M (pyval vtkobj);
  (* loadPoly, lines 61-73: the poly data read, None when there is none *)
  read_poly : reader -> geometry -> string -> M (option vtkobj);
  (* loadPoly, lines 79-82 *)
  clean_poly : vtkobj -> M vtkobj;
  (* vu.makeActor(poly, c, alpha, wire, bc, edges, legend, texture) *)
  makeActor : vtkobj -> list pyobj -> M vtkobj;
  (* actor.GetProperty().SetPointSize(n) *)
  set_point_size : vtkobj -> Z -> M unit;
  (* write, lines 400-404 and 414-416 *)
  obj_export : vtkobj -> string -> M unit;
  vtk_write : writer -> vtkobj -> string -> M unit;
}.

(** [os.path.basename]: what follows the last slash. *)
Fixpoint basename_go (cur : string) (s : string) : string :=
  match s with
  | EmptyString => String.rev cur
  | String c s' =>
      if Ascii.eqb c "/" then basename_go EmptyString s' else basename_go (String c cur) s'
  end.
Definition basename (s : string) : string := basename_go EmptyString s.

Section Loaders.
Context `{Toolkit}.

Abbreviation result := (M (pyval vtkobj)).

(** *** loadXml (lines 85-151) *)

Definition read_text (p : string) : M string :=
  fun w =>
    match files w !! p with
    | Some text => (Ret text, w)
    | None => (Raise IOError, w)
    end.

Definition loadXml (filename : string) (c alpha wire bc edges legend : pyobj) : result :=
  let+ ex := path_exists filename in
  if negb ex then
    printc ["Error in loadXml: Cannot find"; filename] (CInt 1) nl ;;;
    ret PyNone
  else
    let+ text :=
      if contains ".gz" filename then
        let+ packed := read_text filename in
        open_w "/tmp/filename.xml" ;;;
        let+ unpacked := lift (gunzip packed) in
        file_write "/tmp/filename.xml" unpacked ;;;
        read_text "/tmp/filename.xml"
      else read_text filename in
    let+ root := lift (ET.parse text) in
    print ["..loading"; filename] ;;;
    let+ mesh := lift (xml_extract root) in
    xml_actor mesh.1 mesh.2 c alpha wire edges legend.

(** *** loadNeutral (lines 154-199) *)

Definition loadNeutral (filename : string) (c alpha bc edges legend : pyobj) : result :=
  let+ ex := path_exists filename in
  if negb ex then
    printc ["Error in loadNeutral: Cannot find"; filename] (CInt 1) nl ;;;
    ret PyNone
  else
    let+ mesh := convertNeutral2Xml filename None in
    neutral_actor filename mesh.1 mesh.2 c alpha edges legend.

(** *** loadGmesh (lines 202-265) *)

Definition loadGmesh (filename : string) (c alpha bc legend : pyobj) : result :=
  let+ ex := path_exists filename in
  if negb ex then
    printc ["Error in loadGmesh: Cannot find"; filename] (CInt 1) nl ;;;
    ret PyNone
  else
    let+ lines := read_lines filename in
    let+ mesh := lift (gmesh_parse lines) in
    gmesh_actor mesh.1 (gmesh_triangles mesh.2) c alpha bc legend.

(** *** loadPCD (lines 268-303) *)

Definition loadPCD (filename : string) (c alpha legend : pyobj) : result :=
  let+ ex := path_exists filename in
  if negb ex then
    printc ["Error in loadPCD: Cannot find file"; filename] (CInt 1) nl ;;;
    ret PyNone
  else pcd_actor filename c alpha legend.

(** *** loadVolume (lines 306-369) *)

Definition loadVolume (filename : string)
           (c alpha wire bc edges legend texture
            smoothing threshold connectivity scaling : pyobj) : result :=
  let+ ex := path_exists filename in
  if negb ex then
    printc ["Error in loadVolume: Cannot find file"; filename] (CInt 1) nl ;;;
    ret PyNone
  else
    volume_actor filename [c; alpha; wire; bc; edges; legend; texture;
                           smoothing; threshold; connectivity; scaling].

(** *** load2Dimage (lines 372-388) *)

Definition load2Dimage (filename : string) (alpha : pyobj) : result :=
  let fl := lower filename in
  if contains ".png" fl then image_actor vtkPNGReader filename alpha
  else if contains ".jpg" fl || contains ".jpeg" fl then
    image_actor vtkJPEGReader filename alpha
  else
    print ["file must end with .png or .jpg"] ;;;
    exit 1.

(** *** loadPoly (lines 44-82) *)

Definition poly_reader (fl : string) : reader :=
  if contains ".vtk" fl then vtkPolyDataReader
  else if contains ".ply" fl then vtkPLYReader
  else if contains ".obj" fl then vtkOBJReader
  else if contains ".stl" fl then vtkSTLReader
  else if contains ".byu" fl || contains ".g" fl then vtkBYUReader
  else if contains ".vtp" fl then vtkXMLPolyDataReader
  else if contains ".vts" fl then vtkXMLStructuredGridReader
  else if contains ".vtu" fl then vtkXMLUnstructuredGridReader
  else if contains ".txt" fl then vtkParticleReader
  else if contains ".xyz" fl then vtkParticleReader
  else vtkDataReader.

Definition poly_geometry (fl : string) : geometry :=
  if contains ".vts" fl then vtkStructuredGridGeometryFilter
  else if contains ".vtu" fl then vtkGeometryFilter
  else NoFilter.

Definition loadPoly (filename : string) : result :=
  let+ ex := path_exists filename in
  if negb ex then
    printc ["Error in loadPoly: Cannot find"; filename] (CInt 1) nl ;;;
    ret PyNone
  else
    let fl := lower filename in
    let+ poly := read_poly (poly_reader fl) (poly_geometry fl) filename in
    match poly with
    | None =>
        printc ["Unable to load"; filename] (CInt 1) nl ;;;
        ret PyFalse
    | Some p =>
        let+ cleaned := clean_poly p in
        ret (PyObj cleaned)
    end.

(** *** loadFile (lines 6-31) *)

(** The last branch (lines 23-30). *)
Definition loadFile_else (filename : string)
           (c alpha wire bc edges legend texture : pyobj) : result :=
  let fl := lower filename in
  let+ poly := loadPoly filename in
  match poly with
  | PyObj p =>
      let legend := if is_True legend then py_string (basename filename) else legend in
      let+ actor := makeActor p [c; alpha; wire; bc; edges; legend; texture] in
      (if contains ".txt" fl || contains ".xyz" fl
       then set_point_size actor 4 else ret tt) ;;;
      ret (PyObj actor)
  | _ =>
      printc ["Unable to load"; filename] (CInt 1) nl ;;;
      ret PyFalse
  end.

Definition loadFile (filename : string)
           (c alpha wire bc edges legend texture
            smoothing threshold connectivity scaling : pyobj) : result :=
  let fl := lower filename in
  if contains ".xml" fl || contains ".xml.gz" fl then
    loadXml filename c alpha wire bc edges legend
  else if contains ".neutral" fl then
    loadNeutral filename c alpha bc edges legend
  else if contains ".gmsh" fl then
    loadGmesh filename c alpha bc legend
  else if contains ".pcd" fl then
    loadPCD filename c alpha legend
  else if contains ".tif" fl || contains ".slc" fl then
    loadVolume filename c alpha wire bc edges legend texture
               smoothing threshold connectivity scaling
  else if contains ".png" fl || contains ".jpg" fl || contains ".jpeg" fl then
    load2Dimage filename alpha
  else
    loadFile_else filename c alpha wire bc edges legend texture.

(** *** loadDir (lines 33-42) *)

Definition listdir (p : string) : M (list string) :=
  fun w =>
    match dirs w !! p with
    | Some entries => (Ret entries, w)
    | None => (Raise IOError, w)
    end.

Definition sorted (l : list string) : list string := merge_sort String.le l.

Definition loadDir (mydir : string)
           (c alpha wire bc edges legend texture
            smoothing threshold connectivity scaling : pyobj)
  : M (list (pyval vtkobj)) :=
  let+ ex := path_exists mydir in
  if negb ex then
    printc ["Error in loadDir: Cannot find"; mydir] (CInt 1) nl ;;;
    exit 0
  else
    let acts := [] in
    let+ entries := listdir mydir in
    for_each (fun ifile =>
                loadFile (mydir +:+ "/" +:+ ifile) c alpha wire bc edges legend texture
                         smoothing threshold connectivity scaling)
             (sorted entries) ;;;
    ret acts.

(** *** write (lines 391-419) *)

(** [try: m except: h], a bare except: it also catches the exit. *)
Definition try_except {A} (m : M A) (h : M A) : M A :=
  fun w =>
    match m w with
    | (Ret a, w') => (Ret a, w')
    | (_, w') => h w'
    end.

Definition save_with (w : writer) (obj : vtkobj) (fileoutput : string) : M unit :=
  try_except
    (vtk_write w obj fileoutput ;;;
     printc ["Saved file: " +:+ fileoutput] (CStr "g") nl)
    (printc ["Error saving: " +:+ fileoutput] (CStr "r") nl).

Definition write (obj : vtkobj) (fileoutput : string) : M unit :=
  let fr := lower fileoutput in
  if contains ".vtk" fr then save_with vtkPolyDataWriter obj fileoutput
  else if contains ".ply" fr then save_with vtkPLYWriter obj fileoutput
  else if contains ".obj" fr then
    printc ["Please use write(vp.renderWin)"] (CInt 3) nl ;;;
    obj_export obj fileoutput ;;;
    printc ["Saved file: " +:+ fileoutput] (CStr "g") nl
  else if contains ".stl" fr then save_with vtkSTLWriter obj fileoutput
  else if contains ".byu" fr || contains ".g" fr then save_with vtkBYUWriter obj fileoutput
  else if contains ".vtp" fr then save_with vtkXMLPolyDataWriter obj fileoutput
  else
    printc ["Unavailable format in file " +:+ fileoutput] (CStr "r") nl ;;;
    exit 1.

End Loaders.

(** ** Video (lines 436-475) *)

Section VideoClass.
Context `{PyFloat}.

(** A number given by the caller. *)
Inductive pynum : Type := PInt (n : Z) | PFloat (x : float).

Definition num_truthy (d : pynum) : bool :=
  match d with
  | PInt n => negb (n =? 0)
  | PFloat x => negb (float_is_zero x)
  end.

(** [float(d)] *)
Definition num_float (d : pynum) : float :=
  match d with
  | PInt n => float_of_Z n
  | PFloat x => x
  end.

(** The attributes of a Video that [close] reads or writes. *)
Record Video := {
  name : string;
  duration : option pynum;
  fps : float;
  frames : list string;
}.

(** [s.split('.')[0]] *)
Fixpoint before_dot (s : string) : string :=
  match s with
  | EmptyString => EmptyString
  | String c s' => if Ascii.eqb c "." then EmptyString else String c (before_dot s')
  end.

Definition ffmpeg (rate : string) (out : string) : string :=
  "ffmpeg -loglevel panic -y -r " +:+ rate +:+ " -i /tmp/vpvid/%01d.png " +:+ out.

(** [close]: [status] gives the exit status of the encoder.  In the
    else branch [_fps] is read before it is bound. *)
Definition Video_close (status : string -> Z) (v : Video) : M Video :=
  let+ _fps :=
    match duration v with
    | Some d =>
        if num_truthy d then
          let _fps := float_div (float_of_Z (Z.of_nat (length (frames v)))) (num_float d) in
          printc ["Recalculated video FPS to"; str_float (float_round_to _fps 3)]
                 (CStr "yellow") nl ;;;
          ret _fps
        else raise UnboundLocalError
    | None => raise UnboundLocalError
    end in
  let name' := before_dot (name v) +:+ ".mp4" in
  let+ out := os_system status (ffmpeg (str_float _fps) name') in
  (if out =? 0 then ret tt else printc ["ffmpeg returning error"] (CInt 1) nl) ;;;
  printc ["Video saved as"; name'] (CStr "green") nl ;;;
  ret {| name := name'; duration := duration v; fps := fps v; frames := frames v |}.

End VideoClass.

(** ** ProgressBar (lines 480-556) *)

(** [int(round(a / b))] for integers [a] and [b], [b] not zero: the
    quotient rounded to the nearest integer, a half to the even one.  The
    quotient is taken exactly; for the quotients between 0 and 100 that
    [_update] forms, the floating-point quotient rounds to the same
    integer as long as [b] stays below 2^45. *)
Definition round_div (a b : Z) : Z :=
  let q := a / b in
  let r := Z.abs (a mod b) in
  match Z.compare (2 * r) (Z.abs b) with
  | Lt => q
  | Gt => q + 1
  | Eq => if Z.even q then q else q + 1
  end.

(** [s * n] *)
Definition repeat_str (s : string) (n : Z) : string :=
  concat_str (replicate (Z.to_nat n) s).

Section ProgressBarClass.
Context `{PyFloat}.

Record ProgressBar := {
  start : Z;
  stop : Z;
  step : Z;
  pb_color : option color;
  width : Z;
  bar : string;
  percent : Z;
  ETA : bool;
  _counts : Z;
  _oldbar : string;
  _lentxt : Z;
  _range : list Z;
  _len : Z;
}.

Definition set_counts (c : Z) (pb : ProgressBar) : ProgressBar :=
  {| start := start pb; stop := stop pb; step := step pb; pb_color := pb_color pb;
     width := width pb; bar := bar pb; percent := percent pb; ETA := ETA pb;
     _counts := c; _oldbar := _oldbar pb; _lentxt := _lentxt pb;
     _range := _range pb; _len := _len pb |}.

Definition set_percent (p : Z) (pb : ProgressBar) : ProgressBar :=
  {| start := start pb; stop := stop pb; step := step pb; pb_color := pb_color pb;
     width := width pb; bar := bar pb; percent := p; ETA := ETA pb;
     _counts := _counts pb; _oldbar := _oldbar pb; _lentxt := _lentxt pb;
     _range := _range pb; _len := _len pb |}.

Definition set_bar (b : string) (pb : ProgressBar) : ProgressBar :=
  {| start := start pb; stop := stop pb; step := step pb; pb_color := pb_color pb;
     width := width pb; bar := b; percent := percent pb; ETA := ETA pb;
     _counts := _counts pb; _oldbar := _oldbar pb; _lentxt := _lentxt pb;
     _range := _range pb; _len := _len pb |}.

Definition set_oldbar (b : string) (pb : ProgressBar) : ProgressBar :=
  {| start := start pb; stop := stop pb; step := step pb; pb_color := pb_color pb;
     width := width pb; bar := bar pb; percent := percent pb; ETA := ETA pb;
     _counts := _counts pb; _oldbar := b; _lentxt := _lentxt pb;
     _range := _range pb; _len := _len pb |}.

Definition set_lentxt (n : Z) (pb : ProgressBar) : ProgressBar :=
  {| start := start pb; stop := stop pb; step := step pb; pb_color := pb_color pb;
     width := width pb; bar := bar pb; percent := percent pb; ETA := ETA pb;
     _counts := _counts pb; _oldbar := _oldbar pb; _lentxt := n;
     _range := _range pb; _len := _len pb |}.

(** [_update] (lines 543-556) *)
Definition ProgressBar_update (counts : Z) : St ProgressBar unit :=
  fun pb =>
    let counts :=
      if counts <? start pb then start pb
      else if stop pb <? counts then stop pb
      else counts in
    let pb := set_counts counts pb in
    let pb := set_percent ((_counts pb - start pb) * 100) pb in
    if stop pb - start pb =? 0 then (Raise ZeroDivisionError, pb)
    else
      let pb := set_percent (round_div (percent pb) (stop pb - start pb)) pb in
      let af := width pb - 2 in
      let nh := float_round (float_mul (float_div (float_of_Z (percent pb)) (float_of_Z 100))
                                       (float_of_Z af)) in
      let pb :=
        if nh =? 0 then set_bar ("[>" +:+ repeat_str " " (af - 1) +:+ "]") pb
        else if nh =? af then set_bar ("[" +:+ repeat_str "=" af +:+ "]") pb
        else set_bar ("[" +:+ repeat_str "=" (nh - 1) +:+ ">"
                      +:+ repeat_str " " (af - nh) +:+ "]") pb in
      let ps := str (percent pb) +:+ "%" in
      (Ret tt, set_bar (join " " [bar pb; ps]) pb).

(** [__init__] (lines 491-507); [arange] is [vu.arange].  The
    attributes that are not yet assigned when [_update(0)] runs hold
    0 and the empty string until then. *)
Definition ProgressBar_init (arange : Z -> Z -> Z -> list Z)
           (start_ stop_ step_ : Z) (c : option color) (ETA_ : bool) (width_ : Z)
  : outcome ProgressBar :=
  let pb := {| start := start_; stop := stop_; step := step_; pb_color := c;
               width := width_; bar := EmptyString; percent := 0; ETA := ETA_;
               _counts := 0; _oldbar := EmptyString; _lentxt := 0;
               _range := []; _len := 0 |} in
  match ProgressBar_update 0 pb with
  | (Ret _, pb) =>
      let pb := set_counts 0 pb in
      let pb := set_oldbar EmptyString pb in
      let pb := set_lentxt 0 pb in
      let r := arange start_ stop_ step_ in
      Ret {| start := start pb; stop := stop pb; step := step pb;
             pb_color := pb_color pb; width := width pb; bar := bar pb;
             percent := percent pb; ETA := ETA pb; _counts := _counts pb;
             _oldbar := _oldbar pb; _lentxt := _lentxt pb;
             _range := r; _len := Z.of_nat (length r) |}
  | (Raise e, _) => Raise e
  | (Exit code, _) => Exit code
  end.

Definition color_truthy (c : option color) : bool :=
  match c with
  | None => false
  | Some (CInt n) => negb (n =? 0)
  | Some (CStr s) => negb (String.eqb s EmptyString)
  end.

Definition backspace : string := String (ascii_of_nat 8) EmptyString.
Definition cr : string := String (ascii_of_nat 13) EmptyString.

(** Lines 532-537: the bar goes to the terminal. *)
Definition show_bar (pb : ProgressBar) (s : string) : M unit :=
  match pb_color pb with
  | Some c => if color_truthy (pb_color pb) then printc [s] c EmptyString
              else stdout_write s
  | None => stdout_write s
  end ;;;
  if percent pb =? 100 then print [EmptyString] else ret tt.

(** [print] (lines 509-538).  [eta] stands for lines 517-528, which read
    the clock: the text they build, or the exception they end in. *)
Definition ProgressBar_print (eta : outcome string) (txt : string) (counts : option Z)
  : St (ProgressBar * World) unit :=
  fun '(pb, w) =>
    let c :=
      match counts with
      | Some c => if c =? 0 then _counts pb + step pb else c
      | None => _counts pb + step pb
      end in
    match ProgressBar_update c pb with
    | (Ret _, pb) =>
        if String.eqb (bar pb) (_oldbar pb) then (Ret tt, (pb, w))
        else
          let pb := set_oldbar (bar pb) pb in
          let eraser := repeat_str " " (_lentxt pb) +:+ repeat_str backspace (_lentxt pb) in
          match (if ETA pb then eta else Ret EmptyString) with
          | Ret e =>
              let txt := e +:+ txt in
              let s := bar pb +:+ " " +:+ eraser +:+ txt +:+ cr in
              match show_bar pb s w with
              | (Ret _, w) => (Ret tt, (set_lentxt (Z.of_nat (String.length txt)) pb, w))
              | (Raise e, w) => (Raise e, (pb, w))
              | (Exit code, w) => (Exit code, (pb, w))
              end
          | Raise e => (Raise e, (pb, w))
          | Exit code => (Exit code, (pb, w))
          end
    | (Raise e, pb) => (Raise e, (pb, w))
    | (Exit code, pb) => (Exit code, (pb, w))
    end.

End ProgressBarClass.

(** ** What the theorems speak of *)

(** [sub] occurs in [s], at any position. *)
Definition within (sub s : string) : Prop := exists a b, s = a +:+ sub +:+ b.

(** The state after a message was printed in red: with the escape
    sequences on a terminal that has colors, plain otherwise. *)
Definition printed_red (txt : string) (w : World) : World :=
  {| files := files w; dirs := dirs w; has_colors := has_colors w;
     stdout := stdout w ++
       [if has_colors w
        then esc +:+ "[1;31m" +:+ txt +:+ esc +:+ "[0m" +:+ nl
        else txt +:+ nl];
     commands := commands w |}.

(** No file and no directory has this path. *)
Definition missing (p : string) (w : World) : Prop :=
  files w !! p = None /\ dirs w !! p = None.

(** The name has none of the marks of the formats [write] knows. *)
Definition no_output_format (fileoutput : string) : Prop :=
  forall ext, ext ∈ [".vtk"; ".ply"; ".obj"; ".stl"; ".byu"; ".g"; ".vtp"] ->
              ~ within ext (lower fileoutput).

(** The elements that the written lines stand for. *)
Section Written.
Context `{PyFloat}.

Definition vertex_node (i : Z) (p : point) : ET.element :=
  let '(x, y, z) := p in
  ET.Element "vertex"
    [("index", str i); ("x", str_float x); ("y", str_float y); ("z", str_float z)] [].

Definition tetra_node (i : Z) (t : tetra) : ET.element :=
  let '(v0, v1, v2, v3) := t in
  ET.Element "tetrahedron"
    [("index", str i); ("v0", str v0); ("v1", str v1); ("v2", str v2); ("v3", str v3)] [].

(** The items of a list with their positions, counted from [k]. *)
Fixpoint numbered {A B} (f : Z -> A -> B) (k : Z) (l : list A) : list B :=
  match l with
  | [] => []
  | a :: l' => f k a :: numbered f (k + 1) l'
  end.

Definition dolfin_tree (m : neutral_mesh) : ET.element :=
  ET.Element "dolfin" [("xmlns:dolfin", "http://www.fenicsproject.org")]
    [ET.Element "mesh" [("celltype", "tetrahedron"); ("dim", "3")]
       [ET.Element "vertices" [("size", str (ncoords m))]
          (numbered vertex_node 0 (fdolf_coords m));
        ET.Element "cells" [("size", str (ntets m))]
          (numbered tetra_node 0 (idolf_tets m))]].

Definition dolfin_prolog : string :=
  ("<?xml" +:+ xml_attr "version" "1.0" +:+ xml_attr "encoding" "UTF-8" +:+ "?>" +:+ nl)
  +:+ ("<dolfin" +:+ xml_attr "xmlns:dolfin" "http://www.fenicsproject.org" +:+ ">" +:+ nl)
  +:+ ("  <mesh" +:+ xml_attr "celltype" "tetrahedron" +:+ xml_attr "dim" "3" +:+ ">" +:+ nl).

Definition dolfin_epilog : string :=
  ("  </mesh>" +:+ nl) +:+ "</dolfin>" +:+ nl.

(** The text that [write_dolfin] leaves in the file. *)
Definition dolfin_text (m : neutral_mesh) : string :=
  dolfin_prolog
  +:+ ("    <vertices" +:+ xml_attr "size" (str (ncoords m)) +:+ ">" +:+ nl)
  +:+ concat_str (numbered vertex_elem 0 (fdolf_coords m))
  +:+ ("    </vertices>" +:+ nl)
  +:+ ("    <cells" +:+ xml_attr "size" (str (ntets m)) +:+ ">" +:+ nl)
  +:+ concat_str (numbered tetra_elem 0 (idolf_tets m))
  +:+ ("    </cells>" +:+ nl)
  +:+ dolfin_epilog.

(** The state after a call of [convertNeutral2Xml] that parsed [m]. *)
Definition after_convert (outfile : option string) (m : neutral_mesh) (w : World) : World :=
  match outfile_given outfile with
  | Some o => with_file o (dolfin_text m) w
  | None => w
  end.

(** A name to write to is given, and it is not a directory. *)
Definition writable (outfile : option string) (w : World) : Prop :=
  forall o, outfile_given outfile = Some o -> dirs w !! o = None.

End Written.

(** ** The two text formats, in the words of the specification *)

Section Formats.
Context `{PyFloat}.

(** A coordinate line is "x y z". *)
Definition coord_line (l : string) (p : point) : Prop :=
  exists x y z, split l = [x; y; z] /\
    float_of_string x = Some p.1.1 /\ float_of_string y = Some p.1.2 /\
    float_of_string z = Some p.2.

(** A tetrahedron line is "id v0 v1 v2 v3", the ids counted from 1. *)
Definition tet_line (l : string) (t : tetra) : Prop :=
  exists id v0 v1 v2 v3 more a b c d,
    split l = id :: v0 :: v1 :: v2 :: v3 :: more /\
    int v0 = Ret a /\ int v1 = Ret b /\ int v2 = Ret c /\ int v3 = Ret d /\
    t = (a - 1, b - 1, c - 1, d - 1).

(** First line: N; next N lines: coordinates; next line: T; next T
    lines: tetrahedra. *)
Record neutral_format (lines : list string) (N : nat) (coords : list point)
       (T : nat) (tets : list tetra) : Prop := {
  nf_N : exists l, lines !! 0%nat = Some l /\ int l = Ret (Z.of_nat N);
  nf_ncoords : length coords = N;
  nf_coords : Forall2 coord_line (take N (drop 1 lines)) coords;
  nf_T : exists l, lines !! (N + 1)%nat = Some l /\ int l = Ret (Z.of_nat T);
  nf_ntets : length tets = T;
  nf_tets : Forall2 tet_line (take T (drop (N + 2) lines)) tets;
}.

(** Every vertex id written in a tetrahedron line is one of 1..N. *)
Definition ids_in_range (lines : list string) (N T : nat) : Prop :=
  forall (i k : nat) l tok v,
    (N + 2 <= i < N + 2 + T)%nat -> lines !! i = Some l ->
    (1 <= k <= 4)%nat -> split l !! k = Some tok -> int tok = Ret v ->
    1 <= v <= Z.of_nat N.

Definition tet_in_range (N : Z) (t : tetra) : Prop :=
  let '(a, b, c, d) := t in
  (0 <= a < N) /\ (0 <= b < N) /\ (0 <= c < N) /\ (0 <= d < N).

(** A node line is "id x y z". *)
Definition node_line (l : string) (p : point) : Prop :=
  exists id x y z more, split l = id :: x :: y :: z :: more /\
    float_of_string x = Some p.1.1 /\ float_of_string y = Some p.1.2 /\
    float_of_string z = Some p.2.

(** The last three tokens of an element line are the ids of a triangle. *)
Definition element_line (l : string) (e : Z * Z * Z) : Prop :=
  exists front a b c, split l = front ++ [a; b; c] /\
    int a = Ret e.1.1 /\ int b = Ret e.1.2 /\ int c = Ret e.2.

(** Line [i] is the first line in which [marker] occurs. *)
Definition first_marker (marker : string) (lines : list string) (i : nat) : Prop :=
  (exists l, lines !! i = Some l /\ within marker l) /\
  (forall j l, (j < i)%nat -> lines !! j = Some l -> ~ within marker l).

(** After the first line with [marker]: a count, then that many lines,
    each of which [line] relates to an item. *)
Definition counted_block {A} (marker : string) (line : string -> A -> Prop)
           (lines : list string) (items : list A) : Prop :=
  exists (i : nat) l,
    first_marker marker lines i /\
    lines !! (i + 1)%nat = Some l /\ int l = Ret (Z.of_nat (length items)) /\
    Forall2 line (take (length items) (drop (i + 2) lines)) items.

Definition gmesh_format (lines : list string) (nodes : list point)
           (elements : list (Z * Z * Z)) : Prop :=
  counted_block "$Nodes" node_line lines nodes /\
  counted_block "$Elements" element_line lines elements.

(** The counts a file declares: [N] on line 0, [T] on line [N+1]. *)
Definition declares_N (lines : list string) (N : Z) : Prop :=
  exists l, getitem lines 0 = Ret l /\ int l = Ret N.
Definition declares_T (lines : list string) (N T : Z) : Prop :=
  exists l, getitem lines (N + 1) = Ret l /\ int l = Ret T.

(** The malformed files: a coordinate line that is not three tokens, a
    tetrahedron line of fewer than five tokens, or fewer lines than the
    declared counts ask for. *)
Inductive malformed (lines : list string) : Prop :=
| bad_coord_line N i l :
    declares_N lines N -> 1 <= i <= N ->
    getitem lines i = Ret l -> length (split l) <> 3%nat ->
    malformed lines
| bad_tet_line N T i l :
    declares_N lines N -> declares_T lines N T ->
    N + 2 <= i < N + T + 2 ->
    getitem lines i = Ret l -> (length (split l) < 5)%nat ->
    malformed lines
| no_tet_count N :
    declares_N lines N -> Z.of_nat (length lines) <= N + 1 ->
    malformed lines
| too_few_lines N T :
    declares_N lines N -> declares_T lines N T ->
    Z.of_nat (length lines) < N + T + 2 ->
    malformed lines.

End Formats.

(** ** Instances and sample files *)

(** An instance of the float interface for running the definitions on
    examples: the integer-valued floats written without a fraction. *)
Definition ZFloat : PyFloat := {|
  float := Z;
  float_of_string := fun s => match int s with Ret z => Some z | _ => None end;
  str_float := str;
  float_of_Z := fun z => z;
  float_div := Z.div;
  float_mul := Z.mul;
  float_is_zero := Z.eqb 0;
  float_round := fun z => z;
  float_round_to := fun z _ => z;
|}.

Definition lines_of (l : list string) : string := concat_str (map (fun s => s +:+ nl) l).

Definition sample_neutral : string :=
  lines_of ["4"; "0 0 0"; "1 0 0"; "0 1 0"; "0 0 1"; "1"; "1 1 2 3 4"].

Definition world0 : World :=
  {| files := ∅; dirs := ∅; has_colors := false; stdout := []; commands := [] |}.


(** A toolkit for running the loaders on examples: every call into it
    returns, and builds the same object. *)
Definition StubToolkit : @Toolkit ZFloat := {|
  pyobj := bool;
  vtkobj := unit;
  is_True := fun b => b;
  py_string := fun _ => false;
  gunzip := fun s => Ret s;
  xml_actor := fun _ _ _ _ _ _ _ => ret (PyObj tt);
  neutral_actor := fun _ _ _ _ _ _ _ => ret (PyObj tt);
  gmesh_actor := fun _ _ _ _ _ _ => ret (PyObj tt);
  pcd_actor := fun _ _ _ _ => ret (PyObj tt);
  volume_actor := fun _ _ => ret (PyObj tt);
  image_actor := fun _ _ _ => ret (PyObj tt);
  read_poly := fun _ _ _ => ret (Some tt);
  clean_poly := fun _ => ret tt;
  makeActor := fun _ _ => ret tt;
  set_point_size := fun _ _ => ret tt;
  obj_export := fun _ _ => ret tt;
  vtk_write := fun _ _ _ => ret tt;
|}.

(** A directory [meshes] whose one entry is an empty neutral file. *)
Definition empty_neutral_dir : World :=
  {| files := {[ "meshes/m.neutral" := EmptyString ]};
     dirs := {[ "meshes" := ["m.neutral"] ]};
     has_colors := false; stdout := []; commands := [] |}.

(** A directory [meshes] with two surface files. *)
Definition two_meshes_dir : World :=
  {| files := {[ "meshes/a.stl" := "solid a"; "meshes/b.ply" := "ply" ]};
     dirs := {[ "meshes" := ["b.ply"; "a.stl"] ]};
     has_colors := false; stdout := []; commands := [] |}.

Definition sample_world : World := with_file "in.neutral" sample_neutral world0.

Definition sample_coords : list (Z * Z * Z) := [(0, 0, 0); (1, 0, 0); (0, 1, 0); (0, 0, 1)].
Definition sample_tets : list (Z * Z * Z * Z) := [(0, 1, 2, 3)].


(** One coordinate line has two tokens only. *)
Definition short_line_neutral : string := lines_of ["1"; "0 0"; "0"].

Definition sample_gmsh : string :=
  lines_of ["$MeshFormat"; "2.2 0 8"; "$EndMeshFormat";
            "$Nodes"; "3"; "1 0 0 0"; "2 1 0 0"; "3 0 1 0"; "$EndNodes";
            "$Elements"; "1"; "1 2 2 0 1 1 2 3"; "$EndElements"].

Definition sample_video : @Video ZFloat :=
  {| name := "movie.avi"; duration := None; fps := 12%Z : @float ZFloat; frames := [] |}.

(** ** More of the source: the edge loop of loadNeutral, the reader of
    loadPCD, Video.addFrame and Video.pause *)

Section MoreParsers.
Context `{PyFloat}.

(** *** loadNeutral, the loop over the tetrahedra (lines 164-188)

    For each tetrahedron the four points are looked up in [coords], and
    six line sources are set between them and added to [polylns]. *)

Definition segment : Type := point * point.

Definition tet_edges (coords : list point) (cn : tetra) : outcome (list segment) :=
  let '(c0, c1, c2, c3) := cn in
  let* p0 := getitem coords c0 in
  let* p1 := getitem coords c1 in
  let* p2 := getitem coords c2 in
  let* p3 := getitem coords c3 in
  Ret [(p0, p1); (p1, p2); (p2, p0); (p0, p3); (p3, p1); (p3, p2)].

Definition neutral_edges (coords : list point) (connectivity : list tetra)
  : outcome (list segment) :=
  let* per_tet := for_append (tet_edges coords) connectivity in
  Ret (concat per_tet).

(** *** loadPCD, the reading of the points (lines 273-290) *)

Record pcd_state := {
  pcd_start : bool;
  pcd_pts : list point;
  pcd_N : Z;
  pcd_expN : Z;
}.

Definition pcd_init : pcd_state :=
  {| pcd_start := false; pcd_pts := []; pcd_N := 0; pcd_expN := 0 |}.

(** The first [if] of the body: [None] stands for the [break]. *)
Definition pcd_point (st : pcd_state) (text : string) : outcome (option pcd_state) :=
  if pcd_start st then
    if pcd_expN st <=? pcd_N st then Ret None
    else
      let l := split text in
      let* a := getitem l 0 in let* x := pyfloat a in
      let* b := getitem l 1 in let* y := pyfloat b in
      let* c := getitem l 2 in let* z := pyfloat c in
      Ret (Some {| pcd_start := pcd_start st; pcd_pts := pcd_pts st ++ [(x, y, z)];
                   pcd_N := pcd_N st + 1; pcd_expN := pcd_expN st |})
  else Ret (Some st).

(** The second and the third [if] of the body. *)
Definition pcd_header (st : pcd_state) (text : string) : outcome pcd_state :=
  let* st :=
    if negb (pcd_start st) && contains "POINTS" text then
      let* tok := getitem (split text) 1 in
      let* n := int tok in
      Ret {| pcd_start := pcd_start st; pcd_pts := pcd_pts st;
             pcd_N := pcd_N st; pcd_expN := n |}
    else Ret st in
  if negb (pcd_start st) && contains "DATA ascii" text then
    Ret {| pcd_start := true; pcd_pts := pcd_pts st;
           pcd_N := pcd_N st; pcd_expN := pcd_expN st |}
  else Ret st.

(** [for text in lines: ...] *)
Fixpoint pcd_loop (lines : list string) (st : pcd_state) : outcome pcd_state :=
  match lines with
  | [] => Ret st
  | text :: rest =>
      let* r := pcd_point st text in
      match r with
      | None => Ret st
      | Some st =>
          let* st := pcd_header st text in
          pcd_loop rest st
      end
  end.

(** Lines 273-290: the points that were read, after the message about a
    count that does not match. *)
Definition pcd_points (filename : string) : M (list point) :=
  let+ lines := read_lines filename in
  let+ st := lift (pcd_loop lines pcd_init) in
  (if pcd_expN st =? pcd_N st then ret tt
   else printc ["Mismatch in pcd file"; str (pcd_expN st);
                str (Z.of_nat (length (pcd_pts st)))] (CStr "red") nl) ;;;
  ret (pcd_pts st).

(** *** Video.addFrame and Video.pause (lines 450-463) *)

Definition frame_path (i : Z) : string := "/tmp/vpvid/" +:+ str i +:+ ".png".

Definition add_frame (fr : string) (v : Video) : Video :=
  {| name := name v; duration := duration v; fps := fps v; frames := frames v ++ [fr] |}.

(** [addFrame]: [screenshot] is the function of lines 423-433, all calls
    into the toolkit. *)
Definition Video_addFrame (screenshot : string -> M unit) (v : Video) : M Video :=
  let fr := frame_path (Z.of_nat (length (frames v))) in
  screenshot fr ;;;
  ret (add_frame fr v).

(** The body of the loop of [pause], run [n] times. *)
Fixpoint pause_loop (status : string -> Z) (fr : string) (n : nat) (v : Video) : M Video :=
  match n with
  | O => ret v
  | S n' =>
      let fr2 := frame_path (Z.of_nat (length (frames v))) in
      let v := add_frame fr2 v in
      os_system status ("cp -f " +:+ fr +:+ " " +:+ fr2) ;;;
      pause_loop status fr n' v
  end.

(** [pause]: [float_int] is [int(x)] on a float, which fails on an
    infinity or a NaN. *)
Definition Video_pause (float_int : float -> outcome Z) (status : string -> Z)
           (pause : pynum) (v : Video) : M Video :=
  let+ fr := lift (getitem (frames v) (-1)) in
  let+ n := lift (float_int (float_mul (fps v) (num_float pause))) in
  pause_loop status fr (Z.to_nat n) v.

End MoreParsers.

(** An index that [l[i]] accepts for a list of length [n]: from [-n] to [n-1]. *)
Definition index_ok (n : nat) (i : Z) : Prop := - Z.of_nat n <= i < Z.of_nat n.

Definition tet_index_ok (n : nat) (t : Z * Z * Z * Z) : Prop :=
  let '(a, b, c, d) := t in index_ok n a /\ index_ok n b /\ index_ok n c /\ index_ok n d.

(** The ways in which the block after [marker] falls short: there is no
    line for the count, the count is no integer, a line of the block has
    fewer than [width] tokens, or there are fewer lines than the count. *)
Inductive gmesh_bad_block (marker : string) (width : nat) (lines : list string) : Prop :=
| gmesh_no_count (i : nat) :
    first_marker marker lines i -> (length lines <= i + 1)%nat ->
    gmesh_bad_block marker width lines
| gmesh_bad_count (i : nat) l :
    first_marker marker lines i -> lines !! (i + 1)%nat = Some l -> ~ returns (int l) ->
    gmesh_bad_block marker width lines
| gmesh_short_line (i : nat) l n (j : nat) lj :
    first_marker marker lines i -> lines !! (i + 1)%nat = Some l -> int l = Ret n ->
    Z.of_nat i + 2 <= Z.of_nat j < Z.of_nat i + 2 + n ->
    lines !! j = Some lj -> (length (split lj) < width)%nat ->
    gmesh_bad_block marker width lines
| gmesh_missing_line (i : nat) l n :
    first_marker marker lines i -> lines !! (i + 1)%nat = Some l -> int l = Ret n ->
    Z.of_nat (length lines) < Z.of_nat i + 2 + n ->
    gmesh_bad_block marker width lines.

Section PcdFormat.
Context `{PyFloat}.

(** A line of the header that says nothing to [loadPCD]. *)
Definition pcd_plain (l : string) : Prop :=
  ~ within "POINTS" l /\ ~ within "DATA ascii" l.

(** The line "POINTS n". *)
Definition pcd_count_line (l : string) (n : Z) : Prop :=
  within "POINTS" l /\ ~ within "DATA ascii" l /\
  exists tok, split l !! 1%nat = Some tok /\ int tok = Ret n.

(** A line of data starts with "x y z". *)
Definition pcd_line (l : string) (p : point) : Prop :=
  exists x y z more, split l = x :: y :: z :: more /\
    float_of_string x = Some p.1.1 /\ float_of_string y = Some p.1.2 /\
    float_of_string z = Some p.2.

(** A header with one POINTS line, the line "DATA ascii", and as many
    lines of data as the header counts; what follows is not read. *)
Definition pcd_format (lines : list string) (pts : list point) : Prop :=
  exists pre pl mid dl data rest,
    lines = pre ++ pl :: mid ++ dl :: data ++ rest /\
    Forall pcd_plain pre /\ Forall pcd_plain mid /\
    pcd_count_line pl (Z.of_nat (length data)) /\
    within "DATA ascii" dl /\ ~ within "POINTS" dl /\
    Forall2 pcd_line data pts.

(** A header with one POINTS line and no line "DATA ascii". *)
Definition pcd_header_only (lines : list string) (n : Z) : Prop :=
  exists pre pl mid,
    lines = pre ++ pl :: mid /\
    Forall pcd_plain pre /\ Forall pcd_plain mid /\ pcd_count_line pl n.

(** What the loop keeps: [N] is the number of points, no point is read
    before the line "DATA ascii", and never more than the header counts. *)
Definition pcd_inv (st : pcd_state) : Prop :=
  pcd_N st = Z.of_nat (length (pcd_pts st)) /\
  (pcd_start st = false -> pcd_pts st = []) /\
  (pcd_pts st = [] \/ pcd_N st <= pcd_expN st).

End PcdFormat.

(** ** Video: the names of the frames *)

Section VideoFrames.
Context `{PyFloat}.

(** The frames are /tmp/vpvid/0.png, /tmp/vpvid/1.png, ... in this order. *)
Definition numbered_frames (v : Video) : Prop :=
  frames v = map (fun i => frame_path (Z.of_nat i)) (seq 0 (length (frames v))).

(** The shell command by which [pause] copies a frame. *)
Definition copy_frame (fr : string) (i : nat) : string :=
  "cp -f " +:+ fr +:+ " " +:+ frame_path (Z.of_nat i).

End VideoFrames.

(** ** More sample data *)

(** A Gmsh file whose $Nodes block counts two nodes and holds one. *)
Definition short_gmsh : string := lines_of ["$Nodes"; "2"; "1 0 0 0"].

(** A text without $Nodes and without $Elements. *)
Definition no_marker_gmsh : string := lines_of ["$MeshFormat"; "2.2 0 8"; "$EndMeshFormat"].

Definition sample_pcd : string :=
  lines_of ["# .PCD v0.7"; "FIELDS x y z"; "POINTS 2"; "DATA ascii"; "0 0 0"; "1 2 3"].

Definition binary_pcd : string :=
  lines_of ["FIELDS x y z"; "POINTS 2"; "DATA binary"].

Definition two_frames : @Video ZFloat :=
  {| name := "./out/movie.avi"; duration := Some (PInt 2); fps := 12%Z : @float ZFloat;
     frames := [frame_path 0; frame_path 1] |}.

Definition sample_bar : ProgressBar :=
  {| start := 0; stop := 10; step := 1; pb_color := None; width := 25;
     bar := EmptyString; percent := 0; ETA := false; _counts := 0;
     _oldbar := EmptyString; _lentxt := 0; _range := []; _len := 0 |}.

(** A state in which the path mesh.gmsh is a directory. *)
Definition dir_world : World :=
  {| files := ∅; dirs := {[ "mesh.gmsh" := [] ]};
     has_colors := false; stdout := []; commands := [] |}.

(** A mesh whose one vertex has no z. *)
Definition flat_vertex : ET.element := ET.Element "vertex" [("x", "0"); ("y", "0")] [].
Definition flat_vertices : ET.element := ET.Element "vertices" [] [flat_vertex].
Definition flat_mesh : ET.element :=
  ET.Element "dolfin" [] [ET.Element "mesh" [] [flat_vertices]].

(** A toolkit whose unpacking, readers and writers fail. *)
Definition FailingToolkit : @Toolkit ZFloat := {|
  pyobj := bool;
  vtkobj := unit;
  is_True := fun b => b;
  py_string := fun _ => false;
  gunzip := fun s => Raise IOError;
  xml_actor := fun _ _ _ _ _ _ _ => ret (PyObj tt);
  neutral_actor := fun _ _ _ _ _ _ _ => ret (PyObj tt);
  gmesh_actor := fun _ _ _ _ _ _ => ret (PyObj tt);
  pcd_actor := fun _ _ _ _ => ret (PyObj tt);
  volume_actor := fun _ _ => ret (PyObj tt);
  image_actor := fun _ _ _ => ret (PyObj tt);
  read_poly := fun _ _ _ => ret None;
  clean_poly := fun _ => ret tt;
  makeActor := fun _ _ => ret tt;
  set_point_size := fun _ _ => ret tt;
  obj_export := fun _ _ => ret tt;
  vtk_write := fun _ _ _ => exit 2;
|}.

(** * Theorems *)

(** ** The Python runtime *)

Section PyFacts.

Lemma pure_not_returns_raises {A} (m : outcome A) :
  pure m -> ~ returns m -> raises m.
Proof.
  intros Hp Hn. destruct m as [a|e|c].
  - exfalso. apply Hn. by exists a.
  - by exists e.
  - by destruct (Hp c).
Qed.

Lemma pure_bind {A B} (m : outcome A) (k : A -> outcome B) :
  pure m -> (forall a, pure (k a)) -> pure (Py.bind m k).
Proof. intros Hm Hk c. destruct m as [a|e|c']; simpl; [apply Hk|done|by destruct (Hm c')]. Qed.

Lemma pure_for_append {A B} (f : A -> outcome B) xs :
  (forall x, pure (f x)) -> pure (for_append f xs).
Proof.
  intros Hf. induction xs as [|x xs IH]; simpl; [done|].
  apply pure_bind; [apply Hf|]. intros y. apply pure_bind; [apply IH|done].
Qed.

Lemma pure_getitem {A} (l : list A) i : pure (getitem l i).
Proof. intros c. unfold getitem. repeat case_match; done. Qed.

Lemma pure_int s : pure (int s).
Proof. intros c. unfold int. repeat case_match; done. Qed.

Lemma bind_Ret_inv {A B} (m : outcome A) (k : A -> outcome B) b :
  Py.bind m k = Ret b -> exists a, m = Ret a /\ k a = Ret b.
Proof. destruct m as [a|e|c]; simpl; [eauto|done|done]. Qed.

Lemma returns_bind_inv {A B} (m : outcome A) (k : A -> outcome B) :
  returns (Py.bind m k) -> exists a, m = Ret a /\ returns (k a).
Proof. intros [b Hb]. apply bind_Ret_inv in Hb as (a & ? & ?). exists a. split; [done|by exists b]. Qed.

(** *** Indexing *)

Lemma getitem_lookup {A} (l : list A) (i : nat) a :
  l !! i = Some a -> getitem l (Z.of_nat i) = Ret a.
Proof.
  intros Hl. pose proof (lookup_lt_Some _ _ _ Hl) as Hlt.
  unfold getitem.
  replace (Z.of_nat i <? 0) with false by (symmetry; apply Z.ltb_ge; lia).
  replace (0 <=? Z.of_nat i) with true by (symmetry; apply Z.leb_le; lia).
  replace (Z.of_nat i <? Z.of_nat (length l)) with true by (symmetry; apply Z.ltb_lt; lia).
  simpl. by rewrite Nat2Z.id, Hl.
Qed.

Lemma getitem_out_of_range {A} (l : list A) (i : Z) :
  Z.of_nat (length l) <= i -> getitem l i = Raise IndexError.
Proof.
  intros Hi. unfold getitem.
  replace (i <? 0) with false by (symmetry; apply Z.ltb_ge; lia).
  replace (i <? Z.of_nat (length l)) with false by (symmetry; apply Z.ltb_ge; lia).
  by rewrite andb_false_r.
Qed.

Lemma getitem_Ret_nonneg {A} (l : list A) (i : Z) a :
  0 <= i -> getitem l i = Ret a -> l !! Z.to_nat i = Some a.
Proof.
  intros Hi. unfold getitem.
  replace (i <? 0) with false by (symmetry; apply Z.ltb_ge; lia).
  destruct (_ && _); [|done]. destruct (l !! Z.to_nat i); [|done]. congruence.
Qed.

(** *** Ranges and loops *)

Lemma range_length a b : length (range a b) = Z.to_nat (b - a).
Proof. unfold range. by rewrite length_map, length_seq. Qed.

Lemma range_lookup a b (k : nat) :
  (k < Z.to_nat (b - a))%nat -> range a b !! k = Some (a + Z.of_nat k).
Proof.
  intros Hk. unfold range. rewrite list_lookup_fmap.
  rewrite lookup_seq_lt by done. done.
Qed.

Lemma range_In a b x : a <= x < b -> x ∈ range a b.
Proof.
  intros Hx. apply list_elem_of_lookup. exists (Z.to_nat (x - a)).
  rewrite range_lookup by lia. f_equal. lia.
Qed.

Lemma for_append_Forall2 {A B} (f : A -> outcome B) xs ys :
  Forall2 (fun x y => f x = Ret y) xs ys -> for_append f xs = Ret ys.
Proof. induction 1 as [|x y xs ys Hxy _ IH]; simpl; [done|]. by rewrite Hxy, IH. Qed.

Lemma for_append_Ret_inv {A B} (f : A -> outcome B) xs ys :
  for_append f xs = Ret ys -> Forall2 (fun x y => f x = Ret y) xs ys.
Proof.
  revert ys. induction xs as [|x xs IH]; simpl; intros ys Hys.
  - injection Hys as <-. constructor.
  - apply bind_Ret_inv in Hys as (y & Hy & Hys).
    apply bind_Ret_inv in Hys as (ys' & Hys' & Hys).
    injection Hys as <-. constructor; auto.
Qed.

Lemma for_append_fails {A B} (f : A -> outcome B) xs x :
  x ∈ xs -> ~ returns (f x) -> ~ returns (for_append f xs).
Proof.
  intros Hx Hf [ys Hys]. apply for_append_Ret_inv in Hys.
  apply list_elem_of_lookup in Hx as [k Hk].
  destruct (Forall2_lookup_l _ _ _ _ _ Hys Hk) as (y & _ & Hy).
  apply Hf. by exists y.
Qed.

Lemma for_append_range {B} (f : Z -> outcome B) (a : Z) (ys : list B) :
  (forall (k : nat) y, ys !! k = Some y -> f (a + Z.of_nat k) = Ret y) ->
  for_append f (range a (a + Z.of_nat (length ys))) = Ret ys.
Proof.
  intros Hf. apply for_append_Forall2.
  apply Forall2_same_length_lookup_2.
  - rewrite range_length. lia.
  - intros k x y Hx Hy.
    pose proof (lookup_lt_Some _ _ _ Hy).
    rewrite range_lookup in Hx by lia. injection Hx as <-. by apply Hf.
Qed.

End PyFacts.

(** ** convertNeutral2Xml: the parsing half *)

Section NeutralFacts.
Context `{PyFloat}.

Lemma pyfloat_Some s x : float_of_string s = Some x -> pyfloat s = Ret x.
Proof. unfold pyfloat. by intros ->. Qed.

Lemma pure_pyfloat s : pure (pyfloat s).
Proof. intros c. unfold pyfloat. by case_match. Qed.

Lemma neutral_coord_line lines (i : nat) l p :
  lines !! i = Some l -> coord_line l p ->
  neutral_coord lines (Z.of_nat i) = Ret p.
Proof.
  intros Hl (x & y & z & Hs & Hx & Hy & Hz).
  unfold neutral_coord. rewrite (getitem_lookup _ _ _ Hl). simpl. rewrite Hs.
  rewrite (pyfloat_Some _ _ Hx), (pyfloat_Some _ _ Hy), (pyfloat_Some _ _ Hz).
  simpl. by destruct p as [[??]?].
Qed.

Lemma neutral_tet_line lines (i : nat) l t :
  lines !! i = Some l -> tet_line l t ->
  neutral_tet lines (Z.of_nat i) = Ret t.
Proof.
  intros Hl (id & v0 & v1 & v2 & v3 & more & a & b & c & d & Hs & Ha & Hb & Hc & Hd & ->).
  unfold neutral_tet. rewrite (getitem_lookup _ _ _ Hl). simpl. rewrite Hs.
  change 1 with (Z.of_nat 1). change 2 with (Z.of_nat 2).
  change 3 with (Z.of_nat 3). change 4 with (Z.of_nat 4).
  rewrite (getitem_lookup _ 1 v0), (getitem_lookup _ 2 v1),
    (getitem_lookup _ 3 v2), (getitem_lookup _ 4 v3) by done.
  simpl. by rewrite Ha, Hb, Hc, Hd.
Qed.

Lemma neutral_parse_format lines N coords T tets :
  neutral_format lines N coords T tets ->
  neutral_parse lines =
    Ret {| ncoords := Z.of_nat N; fdolf_coords := coords;
           ntets := Z.of_nat T; idolf_tets := tets |}.
Proof.
  intros [(l0 & Hl0 & HN) Hlen Hcs (lt & Hlt & HT) Hlen' Hts].
  unfold neutral_parse.
  pose proof (getitem_lookup _ 0 _ Hl0) as Hg0. change (Z.of_nat 0) with 0 in Hg0.
  rewrite Hg0. simpl. rewrite HN. simpl.
  replace (Z.of_nat N + 1) with (1 + Z.of_nat (length coords)) by lia.
  rewrite for_append_range; simpl.
  2:{ intros k p Hp.
      destruct (Forall2_lookup_r _ _ _ _ _ Hcs Hp) as (l & Hl & Hlp).
      apply lookup_take_Some in Hl as [Hl _]. rewrite lookup_drop in Hl.
      replace (1 + Z.of_nat k) with (Z.of_nat (1 + k)) by lia.
      by eapply neutral_coord_line. }
  replace (1 + Z.of_nat (length coords)) with (Z.of_nat (N + 1)) by lia.
  rewrite (getitem_lookup _ _ _ Hlt). simpl. rewrite HT. simpl.
  replace (Z.of_nat N + Z.of_nat T + 2)
    with (Z.of_nat N + 2 + Z.of_nat (length tets)) by lia.
  rewrite for_append_range; simpl; [done|].
  intros k t Ht.
  destruct (Forall2_lookup_r _ _ _ _ _ Hts Ht) as (l & Hl & Hlt').
  apply lookup_take_Some in Hl as [Hl _]. rewrite lookup_drop in Hl.
  replace (Z.of_nat N + 2 + Z.of_nat k) with (Z.of_nat (N + 2 + k)) by lia.
  by eapply neutral_tet_line.
Qed.

End NeutralFacts.

Section NeutralBounds.
Context `{PyFloat}.

Lemma pure_neutral_coord lines i : pure (neutral_coord lines i).
Proof.
  unfold neutral_coord. apply pure_bind; [apply pure_getitem|]. intros l.
  destruct (split l) as [|x [|y [|z [|??]]]]; try done.
  repeat (apply pure_bind; [apply pure_pyfloat|]; intros ?). done.
Qed.

Lemma pure_neutral_tet lines i : pure (neutral_tet lines i).
Proof.
  unfold neutral_tet. apply pure_bind; [apply pure_getitem|]. intros l. simpl.
  repeat (apply pure_bind; [apply pure_getitem|]; intros ?).
  repeat (apply pure_bind; [apply pure_int|]; intros ?). done.
Qed.

Lemma pure_neutral_parse lines : pure (neutral_parse lines).
Proof.
  unfold neutral_parse.
  apply pure_bind; [apply pure_getitem|]; intros ?.
  apply pure_bind; [apply pure_int|]; intros ?.
  apply pure_bind; [apply pure_for_append, pure_neutral_coord|]; intros ?.
  apply pure_bind; [apply pure_getitem|]; intros ?.
  apply pure_bind; [apply pure_int|]; intros ?.
  apply pure_bind; [apply pure_for_append, pure_neutral_tet|]; intros ?.
  done.
Qed.

(** What a returning parse went through. *)
Lemma neutral_parse_returns_inv lines :
  returns (neutral_parse lines) ->
  exists N T,
    declares_N lines N /\ declares_T lines N T /\
    returns (for_append (neutral_coord lines) (range 1 (N + 1))) /\
    returns (for_append (neutral_tet lines) (range (N + 2) (N + T + 2))).
Proof.
  unfold neutral_parse. intros Hr.
  apply returns_bind_inv in Hr as (l0 & Hl0 & Hr).
  apply returns_bind_inv in Hr as (N & HN & Hr).
  apply returns_bind_inv in Hr as (cs & Hcs & Hr).
  apply returns_bind_inv in Hr as (lt & Hlt & Hr).
  apply returns_bind_inv in Hr as (T & HT & Hr).
  apply returns_bind_inv in Hr as (ts & Hts & Hr).
  exists N, T. repeat split.
  - by exists l0.
  - by exists lt.
  - by exists cs.
  - by exists ts.
Qed.

Lemma declares_N_inj lines N N' : declares_N lines N -> declares_N lines N' -> N = N'.
Proof. intros (l & Hl & Hn) (l' & Hl' & Hn'). congruence. Qed.

Lemma declares_T_inj lines N T T' :
  declares_T lines N T -> declares_T lines N T' -> T = T'.
Proof. intros (l & Hl & Hn) (l' & Hl' & Hn'). congruence. Qed.

Lemma neutral_coord_bad lines i l :
  getitem lines i = Ret l -> length (split l) <> 3%nat ->
  ~ returns (neutral_coord lines i).
Proof.
  intros Hl Hlen [p Hp]. unfold neutral_coord in Hp. rewrite Hl in Hp. simpl in Hp.
  destruct (split l) as [|x [|y [|z [|??]]]]; simpl in *; done.
Qed.

Lemma neutral_tet_bad lines i l :
  getitem lines i = Ret l -> (length (split l) < 5)%nat ->
  ~ returns (neutral_tet lines i).
Proof.
  intros Hl Hlen [t Ht]. unfold neutral_tet in Ht. rewrite Hl in Ht. simpl in Ht.
  apply bind_Ret_inv in Ht as (v0 & _ & Ht).
  apply bind_Ret_inv in Ht as (v1 & _ & Ht).
  apply bind_Ret_inv in Ht as (v2 & _ & Ht).
  apply bind_Ret_inv in Ht as (v3 & Hv3 & _).
  rewrite getitem_out_of_range in Hv3; [done|lia].
Qed.

Lemma malformed_not_returns lines :
  malformed lines -> ~ returns (neutral_parse lines).
Proof.
  intros Hbad Hr.
  apply neutral_parse_returns_inv in Hr as (N & T & HN & HT & Hcs & Hts).
  destruct Hbad as [N' i l HN' Hi Hl Hlen|N' T' i l HN' HT' Hi Hl Hlen|N' HN' Hlen|N' T' HN' HT' Hlen].
  - rewrite <- (declares_N_inj _ _ _ HN HN') in *.
    revert Hcs. apply (for_append_fails _ _ i); [apply range_In; lia|].
    by eapply neutral_coord_bad.
  - rewrite <- (declares_N_inj _ _ _ HN HN') in *.
    rewrite <- (declares_T_inj _ _ _ _ HT HT') in *.
    revert Hts. apply (for_append_fails _ _ i); [apply range_In; lia|].
    by eapply neutral_tet_bad.
  - rewrite <- (declares_N_inj _ _ _ HN HN') in *.
    destruct HT as (l & Hl & _). rewrite getitem_out_of_range in Hl; done.
  - rewrite <- (declares_N_inj _ _ _ HN HN') in *.
    rewrite <- (declares_T_inj _ _ _ _ HT HT') in *.
    destruct HT as (l & Hl & _).
    assert (N + 1 < 0 \/ N + 1 < Z.of_nat (length lines)) as Hpos.
    { destruct (Z_lt_ge_dec (N + 1) 0) as [|Hge]; [by left|right].
      apply getitem_Ret_nonneg in Hl; [|lia].
      apply lookup_lt_Some in Hl. lia. }
    revert Hts. apply (for_append_fails _ _ (N + T + 1)); [apply range_In; lia|].
    intros [t Ht]. unfold neutral_tet in Ht.
    rewrite getitem_out_of_range in Ht; [done|lia].
Qed.

End NeutralBounds.

(** ** Substrings *)

Section Substrings.

Lemma startswith_app p b : startswith p (p +:+ b) = true.
Proof.
  induction p as [|c p IH]; [done|].
  change (String c p +:+ b) with (String c (p +:+ b)). simpl.
  by rewrite Ascii.eqb_refl, IH.
Qed.

Lemma startswith_inv p s : startswith p s = true -> exists b, s = p +:+ b.
Proof.
  revert s. induction p as [|c p IH]; intros s Hs.
  - by exists s.
  - destruct s as [|d s]; [done|]. simpl in Hs.
    apply andb_true_iff in Hs as [Hc Hp]. apply Ascii.eqb_eq in Hc as ->.
    destruct (IH _ Hp) as [b ->]. by exists b.
Qed.

Lemma contains_within p s : contains p s = true <-> within p s.
Proof.
  split.
  - induction s as [|c s IH]; simpl; intros Hc.
    + rewrite orb_false_r in Hc. apply startswith_inv in Hc as [b Hb].
      by exists EmptyString, b.
    + apply orb_true_iff in Hc as [Hc|Hc].
      * apply startswith_inv in Hc as [b Hb]. by exists EmptyString, b.
      * destruct (IH Hc) as (a & b & ->). by exists (String c a), b.
  - intros (a & b & ->). induction a as [|c a IH].
    + change (EmptyString +:+ p +:+ b) with (p +:+ b).
      destruct (p +:+ b) eqn:E; simpl; rewrite <- E, startswith_app; done.
    + change (String c a +:+ p +:+ b) with (String c (a +:+ p +:+ b)).
      simpl. rewrite IH. apply orb_true_r.
Qed.

Lemma contains_not_within p s : contains p s = false <-> ~ within p s.
Proof.
  rewrite <- contains_within. destruct (contains p s); split; done.
Qed.

Lemma string_app_assoc (a b c : string) : (a +:+ b) +:+ c = a +:+ b +:+ c.
Proof.
  induction a as [|x a IH]; [done|].
  change ((String x a +:+ b) +:+ c) with (String x ((a +:+ b) +:+ c)).
  by rewrite IH.
Qed.

Lemma within_longer p q s : within (p +:+ q) s -> within p s.
Proof. intros (a & b & ->). exists a, (q +:+ b). by rewrite string_app_assoc. Qed.

End Substrings.

(** ** loadFile: the choice of the loader *)

Section Dispatch.
Context `{Toolkit}.

Ltac pick_branch :=
  repeat match goal with
  | Hc : within _ _ |- _ => apply contains_within in Hc
  | Hc : ~ within _ _ |- _ => apply contains_not_within in Hc
  end;
  unfold loadFile;
  repeat match goal with
  | Hc : contains _ _ = _ |- _ => rewrite Hc; clear Hc
  end;
  rewrite ?orb_true_r; simpl; try reflexivity.

(** C5: [loadFile] chooses the loader by the marks that occur anywhere
    in the lowercased file name, tried in this order: .xml (or .xml.gz)
    gives [loadXml], then .neutral gives [loadNeutral], .gmsh gives
    [loadGmesh], .pcd gives [loadPCD], .tif or .slc gives [loadVolume],
    .png, .jpg or .jpeg gives [load2Dimage], and every other name falls
    through to [loadPoly]: [loadFile] calls it on the name, ends as it
    ends when it raises or exits, prints "Unable to load" and returns
    [False] when it gives no poly data, and makes the actor of the poly
    data otherwise.  A mark is not tied to the end of the name, and an
    earlier test wins over a later one. *)
Theorem loadFile_dispatch filename c alpha wire bc edges legend texture
        smoothing threshold connectivity scaling :
  let fl := lower filename in
  let call := loadFile filename c alpha wire bc edges legend texture
                       smoothing threshold connectivity scaling in
  (within ".xml" fl \/ within ".xml.gz" fl ->
   call = loadXml filename c alpha wire bc edges legend) /\
  (~ within ".xml" fl -> within ".neutral" fl ->
   call = loadNeutral filename c alpha bc edges legend) /\
  (~ within ".xml" fl -> ~ within ".neutral" fl -> within ".gmsh" fl ->
   call = loadGmesh filename c alpha bc legend) /\
  (~ within ".xml" fl -> ~ within ".neutral" fl -> ~ within ".gmsh" fl ->
   within ".pcd" fl ->
   call = loadPCD filename c alpha legend) /\
  (~ within ".xml" fl -> ~ within ".neutral" fl -> ~ within ".gmsh" fl ->
   ~ within ".pcd" fl -> within ".tif" fl \/ within ".slc" fl ->
   call = loadVolume filename c alpha wire bc edges legend texture
                     smoothing threshold connectivity scaling) /\
  (~ within ".xml" fl -> ~ within ".neutral" fl -> ~ within ".gmsh" fl ->
   ~ within ".pcd" fl -> ~ within ".tif" fl -> ~ within ".slc" fl ->
   within ".png" fl \/ within ".jpg" fl \/ within ".jpeg" fl ->
   call = load2Dimage filename alpha) /\
  (~ within ".xml" fl -> ~ within ".neutral" fl -> ~ within ".gmsh" fl ->
   ~ within ".pcd" fl -> ~ within ".tif" fl -> ~ within ".slc" fl ->
   ~ within ".png" fl -> ~ within ".jpg" fl -> ~ within ".jpeg" fl ->
   call = loadFile_else filename c alpha wire bc edges legend texture /\
   forall w,
     call w
     = match loadPoly filename w with
       | (Ret (PyObj p), w1) =>
           (let+ actor :=
              makeActor p [c; alpha; wire; bc; edges;
                           if is_True legend then py_string (basename filename) else legend;
                           texture] in
            (if contains ".txt" fl || contains ".xyz" fl
             then set_point_size actor 4 else ret tt) ;;;
            ret (PyObj actor)) w1
       | (Ret _, w1) => (Ret PyFalse, printed_red ("Unable to load " +:+ filename) w1)
       | (Raise e, w1) => (Raise e, w1)
       | (Exit code, w1) => (Exit code, w1)
       end).
Proof.
  intros fl call. subst call fl.
  assert (forall s, ~ within ".xml" s -> contains ".xml.gz" s = false) as Hgz.
  { intros s Hs. apply contains_not_within. intros Hw. apply Hs.
    by apply (within_longer ".xml" ".gz"). }
  repeat apply conj.
  - intros [Hx|Hx].
    + pick_branch.
    + apply (within_longer ".xml" ".gz") in Hx. pick_branch.
  - intros Hx Hn. pose proof (Hgz _ Hx). pick_branch.
  - intros Hx Hn Hg. pose proof (Hgz _ Hx). pick_branch.
  - intros Hx Hn Hg Hp. pose proof (Hgz _ Hx). pick_branch.
  - intros Hx Hn Hg Hp [Hv|Hv]; pose proof (Hgz _ Hx); pick_branch.
  - intros Hx Hn Hg Hp Ht Hs [Hi|[Hi|Hi]]; pose proof (Hgz _ Hx); pick_branch.
  - intros Hx Hn Hg Hp Ht Hs H1 H2 H3. pose proof (Hgz _ Hx).
    assert (loadFile filename c alpha wire bc edges legend texture
                     smoothing threshold connectivity scaling
            = loadFile_else filename c alpha wire bc edges legend texture) as Heq
        by pick_branch.
    split; [exact Heq|]. intros w. rewrite Heq. unfold loadFile_else, bindS.
    destruct (loadPoly filename w) as [[[| |p]|e|code] w1]; try reflexivity;
      unfold printc, printed_red, stdout_write, ret; by destruct (has_colors w1).
Qed.

End Dispatch.

(** ** Paths that do not exist, formats that are not known *)

Section Missing.
Context `{Toolkit}.

Lemma path_exists_missing p w : missing p w -> path_exists p w = (Ret false, w).
Proof. intros [Hf Hd]. unfold path_exists. by rewrite Hf, Hd. Qed.

Lemma printc_red_int strings w :
  printc strings (CInt 1) nl w = (Ret tt, printed_red (join " " strings) w).
Proof. unfold printc, printed_red, stdout_write. by destruct (has_colors w). Qed.

Lemma printc_red_name strings w :
  printc strings (CStr "r") nl w = (Ret tt, printed_red (join " " strings) w).
Proof. unfold printc, printed_red, stdout_write. by destruct (has_colors w). Qed.

Ltac missing_path Hm :=
  unfold bindS; rewrite (path_exists_missing _ _ Hm); simpl;
  rewrite printc_red_int; reflexivity.

(** C7: on a path that does not exist, [loadPoly], [loadXml],
    [loadNeutral], [loadGmesh], [loadPCD] and [loadVolume] print their
    message in red and return [None] without raising, and [loadDir] prints
    and ends the process with [exit(0)].  On a name with none of the marks
    of the output formats, [write] prints and ends the process with
    [exit(1)]. *)
Theorem missing_path_or_format (w : World) :
  (forall p c alpha wire bc edges legend texture smoothing threshold connectivity scaling,
      missing p w ->
      loadPoly p w = (Ret PyNone, printed_red ("Error in loadPoly: Cannot find " +:+ p) w) /\
      loadXml p c alpha wire bc edges legend w
      = (Ret PyNone, printed_red ("Error in loadXml: Cannot find " +:+ p) w) /\
      loadNeutral p c alpha bc edges legend w
      = (Ret PyNone, printed_red ("Error in loadNeutral: Cannot find " +:+ p) w) /\
      loadGmesh p c alpha bc legend w
      = (Ret PyNone, printed_red ("Error in loadGmesh: Cannot find " +:+ p) w) /\
      loadPCD p c alpha legend w
      = (Ret PyNone, printed_red ("Error in loadPCD: Cannot find file " +:+ p) w) /\
      loadVolume p c alpha wire bc edges legend texture
                 smoothing threshold connectivity scaling w
      = (Ret PyNone, printed_red ("Error in loadVolume: Cannot find file " +:+ p) w) /\
      loadDir p c alpha wire bc edges legend texture
              smoothing threshold connectivity scaling w
      = (Exit 0, printed_red ("Error in loadDir: Cannot find " +:+ p) w)) /\
  (forall obj fileoutput,
      no_output_format fileoutput ->
      write obj fileoutput w
      = (Exit 1, printed_red ("Unavailable format in file " +:+ fileoutput) w)).
Proof.
  split.
  - intros p c alpha wire bc edges legend texture smoothing threshold connectivity scaling Hm.
    repeat apply conj.
    + unfold loadPoly. missing_path Hm.
    + unfold loadXml. missing_path Hm.
    + unfold loadNeutral. missing_path Hm.
    + unfold loadGmesh. missing_path Hm.
    + unfold loadPCD. missing_path Hm.
    + unfold loadVolume. missing_path Hm.
    + unfold loadDir. missing_path Hm.
  - intros obj fileoutput Hno. unfold write.
    assert (forall ext, ext ∈ [".vtk"; ".ply"; ".obj"; ".stl"; ".byu"; ".g"; ".vtp"] ->
                        contains ext (lower fileoutput) = false) as Hc.
    { intros ext Hext. apply contains_not_within. by apply Hno. }
    rewrite !Hc by (repeat first [apply list_elem_of_here | apply list_elem_of_further]).
    simpl. unfold bindS. rewrite printc_red_name. reflexivity.
Qed.

End Missing.

(** ** loadDir *)

Section Directory.
Context `{Toolkit}.

Lemma path_exists_dir p entries w :
  dirs w !! p = Some entries -> path_exists p w = (Ret true, w).
Proof. intros Hd. unfold path_exists. rewrite Hd. by destruct (files w !! p). Qed.

(** C6, as amended: on a directory that exists, [loadDir] calls
    [loadFile] on each entry in sorted order and appends nothing to
    [acts]: when all the calls return it returns the empty list, and when
    one of them raises or exits, it ends in the same way. *)
Theorem loadDir_discards mydir entries
        c alpha wire bc edges legend texture smoothing threshold connectivity scaling w :
  dirs w !! mydir = Some entries ->
  loadDir mydir c alpha wire bc edges legend texture
          smoothing threshold connectivity scaling w
  = match for_each (fun ifile =>
                      loadFile (mydir +:+ "/" +:+ ifile) c alpha wire bc edges legend
                               texture smoothing threshold connectivity scaling)
                   (sorted entries) w with
    | (Ret _, w') => (Ret [], w')
    | (Raise e, w') => (Raise e, w')
    | (Exit code, w') => (Exit code, w')
    end.
Proof.
  intros Hd. unfold loadDir, bindS at 1.
  rewrite (path_exists_dir _ _ _ Hd). simpl.
  unfold bindS at 1, listdir. rewrite Hd. unfold bindS.
  by destruct (for_each _ _ w) as [[[]|e|code] w'].
Qed.

End Directory.

(** C6, as amended, on a directory of two files that both load. *)
Lemma loadDir_discards_witness :
  dirs two_meshes_dir !! "meshes" = Some ["b.ply"; "a.stl"] /\
  (@for_each World _ _
     (fun ifile => @loadFile ZFloat StubToolkit ("meshes" +:+ "/" +:+ ifile)
                     false false false false false false false false false false false)
     (sorted ["b.ply"; "a.stl"]) two_meshes_dir).1 = Ret tt /\
  (@loadDir ZFloat StubToolkit "meshes"
     false false false false false false false false false false false two_meshes_dir).1
  = Ret [].
Proof.
  split; [reflexivity|]. split; [vm_compute; reflexivity|].
  rewrite (@loadDir_discards ZFloat StubToolkit "meshes" ["b.ply"; "a.stl"]) by reflexivity.
  vm_compute. reflexivity.
Defined.

(** C6, as stated, fails: an entry that makes its loader raise ends
    [loadDir] with that exception. *)
Lemma loadDir_raises :
  is_Some (dirs empty_neutral_dir !! "meshes") /\
  (@loadDir ZFloat StubToolkit "meshes"
     false false false false false false false false false false false empty_neutral_dir).1
  = Raise IndexError.
Proof. split; [by eexists|]. vm_compute. reflexivity. Qed.

(** ** Video.close *)

Section VideoFacts.
Context `{PyFloat}.

(** C9: [Video.close] binds the frame rate only in the branch where
    [self.duration] is set, as the number of frames over the duration.
    With [duration=None] it raises [UnboundLocalError] before the encoder
    is called, so it returns only if the duration is not [None]. *)
Theorem Video_close_fps status (v : Video) (w : World) :
  (duration v = None -> Video_close status v w = (Raise UnboundLocalError, w)) /\
  (forall v' w', Video_close status v w = (Ret v', w') -> duration v <> None) /\
  (forall d, duration v = Some d -> num_truthy d = true ->
     exists v' w',
       Video_close status v w = (Ret v', w') /\
       last (commands w')
       = Some (ffmpeg (str_float (float_div (float_of_Z (Z.of_nat (length (frames v))))
                                            (num_float d)))
                      (before_dot (name v) +:+ ".mp4"))).
Proof.
  repeat apply conj.
  - intros Hd. unfold Video_close, bindS. by rewrite Hd.
  - intros v' w' Hc Hd. unfold Video_close, bindS in Hc. by rewrite Hd in Hc.
  - intros d Hd Ht. unfold Video_close, bindS. rewrite Hd, Ht.
    unfold printc at 1, stdout_write, os_system, ret.
    destruct (has_colors w) eqn:Hcol; simpl;
      destruct (status _ =? 0); simpl;
      unfold printc, stdout_write; simpl; rewrite ?Hcol; simpl;
      eexists _, _; (split; [reflexivity|]); simpl; by rewrite last_snoc.
Qed.

End VideoFacts.

(** ** ProgressBar *)

Section ProgressBarFacts.
Context `{PyFloat}.

Lemma round_div_bounds a b :
  0 < b -> 0 <= a <= 100 * b -> 0 <= round_div a b <= 100.
Proof.
  intros Hb Ha. unfold round_div.
  pose proof (Z.div_mod a b ltac:(lia)) as Hdm.
  pose proof (Z.mod_pos_bound a b Hb) as Hr.
  assert (0 <= a / b) by (apply Z.div_pos; lia).
  assert (a / b <= 100) by (apply Z.div_le_upper_bound; lia).
  rewrite (Z.abs_eq (a mod b)), (Z.abs_eq b) by lia.
  destruct (Z.compare_spec (2 * (a mod b)) b); [destruct (Z.even _)| |]; nia.
Qed.

(** [_update] leaves the count between [start] and [stop], and the
    percentage between 0 and 100. *)
Lemma ProgressBar_update_clamps counts pb :
  start pb < stop pb ->
  exists pb',
    ProgressBar_update counts pb = (Ret tt, pb') /\
    start pb' = start pb /\ stop pb' = stop pb /\
    start pb <= _counts pb' <= stop pb /\
    0 <= percent pb' <= 100.
Proof.
  intros Hlt. unfold ProgressBar_update.
  set (c := if counts <? start pb then start pb
            else if stop pb <? counts then stop pb else counts).
  assert (start pb <= c <= stop pb) as Hc.
  { subst c. destruct (Z.ltb_spec counts (start pb)); [lia|].
    destruct (Z.ltb_spec (stop pb) counts); lia. }
  cbn [set_counts set_percent start stop _counts percent].
  destruct (Z.eqb_spec (stop pb - start pb) 0) as [|_]; [lia|].
  eexists. split; [reflexivity|].
  repeat match goal with |- context [if ?b then _ else _] => destruct b end;
    cbn; (repeat apply conj; try done; try lia; apply round_div_bounds; nia).
Qed.

(** [print] updates the count through [_update]. *)
Lemma ProgressBar_print_clamps eta txt counts pb w :
  start pb < stop pb ->
  let '(_, (pb', _)) := ProgressBar_print eta txt counts (pb, w) in
  start pb <= _counts pb' <= stop pb /\ 0 <= percent pb' <= 100.
Proof.
  intros Hlt. unfold ProgressBar_print.
  match goal with |- context [ProgressBar_update ?c pb] =>
    destruct (ProgressBar_update_clamps c pb Hlt) as (pb' & -> & _ & _ & Hc & Hp) end.
  destruct (String.eqb _ _); [done|].
  destruct (if ETA _ then eta else _) as [e|e|code]; try done.
  by destruct (show_bar _ _ w) as [[[]|e'|code] w'].
Qed.

(** C10: the claim is that after construction [_counts] lies between
    [start] and [stop].  The constructor calls [_update(0)] and then sets
    [_counts] to 0: for a bar from 5 to 10 the count it leaves is below
    [start]. *)
Theorem ProgressBar_init_counts arange step_ c ETA_ width_ :
  exists pb,
    ProgressBar_init arange 5 10 step_ c ETA_ width_ = Ret pb /\
    start pb = 5 /\ stop pb = 10 /\ _counts pb = 0 /\
    ~ (start pb <= _counts pb <= stop pb).
Proof.
  unfold ProgressBar_init, ProgressBar_update.
  cbn [set_counts set_percent start stop _counts percent].
  change (0 <? 5) with true. change (10 - 5 =? 0) with false. cbv iota.
  repeat match goal with |- context [if ?b then _ else _] => destruct b end;
    eexists; (split; [reflexivity|]); cbn; repeat apply conj; try done; lia.
Qed.

End ProgressBarFacts.

(** ** loadGmesh: the parsing part *)

Section GmeshFacts.
Context `{PyFloat}.

Lemma getitem_from_end {A} (l : list A) (k : nat) a :
  (1 <= k <= length l)%nat -> l !! (length l - k)%nat = Some a ->
  getitem l (- Z.of_nat k) = Ret a.
Proof.
  intros Hk Hl. unfold getitem.
  replace (- Z.of_nat k <? 0) with true by (symmetry; apply Z.ltb_lt; lia).
  replace (0 <=? Z.of_nat (length l) + - Z.of_nat k) with true
    by (symmetry; apply Z.leb_le; lia).
  replace (Z.of_nat (length l) + - Z.of_nat k <? Z.of_nat (length l)) with true
    by (symmetry; apply Z.ltb_lt; lia).
  simpl.
  replace (Z.to_nat (Z.of_nat (length l) + - Z.of_nat k)) with (length l - k)%nat by lia.
  by rewrite Hl.
Qed.

Lemma first_with_first marker lines (i : nat) k :
  first_marker marker lines i ->
  first_with marker lines k = Some (k + Z.of_nat i).
Proof.
  revert i k. induction lines as [|l0 lines IH]; intros i k [(l & Hl & Hw) Hfirst].
  - done.
  - simpl. destruct i as [|i].
    + injection Hl as ->. apply contains_within in Hw. rewrite Hw. f_equal. lia.
    + assert (contains marker l0 = false) as ->.
      { apply contains_not_within. apply (Hfirst 0%nat); [lia|done]. }
      rewrite (IH i (k + 1)); [f_equal; lia|]. split.
      * by exists l.
      * intros j l' Hj Hl'. apply (Hfirst (S j)); [lia|done].
Qed.

Lemma gmesh_node_line lines (i : nat) l p :
  lines !! i = Some l -> node_line l p -> gmesh_node lines (Z.of_nat i) = Ret p.
Proof.
  intros Hl (id & x & y & z & more & Hs & Hx & Hy & Hz).
  unfold gmesh_node. rewrite (getitem_lookup _ _ _ Hl). simpl. rewrite Hs.
  change 1 with (Z.of_nat 1). change 2 with (Z.of_nat 2). change 3 with (Z.of_nat 3).
  rewrite (getitem_lookup _ 1 x) by done. simpl. rewrite (pyfloat_Some _ _ Hx). simpl.
  rewrite (getitem_lookup _ 2 y) by done. simpl. rewrite (pyfloat_Some _ _ Hy). simpl.
  rewrite (getitem_lookup _ 3 z) by done. simpl. rewrite (pyfloat_Some _ _ Hz). simpl.
  by destruct p as [[??]?].
Qed.

Lemma gmesh_element_line lines (i : nat) l e :
  lines !! i = Some l -> element_line l e -> gmesh_element lines (Z.of_nat i) = Ret e.
Proof.
  intros Hl (front & a & b & c & Hs & Ha & Hb & Hc).
  unfold gmesh_element. rewrite (getitem_lookup _ _ _ Hl). simpl. rewrite Hs.
  assert (length (front ++ [a; b; c]) = (length front + 3)%nat) as Hlen
      by (rewrite length_app; done).
  change (-3) with (- Z.of_nat 3). change (-2) with (- Z.of_nat 2).
  change (-1) with (- Z.of_nat 1).
  rewrite (getitem_from_end _ 3 a); [|lia|].
  2:{ rewrite Hlen, lookup_app_r by lia.
      by replace (length front + 3 - 3 - length front)%nat with 0%nat by lia. }
  simpl. rewrite Ha. simpl.
  rewrite (getitem_from_end _ 2 b); [|lia|].
  2:{ rewrite Hlen, lookup_app_r by lia.
      by replace (length front + 3 - 2 - length front)%nat with 1%nat by lia. }
  simpl. rewrite Hb. simpl.
  rewrite (getitem_from_end _ 1 c); [|lia|].
  2:{ rewrite Hlen, lookup_app_r by lia.
      by replace (length front + 3 - 1 - length front)%nat with 2%nat by lia. }
  simpl. rewrite Hc. simpl. by destruct e as [[??]?].
Qed.

(** The count and the loop that follows it read a counted block. *)
Lemma gmesh_block {A} marker (line : string -> A -> Prop)
      (body : list string -> Z -> outcome A) lines items :
  (forall (i : nat) l a, lines !! i = Some l -> line l a -> body lines (Z.of_nat i) = Ret a) ->
  counted_block marker line lines items ->
  exists index,
    gmesh_count marker lines = Ret (index, Z.of_nat (length items)) /\
    for_append (body lines) (range (index + 1) (index + 1 + Z.of_nat (length items)))
    = Ret items.
Proof.
  intros Hbody (i & l & Hfirst & Hl & Hn & Hitems).
  exists (Z.of_nat (i + 1)). split.
  - unfold gmesh_count. rewrite (first_with_first _ _ i) by done.
    replace (0 + Z.of_nat i + 1) with (Z.of_nat (i + 1)) by lia.
    rewrite (getitem_lookup _ _ _ Hl). simpl. by rewrite Hn.
  - apply for_append_range. intros k a Ha.
    destruct (Forall2_lookup_r _ _ _ _ _ Hitems Ha) as (l' & Hl' & Hla).
    apply lookup_take_Some in Hl' as [Hl' _]. rewrite lookup_drop in Hl'.
    replace (Z.of_nat (i + 1) + 1 + Z.of_nat k) with (Z.of_nat (i + 2 + k)) by lia.
    by eapply Hbody.
Qed.

Lemma gmesh_parse_format lines nodes elements :
  gmesh_format lines nodes elements ->
  gmesh_parse lines = Ret (nodes, elements).
Proof.
  intros [Hn He]. unfold gmesh_parse.
  destruct (gmesh_block _ _ gmesh_node _ _ (gmesh_node_line lines) Hn) as (i & -> & Hnodes).
  simpl. rewrite Hnodes. simpl.
  destruct (gmesh_block _ _ gmesh_element _ _ (gmesh_element_line lines) He)
    as (k & -> & Helems).
  simpl. by rewrite Helems.
Qed.

End GmeshFacts.

(** ** Reading back the XML that was written *)

Section ETFacts.

Lemma run_app a b st : ET.run (a +:+ b) st = ET.run b (ET.run a st).
Proof.
  revert st. induction a as [|c a IH]; intros st; [done|].
  change (String c a +:+ b) with (String c (a +:+ b)). simpl. apply IH.
Qed.

Lemma string_app_nil_r (s : string) : s +:+ EmptyString = s.
Proof.
  induction s as [|c s IH]; [done|].
  change (String c s +:+ EmptyString) with (String c (s +:+ EmptyString)). by rewrite IH.
Qed.

Lemma rev_app_rev_app a b c :
  String.rev_app (String.rev_app a b) c = String.rev_app b (a +:+ c).
Proof.
  revert b c. induction a as [|x a IH]; intros b c; [done|].
  simpl. rewrite IH. done.
Qed.

Lemma rev_rev_app v : String.rev (String.rev_app v EmptyString) = v.
Proof. unfold String.rev. rewrite rev_app_rev_app. simpl. apply string_app_nil_r. Qed.

(** A plain text is read as the value of an attribute. *)
Lemma run_value t a n v acc stack root :
  attr_plain v = true ->
  ET.run v (ET.PState (ET.AttrValue t a n "034" acc) stack root)
  = ET.PState (ET.AttrValue t a n "034" (String.rev_app v acc)) stack root.
Proof.
  revert acc. induction v as [|c v IH]; intros acc Hv; [done|].
  simpl in Hv. apply andb_true_iff in Hv as [Hc Hv].
  apply andb_true_iff in Hc as [Hc Hamp]. apply andb_true_iff in Hc as [Hq Hlt].
  apply negb_true_iff in Hq, Hlt, Hamp.
  simpl. unfold ET.step at 1. simpl. rewrite Hq, Hlt, Hamp. simpl.
  unfold ET.goto. simpl. by rewrite IH.
Qed.

Lemma run_dq st : ET.run dq st = ET.step st "034".
Proof. done. Qed.

(** The quoted value ends the attribute. *)
Lemma run_value_quoted t a n v stack root :
  attr_plain v = true ->
  ET.run (dq +:+ v +:+ dq) (ET.PState (ET.AttrQuote t a n) stack root)
  = ET.PState (ET.Attrs t ((String.rev n, v) :: a)) stack root.
Proof.
  intros Hv. rewrite !run_app, !run_dq.
  unfold ET.step at 2. simpl. unfold ET.goto. simpl.
  rewrite run_value by done.
  unfold ET.step. simpl. unfold ET.goto. simpl. by rewrite rev_rev_app.
Qed.

Lemma name_char_not c :
  ET.name_char c = true ->
  ET.xml_space c = false /\ Ascii.eqb c "=" = false /\ Ascii.eqb c ">" = false
  /\ Ascii.eqb c "/" = false.
Proof.
  destruct c as [[] [] [] [] [] [] [] []]; vm_compute; intros; try done.
Qed.

Lemma run_attr_name t a n acc stack root :
  name_chars n = true ->
  ET.run n (ET.PState (ET.AttrName t a acc) stack root)
  = ET.PState (ET.AttrName t a (String.rev_app n acc)) stack root.
Proof.
  revert acc. induction n as [|c n IH]; intros acc Hn; [done|].
  simpl in Hn. apply andb_true_iff in Hn as [Hc Hn].
  simpl. unfold ET.step at 1. simpl. rewrite Hc. unfold ET.goto. simpl. by rewrite IH.
Qed.

Lemma run_space_attrs t a stack root :
  ET.run " " (ET.PState (ET.Attrs t a) stack root) = ET.PState (ET.Attrs t a) stack root.
Proof. done. Qed.

(** One attribute more. *)
Lemma run_xml_attr t a n v stack root :
  name_ok n = true -> attr_plain v = true ->
  ET.run (xml_attr n v) (ET.PState (ET.Attrs t a) stack root)
  = ET.PState (ET.Attrs t ((n, v) :: a)) stack root.
Proof.
  intros Hn Hv. unfold xml_attr. rewrite run_app, run_space_attrs.
  destruct n as [|c n]; [done|]. simpl in Hn. apply andb_true_iff in Hn as [Hc Hn].
  change (String c n +:+ ?r) with (String c (n +:+ r)).
  simpl. unfold ET.step at 1. simpl.
  assert (ET.xml_space c = false /\ Ascii.eqb c ">" = false /\ Ascii.eqb c "/" = false)
    as (-> & -> & ->).
  { assert (ET.name_char c = true) as Hnc by (unfold ET.name_char; by rewrite Hc).
    apply name_char_not in Hnc. tauto. }
  rewrite Hc. unfold ET.goto. simpl.
  rewrite run_app, run_attr_name by done.
  change ("=" +:+ ?r) with (String "="%char r). simpl.
  unfold ET.step at 1. simpl. unfold ET.goto. simpl.
  change (EmptyString +:+ ?r) with r. change (ascii_of_nat 34) with "034"%char.
  rewrite run_app, run_value, run_dq by done.
  unfold ET.step. simpl. unfold ET.goto. simpl.
  rewrite rev_rev_app.
  change (String.rev_app n (String c EmptyString))
    with (String.rev_app (String c n) EmptyString).
  by rewrite rev_rev_app.
Qed.

(** The first attribute, after the name of the element. *)
Lemma run_xml_attr_first tn n v stack root :
  name_ok n = true -> attr_plain v = true ->
  ET.run (xml_attr n v) (ET.PState (ET.Name tn) stack root)
  = ET.PState (ET.Attrs (String.rev tn) [(n, v)]) stack root.
Proof.
  intros Hn Hv. rewrite <- (run_xml_attr _ [] n v) by done.
  unfold xml_attr. by rewrite !(run_app " ").
Qed.

(** [str] of an integer is plain. *)
Lemma attr_plain_uint d : attr_plain (NilEmpty.string_of_uint d) = true.
Proof. induction d; simpl; try done. Qed.

Lemma attr_plain_str z : attr_plain (str z) = true.
Proof.
  unfold str. destruct (Z.to_int z) as [d|d]; simpl.
  - destruct d; try done; apply (attr_plain_uint (_ d)).
  - destruct d; try done; apply (attr_plain_uint (_ d)).
Qed.

End ETFacts.

Section ReadBack.
Context `{PyFloatRepr}.

Local Opaque str xml_attr.

Ltac run_attrs :=
  repeat first
    [ rewrite run_xml_attr_first by first [done | apply attr_plain_str | apply float_str_plain]
    | rewrite run_xml_attr by first [done | apply attr_plain_str | apply float_str_plain] ].

Lemma run_vertex_elem i p t a cs stack root :
  ET.run (vertex_elem i p) (ET.PState ET.Content (ET.Frame t a cs :: stack) root)
  = ET.PState ET.Content (ET.Frame t a (vertex_node i p :: cs) :: stack) root.
Proof.
  destruct p as [[x y] z]. unfold vertex_elem, vertex_node.
  rewrite !run_app.
  change (ET.run "      <vertex" ?st) with
    (ET.PState (ET.Name "xetrev") (ET.Frame t a cs :: stack) root).
  run_attrs. reflexivity.
Qed.

Lemma run_tetra_elem i tt t a cs stack root :
  ET.run (tetra_elem i tt) (ET.PState ET.Content (ET.Frame t a cs :: stack) root)
  = ET.PState ET.Content (ET.Frame t a (tetra_node i tt :: cs) :: stack) root.
Proof.
  destruct tt as [[[v0 v1] v2] v3]. unfold tetra_elem, tetra_node.
  rewrite !run_app.
  change (ET.run "      <tetrahedron" ?st) with
    (ET.PState (ET.Name "nordehartet") (ET.Frame t a cs :: stack) root).
  run_attrs. reflexivity.
Qed.

Lemma run_numbered {A} (elem : Z -> A -> string) (node : Z -> A -> ET.element) :
  (forall i x t a cs stack root,
      ET.run (elem i x) (ET.PState ET.Content (ET.Frame t a cs :: stack) root)
      = ET.PState ET.Content (ET.Frame t a (node i x :: cs) :: stack) root) ->
  forall l k t a cs stack root,
    ET.run (concat_str (numbered elem k l))
           (ET.PState ET.Content (ET.Frame t a cs :: stack) root)
    = ET.PState ET.Content (ET.Frame t a (rev (numbered node k l) ++ cs) :: stack) root.
Proof.
  intros Hone l. induction l as [|x l IH]; intros k t a cs stack root; [done|].
  simpl. rewrite run_app, Hone, IH. by rewrite <- app_assoc.
Qed.

Lemma run_seq a b st st' final :
  ET.run a st = st' -> ET.run b st' = final -> ET.run (a +:+ b) st = final.
Proof. intros <- <-. apply run_app. Qed.

(** The lines around the vertex and tetrahedron lines. *)
Lemma run_prolog :
  ET.run dolfin_prolog ET.start
  = ET.PState ET.Content
      [ET.Frame "mesh" [("celltype", "tetrahedron"); ("dim", "3")] [];
       ET.Frame "dolfin" [("xmlns:dolfin", "http://www.fenicsproject.org")] []]
      None.
Proof. vm_compute. reflexivity. Qed.

Lemma run_open_vertices size f stack :
  ET.run ("    <vertices" +:+ xml_attr "size" (str size) +:+ ">" +:+ nl)
         (ET.PState ET.Content (f :: stack) None)
  = ET.PState ET.Content (ET.Frame "vertices" [("size", str size)] [] :: f :: stack) None.
Proof.
  eapply run_seq; [vm_compute; reflexivity|].
  eapply run_seq; [apply run_xml_attr_first; [done|apply attr_plain_str]|].
  reflexivity.
Qed.

Lemma run_open_cells size f stack :
  ET.run ("    <cells" +:+ xml_attr "size" (str size) +:+ ">" +:+ nl)
         (ET.PState ET.Content (f :: stack) None)
  = ET.PState ET.Content (ET.Frame "cells" [("size", str size)] [] :: f :: stack) None.
Proof.
  eapply run_seq; [vm_compute; reflexivity|].
  eapply run_seq; [apply run_xml_attr_first; [done|apply attr_plain_str]|].
  reflexivity.
Qed.

Lemma run_close_vertices a cs pt pa pcs stack :
  ET.run ("    </vertices>" +:+ nl)
         (ET.PState ET.Content (ET.Frame "vertices" a cs :: ET.Frame pt pa pcs :: stack) None)
  = ET.PState ET.Content
      (ET.Frame pt pa (ET.Element "vertices" a (rev cs) :: pcs) :: stack) None.
Proof. reflexivity. Qed.

Lemma run_close_cells a cs pt pa pcs stack :
  ET.run ("    </cells>" +:+ nl)
         (ET.PState ET.Content (ET.Frame "cells" a cs :: ET.Frame pt pa pcs :: stack) None)
  = ET.PState ET.Content
      (ET.Frame pt pa (ET.Element "cells" a (rev cs) :: pcs) :: stack) None.
Proof. reflexivity. Qed.

Lemma run_epilog a cs pa pcs :
  ET.run dolfin_epilog
         (ET.PState ET.Content [ET.Frame "mesh" a cs; ET.Frame "dolfin" pa pcs] None)
  = ET.PState ET.Content []
      (Some (ET.Element "dolfin" pa (rev (ET.Element "mesh" a (rev cs) :: pcs)))).
Proof. reflexivity. Qed.

(** The text that was written is read to the tree it stands for. *)
Lemma run_dolfin_text m :
  ET.run (dolfin_text m) ET.start = ET.PState ET.Content [] (Some (dolfin_tree m)).
Proof.
  unfold dolfin_text.
  eapply run_seq; [apply run_prolog|].
  eapply run_seq; [apply run_open_vertices|].
  eapply run_seq; [apply (run_numbered vertex_elem vertex_node), run_vertex_elem|].
  eapply run_seq; [apply run_close_vertices|].
  eapply run_seq; [apply run_open_cells|].
  eapply run_seq; [apply (run_numbered tetra_elem tetra_node), run_tetra_elem|].
  eapply run_seq; [apply run_close_cells|].
  rewrite run_epilog. unfold dolfin_tree.
  rewrite !app_nil_r, !rev_involutive. reflexivity.
Qed.

Lemma parse_dolfin_text m : ET.parse (dolfin_text m) = Ret (dolfin_tree m).
Proof. unfold ET.parse. by rewrite run_dolfin_text. Qed.

End ReadBack.

(** ** [int(str(z))] *)

Section IntStr.

Lemma int_chars_uint d : int_chars (NilEmpty.string_of_uint d) = true.
Proof. induction d; simpl; try done. Qed.

Lemma int_chars_str z : int_chars (str z) = true.
Proof.
  unfold str. destruct (Z.to_int z) as [d|d]; simpl.
  - destruct d; try done; apply (int_chars_uint (_ d)).
  - destruct d; try done; apply (int_chars_uint (_ d)).
Qed.

Lemma int_char_no_space c : int_char c = true -> is_space c = false.
Proof. destruct c as [[] [] [] [] [] [] [] []]; vm_compute; done. Qed.

Lemma int_chars_no_space s : int_chars s = true -> no_space s = true.
Proof.
  induction s as [|c s IH]; [done|]. simpl. intros Hs.
  apply andb_true_iff in Hs as [Hc Hs]. by rewrite (int_char_no_space _ Hc), IH.
Qed.

Lemma no_space_rev_app a b :
  no_space a = true -> no_space b = true -> no_space (String.rev_app a b) = true.
Proof.
  revert b. induction a as [|c a IH]; intros b Ha Hb; [done|].
  simpl in Ha. apply andb_true_iff in Ha as [Hc Ha].
  simpl. apply IH; [done|]. simpl. by rewrite Hc, Hb.
Qed.

Lemma lstrip_no_space s : no_space s = true -> lstrip s = s.
Proof.
  destruct s as [|c s]; [done|]. simpl. intros Hs.
  apply andb_true_iff in Hs as [Hc _]. apply negb_true_iff in Hc. by rewrite Hc.
Qed.

Lemma strip_no_space s : no_space s = true -> strip s = s.
Proof.
  intros Hs. unfold strip. rewrite (lstrip_no_space s) by done.
  rewrite lstrip_no_space by (by apply no_space_rev_app).
  apply rev_rev_app.
Qed.

Lemma int_str z : int (str z) = Ret z.
Proof.
  unfold int. rewrite strip_no_space by apply int_chars_no_space, int_chars_str.
  assert (NilZero.int_of_string (str z) = Some (Z.to_int z)) as Hparse.
  { unfold str. apply NilZero.isi.
    - destruct z; simpl; try done. intros [= Hp].
      by apply DecimalPos.Unsigned.to_uint_nonnil in Hp.
    - destruct z; simpl; try done. intros [= Hp].
      by apply DecimalPos.Unsigned.to_uint_nonnil in Hp. }
  pose proof (int_chars_str z) as Hchars.
  destruct (str z) as [|c r] eqn:Hstr; [done|].
  simpl in Hchars. apply andb_true_iff in Hchars as [Hc _].
  assert (Ascii.eqb c "+" = false) as Hplus
      by (clear -Hc; destruct c as [[] [] [] [] [] [] [] []]; done).
  replace (match String c r with
           | String "+"%char d => option_map Z.of_uint (NilZero.uint_of_string d)
           | _ => option_map Z.of_int (NilZero.int_of_string (String c r))
           end)
    with (option_map Z.of_int (NilZero.int_of_string (String c r))).
  - rewrite Hparse. simpl. by rewrite DecimalZ.of_to.
  - clear -Hplus. destruct c as [[] [] [] [] [] [] [] []]; done.
Qed.

End IntStr.

(** ** The extraction loop on the tree that was written *)

Section Extraction.
Context `{PyFloatRepr}.

Lemma xml_vertex_node i p : xml_vertex (vertex_node i p) = Ret p.
Proof.
  destruct p as [[x y] z]. unfold xml_vertex, xml_float, vertex_node, ET.get. simpl.
  unfold pyfloat. by rewrite !float_str_inv.
Qed.

Lemma xml_tetra_node i t : xml_tetrahedron (tetra_node i t) = Ret t.
Proof.
  destruct t as [[[v0 v1] v2] v3].
  unfold xml_tetrahedron, xml_int, tetra_node, ET.get. simpl.
  by rewrite !int_str.
Qed.

Lemma findall_numbered {A} (node : Z -> A -> ET.element) name k l :
  (forall i x, ET.tag (node i x) = name) ->
  ET.findall name (ET.Element "e" [] (numbered node k l)) = numbered node k l.
Proof.
  intros Htag. unfold ET.findall. simpl.
  revert k. induction l as [|x l IH]; intros k; [done|].
  simpl. rewrite filter_cons_True by (rewrite Htag; apply String.eqb_refl).
  by rewrite IH.
Qed.

Lemma findall_none {A} (node : Z -> A -> ET.element) name k l :
  (forall i x, String.eqb (ET.tag (node i x)) name = false) ->
  ET.findall name (ET.Element "e" [] (numbered node k l)) = [].
Proof.
  intros Htag. unfold ET.findall. simpl.
  revert k. induction l as [|x l IH]; intros k; [done|].
  simpl. rewrite filter_cons_False by (rewrite Htag; done). apply IH.
Qed.

Lemma for_append_numbered {A} (f : ET.element -> outcome A)
      (node : Z -> A -> ET.element) k l :
  (forall i x, f (node i x) = Ret x) ->
  for_append f (numbered node k l) = Ret l.
Proof.
  intros Hf. revert k. induction l as [|x l IH]; intros k; [done|].
  simpl. by rewrite Hf, IH.
Qed.

Lemma tag_vertex_node i p : ET.tag (vertex_node i p) = "vertex".
Proof. by destruct p as [[??]?]. Qed.

Lemma tag_tetra_node i t : ET.tag (tetra_node i t) = "tetrahedron".
Proof. by destruct t as [[[??]?]?]. Qed.

Lemma xml_extract_dolfin_tree m :
  xml_extract (dolfin_tree m) = Ret (fdolf_coords m, idolf_tets m).
Proof.
  unfold xml_extract, dolfin_tree. simpl. unfold xml_elem.
  change (ET.findall ?n (ET.Element _ _ ?c)) with (ET.findall n (ET.Element "e" [] c)).
  rewrite (findall_numbered vertex_node "vertex") by apply tag_vertex_node.
  rewrite (findall_none vertex_node "tetrahedron")
    by (intros; by rewrite tag_vertex_node).
  rewrite (findall_numbered tetra_node "tetrahedron") by apply tag_tetra_node.
  rewrite (findall_none tetra_node "vertex") by (intros; by rewrite tag_tetra_node).
  rewrite (for_append_numbered xml_vertex vertex_node) by apply xml_vertex_node.
  rewrite (for_append_numbered xml_tetrahedron tetra_node) by apply xml_tetra_node.
  simpl. by rewrite !app_nil_r.
Qed.

End Extraction.

(** ** convertNeutral2Xml: the writing half *)

Section Writing.
Context `{PyFloat}.

Lemma with_file_twice p s t w : with_file p t (with_file p s w) = with_file p t w.
Proof. unfold with_file. simpl. by rewrite insert_insert_eq. Qed.

Lemma file_write_with_file p s t w :
  file_write p t (with_file p s w) = (Ret tt, with_file p (s +:+ t) w).
Proof.
  unfold file_write. simpl. rewrite lookup_insert_eq. simpl.
  by rewrite with_file_twice.
Qed.

Lemma open_w_file p w : dirs w !! p = None -> open_w p w = (Ret tt, with_file p EmptyString w).
Proof. intros Hd. unfold open_w. by rewrite Hd. Qed.

Lemma range_cons a b : a < b -> range a b = a :: range (a + 1) b.
Proof.
  intros Hab. unfold range.
  replace (Z.to_nat (b - a)) with (S (Z.to_nat (b - (a + 1)))) by lia.
  simpl. f_equal; [lia|].
  rewrite <- seq_shift, map_map. apply map_ext. intros k. lia.
Qed.

Lemma range_empty a b : b <= a -> range a b = [].
Proof. intros Hab. unfold range. by replace (Z.to_nat (b - a)) with 0%nat by lia. Qed.

(** The loops of lines 585-588 and 592-595 append one line for each item. *)
Lemma write_each {A} (elem : Z -> A -> string) p (pre rest : list A) text w :
  for_each (fun i => let+ x := lift (getitem (pre ++ rest) i) in
                     file_write p (elem i x))
           (range (Z.of_nat (length pre)) (Z.of_nat (length pre) + Z.of_nat (length rest)))
           (with_file p text w)
  = (Ret tt,
     with_file p (text +:+ concat_str (numbered elem (Z.of_nat (length pre)) rest)) w).
Proof.
  revert pre text. induction rest as [|x rest IH]; intros pre text.
  - rewrite range_empty by (simpl; lia). simpl. by rewrite string_app_nil_r.
  - rewrite range_cons by (simpl; lia). simpl.
    unfold bindS at 1. unfold bindS at 1. unfold lift at 1.
    rewrite (getitem_lookup _ _ x) by (by rewrite lookup_app_r, Nat.sub_diag).
    rewrite file_write_with_file.
    specialize (IH (pre ++ [x]) (text +:+ elem (Z.of_nat (length pre)) x)).
    rewrite <- app_assoc, length_app in IH. simpl in IH.
    replace (Z.of_nat (length pre) + Z.of_nat (S (length rest)))
      with (Z.of_nat (length pre + 1) + Z.of_nat (length rest)) by lia.
    replace (Z.of_nat (length pre) + 1) with (Z.of_nat (length pre + 1)) by lia.
    rewrite IH. by rewrite string_app_assoc.
Qed.

Lemma bindS_Ret {S A B} (m : St S A) (k : A -> St S B) s a s' :
  m s = (Ret a, s') -> bindS m k s = k a s'.
Proof. intros Hm. unfold bindS. by rewrite Hm. Qed.

Lemma write_each_from_0 {A} (elem : Z -> A -> string) p (l : list A) n text w :
  Z.of_nat (length l) = n ->
  for_each (fun i => let+ x := lift (getitem l i) in file_write p (elem i x))
           (range 0 n) (with_file p text w)
  = (Ret tt, with_file p (text +:+ concat_str (numbered elem 0 l)) w).
Proof. intros <-. apply (write_each elem p [] l). Qed.

(** What the outfile branch leaves in the file. *)
Lemma write_dolfin_text outfile m w :
  dirs w !! outfile = None ->
  Z.of_nat (length (fdolf_coords m)) = ncoords m ->
  Z.of_nat (length (idolf_tets m)) = ntets m ->
  write_dolfin outfile m w = (Ret tt, with_file outfile (dolfin_text m) w).
Proof.
  intros Hd Hn Ht. unfold write_dolfin.
  rewrite (bindS_Ret _ _ _ _ _ (open_w_file _ _ Hd)).
  do 4 rewrite (bindS_Ret _ _ _ _ _ (file_write_with_file _ _ _ _)).
  rewrite (bindS_Ret _ _ _ _ _ (write_each_from_0 vertex_elem _ _ _ _ _ Hn)).
  do 2 rewrite (bindS_Ret _ _ _ _ _ (file_write_with_file _ _ _ _)).
  rewrite (bindS_Ret _ _ _ _ _ (write_each_from_0 tetra_elem _ _ _ _ _ Ht)).
  do 2 rewrite (bindS_Ret _ _ _ _ _ (file_write_with_file _ _ _ _)).
  rewrite file_write_with_file.
  unfold dolfin_text, dolfin_prolog, dolfin_epilog.
  do 2 f_equal. rewrite !string_app_assoc. reflexivity.
Qed.

End Writing.

(** ** convertNeutral2Xml, loadGmesh and loadXml on files *)

Section OnFiles.
Context `{PyFloat}.

Lemma read_lines_file p text w :
  files w !! p = Some text -> read_lines p w = (Ret (readlines text), w).
Proof. intros Hf. unfold read_lines. by rewrite Hf. Qed.

Lemma convertNeutral2Xml_format infile outfile text w N coords T tets :
  files w !! infile = Some text ->
  neutral_format (readlines text) N coords T tets ->
  writable outfile w ->
  convertNeutral2Xml infile outfile w
  = (Ret (coords, tets),
     after_convert outfile
       {| ncoords := Z.of_nat N; fdolf_coords := coords;
          ntets := Z.of_nat T; idolf_tets := tets |} w).
Proof.
  intros Hf Hfmt Hw. unfold convertNeutral2Xml, after_convert.
  rewrite (bindS_Ret _ _ _ _ _ (read_lines_file _ _ _ Hf)).
  unfold lift, bindS at 1. rewrite (neutral_parse_format _ _ _ _ _ Hfmt).
  destruct (outfile_given outfile) as [o|] eqn:Ho; [|done].
  unfold bindS. rewrite write_dolfin_text; simpl; try done.
  - by apply Hw.
  - f_equal. apply Hfmt.
  - f_equal. apply Hfmt.
Qed.

(** C1: on a file in the neutral format, [convertNeutral2Xml] reads line
    0 as the count N, the next N lines as three floats each, line N+1 as
    the count T, and from each of the next T lines the tokens 1 to 4 as
    vertex ids, from which it takes 1; it returns that list of
    coordinates and that list of tetrahedra. *)
Theorem convertNeutral2Xml_parses infile outfile text w N coords T tets :
  files w !! infile = Some text ->
  neutral_format (readlines text) N coords T tets ->
  writable outfile w ->
  (convertNeutral2Xml infile outfile w).1 = Ret (coords, tets).
Proof. intros Hf Hfmt Hw. by rewrite (convertNeutral2Xml_format _ _ _ _ _ _ _ _ Hf Hfmt Hw). Qed.

Lemma tets_in_range lines N coords T tets :
  neutral_format lines N coords T tets -> ids_in_range lines N T ->
  Forall (tet_in_range (Z.of_nat N)) tets.
Proof.
  intros Hfmt Hids. apply Forall_lookup. intros k t Ht.
  destruct (Forall2_lookup_r _ _ _ _ _ (nf_tets _ _ _ _ _ Hfmt) Ht) as (l & Hl & Hlt).
  apply lookup_take_Some in Hl as [Hl Hk]. rewrite lookup_drop in Hl.
  destruct Hlt as (id & v0 & v1 & v2 & v3 & more & a & b & c & d
                   & Hs & Ha & Hb & Hc & Hd & ->).
  assert (forall (j : nat) tok v, (1 <= j <= 4)%nat -> split l !! j = Some tok ->
                                  int tok = Ret v -> 1 <= v <= Z.of_nat N) as Hv.
  { intros j tok v Hj Htok Hint. apply (Hids (N + 2 + k)%nat j l tok v); try done. lia. }
  rewrite Hs in Hv.
  pose proof (Hv 1%nat v0 a ltac:(lia) eq_refl Ha).
  pose proof (Hv 2%nat v1 b ltac:(lia) eq_refl Hb).
  pose proof (Hv 3%nat v2 c ltac:(lia) eq_refl Hc).
  pose proof (Hv 4%nat v3 d ltac:(lia) eq_refl Hd).
  simpl. lia.
Qed.


(** C8: [convertNeutral2Xml] does not recover from a malformed line.
    When a coordinate line among lines 1..N is not three tokens, or a
    tetrahedron line has fewer than five tokens, or the file has fewer
    lines than its counts ask for, the call raises and returns nothing. *)
Theorem convertNeutral2Xml_malformed infile outfile text w :
  files w !! infile = Some text ->
  malformed (readlines text) ->
  exists e, convertNeutral2Xml infile outfile w = (Raise e, w).
Proof.
  intros Hf Hbad. unfold convertNeutral2Xml.
  rewrite (bindS_Ret _ _ _ _ _ (read_lines_file _ _ _ Hf)).
  destruct (pure_not_returns_raises _ (pure_neutral_parse (readlines text))
              (malformed_not_returns _ Hbad)) as [e He].
  exists e. unfold lift, bindS. by rewrite He.
Qed.

End OnFiles.

Section WithToolkit.
Context `{PyFloat} `{!Toolkit}.

Lemma path_exists_file p text w :
  files w !! p = Some text -> path_exists p w = (Ret true, w).
Proof. intros Hf. unfold path_exists. by rewrite Hf. Qed.

(** C4: on a file in the Gmsh format, [loadGmesh] finds the first line
    with $Nodes, reads the count on the next line and, from each of that
    many lines, the tokens 1, 2, 3 as x, y, z; it finds the first line with
    $Elements, reads the count and, from each of that many lines, the last
    three tokens as the vertex ids of a triangle, which it gives to the
    toolkit lowered by 1. *)
Theorem loadGmesh_reads filename text w nodes elements c alpha bc legend :
  files w !! filename = Some text ->
  gmesh_format (readlines text) nodes elements ->
  loadGmesh filename c alpha bc legend w
  = gmesh_actor nodes (map (fun e => (e.1.1 - 1, e.1.2 - 1, e.2 - 1)) elements)
                c alpha bc legend w.
Proof.
  intros Hf Hfmt. unfold loadGmesh.
  rewrite (bindS_Ret _ _ _ _ _ (path_exists_file _ _ _ Hf)). simpl.
  rewrite (bindS_Ret _ _ _ _ _ (read_lines_file _ _ _ Hf)).
  unfold lift, bindS. by rewrite (gmesh_parse_format _ _ _ Hfmt).
Qed.

End WithToolkit.

Section RoundTrip.
Context `{PyFloatRepr} `{!Toolkit}.

(** C3: the coordinates and the connectivity parsed from a neutral file
    survive the round trip through the XML of the outfile branch: the
    text that [convertNeutral2Xml] writes parses to a tree from which the
    extraction loop of [loadXml] builds the same two lists. *)
Theorem neutral_xml_roundtrip infile outfile text w N coords T tets
        c alpha wire bc edges legend :
  files w !! infile = Some text ->
  neutral_format (readlines text) N coords T tets ->
  outfile <> EmptyString ->
  dirs w !! outfile = None ->
  exists w' xml root,
    convertNeutral2Xml infile (Some outfile) w = (Ret (coords, tets), w') /\
    files w' !! outfile = Some xml /\
    ET.parse xml = Ret root /\
    xml_extract root = Ret (coords, tets) /\
    (~ within ".gz" outfile ->
     loadXml outfile c alpha wire bc edges legend w'
     = (print ["..loading"; outfile] ;;;
        xml_actor coords tets c alpha wire edges legend) w').
Proof.
  intros Hf Hfmt Hne Hd.
  set (m := {| ncoords := Z.of_nat N; fdolf_coords := coords;
               ntets := Z.of_nat T; idolf_tets := tets |}).
  assert (outfile_given (Some outfile) = Some outfile) as Hgiven
      by (by destruct outfile).
  exists (with_file outfile (dolfin_text m) w), (dolfin_text m), (dolfin_tree m).
  assert (files (with_file outfile (dolfin_text m) w) !! outfile = Some (dolfin_text m))
    as Hout by apply lookup_insert_eq.
  repeat apply conj.
  - rewrite (convertNeutral2Xml_format _ _ _ _ _ _ _ _ Hf Hfmt).
    + unfold after_convert. by rewrite Hgiven.
    + intros o Ho. rewrite Hgiven in Ho. by injection Ho as <-.
  - exact Hout.
  - apply parse_dolfin_text.
  - apply xml_extract_dolfin_tree.
  - intros Hgz. apply contains_not_within in Hgz. unfold loadXml.
    rewrite (bindS_Ret _ _ _ _ _ (path_exists_file _ _ _ Hout)). simpl.
    rewrite Hgz.
    assert (read_text outfile (with_file outfile (dolfin_text m) w)
            = (Ret (dolfin_text m), with_file outfile (dolfin_text m) w)) as Hread
        by (unfold read_text; by rewrite Hout).
    rewrite (bindS_Ret _ _ _ _ _ Hread).
    unfold lift, bindS at 1. rewrite parse_dolfin_text.
    unfold bindS. destruct (print _ _) as [[[]|e|code] w'']; try done.
    by rewrite xml_extract_dolfin_tree.
Qed.

End RoundTrip.

(** ** The definitions at work on sample files *)

Lemma ZFloatRepr : @PyFloatRepr ZFloat.
Proof.
  split.
  - intros x. simpl. by rewrite int_str.
  - intros x. apply attr_plain_str.
Qed.

Lemma coord_line_tokens `{PyFloat} l x y z (p : point) :
  split l = [x; y; z] ->
  float_of_string x = Some p.1.1 -> float_of_string y = Some p.1.2 ->
  float_of_string z = Some p.2 ->
  coord_line l p.
Proof. intros. by exists x, y, z. Qed.

Lemma tet_line_tokens l id v0 v1 v2 v3 more a b c d :
  split l = id :: v0 :: v1 :: v2 :: v3 :: more ->
  int v0 = Ret a -> int v1 = Ret b -> int v2 = Ret c -> int v3 = Ret d ->
  tet_line l (a - 1, b - 1, c - 1, d - 1).
Proof. intros. by exists id, v0, v1, v2, v3, more, a, b, c, d. Qed.

Lemma sample_neutral_format :
  @neutral_format ZFloat (readlines sample_neutral) 4 sample_coords 1 sample_tets.
Proof.
  split.
  - exists ("4" +:+ nl). split; vm_compute; reflexivity.
  - reflexivity.
  - replace (take 4 (drop 1 (readlines sample_neutral)))
      with ["0 0 0" +:+ nl; "1 0 0" +:+ nl; "0 1 0" +:+ nl; "0 0 1" +:+ nl]
      by (vm_compute; reflexivity).
    unfold sample_coords.
    repeat first
      [ apply List.Forall2_nil
      | apply List.Forall2_cons;
        [eapply (@coord_line_tokens ZFloat);
         [vm_compute; reflexivity | vm_compute; reflexivity
         | vm_compute; reflexivity | vm_compute; reflexivity]|] ].
  - exists ("1" +:+ nl). split; vm_compute; reflexivity.
  - reflexivity.
  - replace (take 1 (drop (4 + 2) (readlines sample_neutral)))
      with ["1 1 2 3 4" +:+ nl] by (vm_compute; reflexivity).
    unfold sample_tets. apply List.Forall2_cons; [|apply List.Forall2_nil].
    apply (tet_line_tokens _ "1" "1" "2" "3" "4" [] 1 2 3 4); vm_compute; reflexivity.
Qed.

Lemma sample_ids_in_range : ids_in_range (readlines sample_neutral) 4 1.
Proof.
  intros i k l tok v Hi Hl Hk Htok Hint.
  assert (i = 6%nat) as -> by lia. vm_compute in Hl. injection Hl as <-.
  destruct k as [|[|[|[|[|k]]]]]; try lia;
    vm_compute in Htok; injection Htok as <-;
    vm_compute in Hint; injection Hint as <-; lia.
Qed.

(** C1 on the sample file. *)
Lemma convertNeutral2Xml_parses_witness :
  files sample_world !! "in.neutral" = Some sample_neutral /\
  @neutral_format ZFloat (readlines sample_neutral) 4 sample_coords 1 sample_tets /\
  writable None sample_world /\
  (@convertNeutral2Xml ZFloat "in.neutral" None sample_world).1
  = Ret (sample_coords, sample_tets).
Proof.
  assert (writable None sample_world) as Hw by (intros o Ho; discriminate Ho).
  split; [reflexivity|]. split; [exact sample_neutral_format|]. split; [exact Hw|].
  exact (@convertNeutral2Xml_parses ZFloat "in.neutral" None sample_neutral sample_world
           4 sample_coords 1 sample_tets eq_refl sample_neutral_format Hw).
Defined.




Lemma short_line_malformed : malformed (readlines short_line_neutral).
Proof.
  apply (bad_coord_line _ 1 1 ("0 0" +:+ nl)).
  - eexists. split; vm_compute; reflexivity.
  - lia.
  - vm_compute. reflexivity.
  - vm_compute. lia.
Qed.

(** C8 on a file with a short coordinate line. *)
Lemma convertNeutral2Xml_malformed_witness :
  files (with_file "bad.neutral" short_line_neutral world0) !! "bad.neutral"
  = Some short_line_neutral /\
  malformed (readlines short_line_neutral) /\
  exists e, @convertNeutral2Xml ZFloat "bad.neutral" None
              (with_file "bad.neutral" short_line_neutral world0)
            = (Raise e, with_file "bad.neutral" short_line_neutral world0).
Proof.
  split; [reflexivity|]. split; [exact short_line_malformed|].
  exact (@convertNeutral2Xml_malformed ZFloat "bad.neutral" None short_line_neutral
           (with_file "bad.neutral" short_line_neutral world0) eq_refl short_line_malformed).
Defined.

(** C3 on the sample file. *)
Lemma neutral_xml_roundtrip_witness :
  @PyFloatRepr ZFloat /\
  files sample_world !! "in.neutral" = Some sample_neutral /\
  @neutral_format ZFloat (readlines sample_neutral) 4 sample_coords 1 sample_tets /\
  "out.xml" <> EmptyString /\
  dirs sample_world !! "out.xml" = None /\
  exists w' xml root,
    @convertNeutral2Xml ZFloat "in.neutral" (Some "out.xml") sample_world
    = (Ret (sample_coords, sample_tets), w') /\
    files w' !! "out.xml" = Some xml /\
    ET.parse xml = Ret root /\
    @xml_extract ZFloat root = Ret (sample_coords, sample_tets) /\
    (~ within ".gz" "out.xml" ->
     @loadXml ZFloat StubToolkit "out.xml" false false false false false false w'
     = (print ["..loading"; "out.xml"] ;;;
        @xml_actor ZFloat StubToolkit sample_coords sample_tets false false false false false)
         w').
Proof.
  assert ("out.xml" <> EmptyString) as Hne by discriminate.
  split; [exact ZFloatRepr|]. split; [reflexivity|].
  split; [exact sample_neutral_format|]. split; [exact Hne|]. split; [reflexivity|].
  exact (@neutral_xml_roundtrip ZFloat ZFloatRepr StubToolkit "in.neutral" "out.xml"
           sample_neutral sample_world 4 sample_coords 1 sample_tets
           false false false false false false
           eq_refl sample_neutral_format Hne eq_refl).
Defined.

Lemma node_line_tokens `{PyFloat} l id x y z more (p : point) :
  split l = id :: x :: y :: z :: more ->
  float_of_string x = Some p.1.1 -> float_of_string y = Some p.1.2 ->
  float_of_string z = Some p.2 ->
  node_line l p.
Proof. intros. by exists id, x, y, z, more. Qed.

Lemma element_line_tokens l front a b c (e : Z * Z * Z) :
  split l = front ++ [a; b; c] ->
  int a = Ret e.1.1 -> int b = Ret e.1.2 -> int c = Ret e.2 ->
  element_line l e.
Proof. intros. by exists front, a, b, c. Qed.

Lemma first_marker_at marker lines (i : nat) :
  (exists l, lines !! i = Some l /\ contains marker l = true) ->
  (forall j l, (j < i)%nat -> lines !! j = Some l -> contains marker l = false) ->
  first_marker marker lines i.
Proof.
  intros (l & Hl & Hc) Hfirst. split.
  - exists l. split; [done|]. by apply contains_within.
  - intros j l' Hj Hl'. apply contains_not_within. by eapply Hfirst.
Qed.

Lemma sample_gmsh_format :
  @gmesh_format ZFloat (readlines sample_gmsh)
                [(0, 0, 0); (1, 0, 0); (0, 1, 0)] [(1, 2, 3)].
Proof.
  split.
  - exists 3%nat, ("3" +:+ nl). split; [|split; [|split]].
    + apply first_marker_at.
      * eexists. split; [reflexivity|]. vm_compute. reflexivity.
      * intros j l Hj Hl. destruct j as [|[|[|j]]]; try lia;
          vm_compute in Hl; injection Hl as <-; vm_compute; reflexivity.
    + reflexivity.
    + vm_compute. reflexivity.
    + replace (take 3 (drop (3 + 2) (readlines sample_gmsh)))
        with ["1 0 0 0" +:+ nl; "2 1 0 0" +:+ nl; "3 0 1 0" +:+ nl]
        by (vm_compute; reflexivity).
      repeat first
        [ apply List.Forall2_nil
        | apply List.Forall2_cons;
          [eapply (@node_line_tokens ZFloat);
           [vm_compute; reflexivity | vm_compute; reflexivity
           | vm_compute; reflexivity | vm_compute; reflexivity]|] ].
  - exists 9%nat, ("1" +:+ nl). split; [|split; [|split]].
    + apply first_marker_at.
      * eexists. split; [reflexivity|]. vm_compute. reflexivity.
      * intros j l Hj Hl. destruct j as [|[|[|[|[|[|[|[|[|j]]]]]]]]]; try lia;
          vm_compute in Hl; injection Hl as <-; vm_compute; reflexivity.
    + reflexivity.
    + vm_compute. reflexivity.
    + replace (take 1 (drop (9 + 2) (readlines sample_gmsh)))
        with ["1 2 2 0 1 1 2 3" +:+ nl] by (vm_compute; reflexivity).
      apply List.Forall2_cons; [|apply List.Forall2_nil].
      apply (element_line_tokens _ ["1"; "2"; "2"; "0"; "1"] "1" "2" "3");
        vm_compute; reflexivity.
Qed.

(** C4 on a sample file. *)
Lemma loadGmesh_reads_witness :
  files (with_file "t.gmsh" sample_gmsh world0) !! "t.gmsh" = Some sample_gmsh /\
  @gmesh_format ZFloat (readlines sample_gmsh)
                [(0, 0, 0); (1, 0, 0); (0, 1, 0)] [(1, 2, 3)] /\
  @loadGmesh ZFloat StubToolkit "t.gmsh" false false false false
             (with_file "t.gmsh" sample_gmsh world0)
  = @gmesh_actor ZFloat StubToolkit [(0, 0, 0); (1, 0, 0); (0, 1, 0)] [(0, 1, 2)]
                 false false false false (with_file "t.gmsh" sample_gmsh world0).
Proof.
  split; [reflexivity|]. split; [exact sample_gmsh_format|].
  exact (@loadGmesh_reads ZFloat StubToolkit "t.gmsh" sample_gmsh
           (with_file "t.gmsh" sample_gmsh world0)
           [(0, 0, 0); (1, 0, 0); (0, 1, 0)] [(1, 2, 3)] false false false false
           eq_refl sample_gmsh_format).
Defined.

(** C5 on the name a.xml.stl: it goes to loadXml. *)
Lemma loadFile_dispatch_witness :
  (within ".xml" (lower "a.xml.stl") \/ within ".xml.gz" (lower "a.xml.stl")) /\
  @loadFile ZFloat StubToolkit "a.xml.stl"
            false false false false false false false false false false false
  = @loadXml ZFloat StubToolkit "a.xml.stl" false false false false false false.
Proof.
  assert (within ".xml" (lower "a.xml.stl")) as Hw
      by (apply contains_within; vm_compute; reflexivity).
  split; [by left|].
  exact (proj1 (@loadFile_dispatch ZFloat StubToolkit "a.xml.stl"
                  false false false false false false false false false false false)
               (or_introl Hw)).
Defined.

(** C7 on a path and a name of the empty state. *)
Lemma missing_path_or_format_witness :
  missing "nowhere.vtk" world0 /\ no_output_format "mesh.abc" /\
  @loadPoly ZFloat StubToolkit "nowhere.vtk" world0
  = (Ret PyNone, printed_red "Error in loadPoly: Cannot find nowhere.vtk" world0) /\
  @loadDir ZFloat StubToolkit "nowhere.vtk"
           false false false false false false false false false false false world0
  = (Exit 0, printed_red "Error in loadDir: Cannot find nowhere.vtk" world0) /\
  @write ZFloat StubToolkit tt "mesh.abc" world0
  = (Exit 1, printed_red "Unavailable format in file mesh.abc" world0).
Proof.
  assert (missing "nowhere.vtk" world0) as Hm by (split; reflexivity).
  assert (no_output_format "mesh.abc") as Hf.
  { intros ext Hext.
    repeat (apply elem_of_cons in Hext as [->|Hext];
            [apply (proj1 (contains_not_within _ _)); vm_compute; reflexivity|]).
    by apply elem_of_nil in Hext. }
  pose proof (@missing_path_or_format ZFloat StubToolkit world0) as [Hpaths Hwrite].
  destruct (Hpaths "nowhere.vtk" false false false false false false false false false
                   false false Hm) as (Hpoly & _ & _ & _ & _ & _ & Hdir).
  split; [exact Hm|]. split; [exact Hf|]. split; [exact Hpoly|]. split; [exact Hdir|].
  exact (Hwrite tt "mesh.abc" Hf).
Defined.

(** C9 on a video without duration. *)
Lemma Video_close_fps_witness :
  duration sample_video = None /\
  @Video_close ZFloat (fun _ => 0) sample_video world0 = (Raise UnboundLocalError, world0).
Proof.
  split; [reflexivity|].
  exact (proj1 (@Video_close_fps ZFloat (fun _ => 0) sample_video world0) eq_refl).
Defined.

(** * Further properties of the code *)

(** ** convertNeutral2Xml and loadNeutral *)

Section NeutralMore.
Context `{PyFloat}.

Lemma neutral_parse_Ret_inv lines m :
  neutral_parse lines = Ret m ->
  declares_N lines (ncoords m) /\ declares_T lines (ncoords m) (ntets m) /\
  for_append (neutral_coord lines) (range 1 (ncoords m + 1)) = Ret (fdolf_coords m) /\
  for_append (neutral_tet lines) (range (ncoords m + 2) (ncoords m + ntets m + 2))
  = Ret (idolf_tets m).
Proof.
  unfold neutral_parse. intros Hr.
  apply bind_Ret_inv in Hr as (l0 & Hl0 & Hr).
  apply bind_Ret_inv in Hr as (N & HN & Hr).
  apply bind_Ret_inv in Hr as (cs & Hcs & Hr).
  apply bind_Ret_inv in Hr as (lt & Hlt & Hr).
  apply bind_Ret_inv in Hr as (T & HT & Hr).
  apply bind_Ret_inv in Hr as (ts & Hts & Hr).
  injection Hr as <-. simpl. repeat apply conj; try done.
  - by exists l0.
  - by exists lt.
Qed.

Lemma for_append_length {A B} (f : A -> outcome B) xs ys :
  for_append f xs = Ret ys -> length ys = length xs.
Proof. intros Hr. apply for_append_Ret_inv in Hr. symmetry. by eapply Forall2_length. Qed.

(** What a call that returns went through: it read the file and parsed [m]. *)
Lemma convertNeutral2Xml_Ret_inv infile outfile text w r w' :
  files w !! infile = Some text ->
  convertNeutral2Xml infile outfile w = (Ret r, w') ->
  exists m, neutral_parse (readlines text) = Ret m /\ r = (fdolf_coords m, idolf_tets m).
Proof.
  intros Hf. unfold convertNeutral2Xml.
  rewrite (bindS_Ret _ _ _ _ _ (read_lines_file _ _ _ Hf)).
  unfold lift, bindS at 1.
  destruct (neutral_parse (readlines text)) as [m|e|code]; try done.
  intros Hr. exists m. split; [done|].
  unfold bindS in Hr.
  destruct (outfile_given outfile) as [o|].
  - destruct (write_dolfin o m w) as [[[]|e|code] w1]; try done.
    unfold ret in Hr. congruence.
  - unfold ret in Hr. congruence.
Qed.

(** X1: whenever [convertNeutral2Xml] returns, on a valid file or not, the
    list of coordinates has as many entries as the count N on line 0 says
    and the list of tetrahedra as many as the count T on line N+1 says
    (none for a count below 1). *)
Theorem convertNeutral2Xml_lengths infile outfile text w cs ts w' :
  files w !! infile = Some text ->
  convertNeutral2Xml infile outfile w = (Ret (cs, ts), w') ->
  exists N T,
    declares_N (readlines text) N /\ declares_T (readlines text) N T /\
    length cs = Z.to_nat N /\ length ts = Z.to_nat T.
Proof.
  intros Hf Hr.
  destruct (convertNeutral2Xml_Ret_inv _ _ _ _ _ _ Hf Hr) as (m & Hm & [= -> ->]).
  apply neutral_parse_Ret_inv in Hm as (HN & HT & Hcs & Hts).
  exists (ncoords m), (ntets m). repeat apply conj; try done.
  - rewrite (for_append_length _ _ _ Hcs), range_length. lia.
  - rewrite (for_append_length _ _ _ Hts), range_length. lia.
Qed.

(** X2: without a name to write to ([None] or the empty name)
    [convertNeutral2Xml] leaves the files as they are, whatever the input
    holds; and an input that is not there ends the call in [IOError]
    before anything is written. *)
Theorem convertNeutral2Xml_reads_only infile outfile w :
  (outfile_given outfile = None -> (convertNeutral2Xml infile outfile w).2 = w) /\
  (files w !! infile = None -> convertNeutral2Xml infile outfile w = (Raise IOError, w)).
Proof.
  split.
  - intros Ho. unfold convertNeutral2Xml, bindS at 1, read_lines.
    destruct (files w !! infile) as [text|]; [|done].
    unfold lift, bindS at 1.
    destruct (neutral_parse (readlines text)) as [m|e|code]; try done.
    by rewrite Ho.
  - intros Hf. unfold convertNeutral2Xml, bindS at 1, read_lines. by rewrite Hf.
Qed.

(** X3: the outfile is overwritten, not appended to: converting the same
    neutral file a second time to the same outfile returns the same lists
    and leaves the same files as the first time. *)
Theorem convertNeutral2Xml_again infile outfile text w N coords T tets :
  files w !! infile = Some text ->
  neutral_format (readlines text) N coords T tets ->
  outfile <> EmptyString -> outfile <> infile ->
  dirs w !! outfile = None ->
  convertNeutral2Xml infile (Some outfile) (convertNeutral2Xml infile (Some outfile) w).2
  = convertNeutral2Xml infile (Some outfile) w.
Proof.
  intros Hf Hfmt Hne Hdiff Hd.
  assert (outfile_given (Some outfile) = Some outfile) as Hgiven by (by destruct outfile).
  assert (forall w0 : World, dirs w0 !! outfile = None -> writable (Some outfile) w0) as Hwr.
  { intros w0 Hd0 o Ho. rewrite Hgiven in Ho. by injection Ho as <-. }
  rewrite (convertNeutral2Xml_format _ _ _ _ _ _ _ _ Hf Hfmt (Hwr _ Hd)).
  unfold after_convert. rewrite Hgiven. simpl.
  erewrite (convertNeutral2Xml_format _ _ text); [| |exact Hfmt|apply Hwr; exact Hd].
  - unfold after_convert. rewrite Hgiven. by rewrite with_file_twice.
  - simpl. by rewrite lookup_insert_ne.
Qed.

End NeutralMore.

Section LoadNeutralMore.
Context `{PyFloat} `{!Toolkit}.

(** X4: on a file in the neutral format [loadNeutral] gives the toolkit
    the coordinates and the tetrahedra of the file, and no file has been
    written by then; on a malformed file it raises before the toolkit is
    called, and leaves the state as it was. *)
Theorem loadNeutral_reads filename text w c alpha bc edges legend :
  files w !! filename = Some text ->
  (forall N coords T tets,
      neutral_format (readlines text) N coords T tets ->
      loadNeutral filename c alpha bc edges legend w
      = neutral_actor filename coords tets c alpha edges legend w) /\
  (malformed (readlines text) ->
   exists e, loadNeutral filename c alpha bc edges legend w = (Raise e, w)).
Proof.
  intros Hf. split.
  - intros N coords T tets Hfmt. unfold loadNeutral.
    rewrite (bindS_Ret _ _ _ _ _ (path_exists_file _ _ _ Hf)). simpl.
    assert (writable None w) as Hw by (intros o Ho; discriminate Ho).
    by rewrite (bindS_Ret _ _ _ _ _ (convertNeutral2Xml_format _ _ _ _ _ _ _ _ Hf Hfmt Hw)).
  - intros Hbad. unfold loadNeutral.
    rewrite (bindS_Ret _ _ _ _ _ (path_exists_file _ _ _ Hf)). simpl.
    destruct (pure_not_returns_raises _ (pure_neutral_parse (readlines text))
                (malformed_not_returns _ Hbad)) as [e He].
    exists e. unfold convertNeutral2Xml.
    unfold bindS at 1. unfold bindS at 1. rewrite (read_lines_file _ _ _ Hf).
    unfold lift, bindS. by rewrite He.
Qed.

End LoadNeutralMore.

(** ** The edge loop of loadNeutral *)

Section Edges.
Context `{PyFloat}.

Lemma getitem_index_ok {A} (l : list A) i :
  index_ok (length l) i -> exists a, getitem l i = Ret a /\ a ∈ l.
Proof.
  intros [Hlo Hhi]. unfold getitem.
  set (j := if i <? 0 then Z.of_nat (length l) + i else i).
  assert (0 <= j < Z.of_nat (length l)) as Hj
      by (subst j; destruct (Z.ltb_spec i 0); lia).
  replace (0 <=? j) with true by (symmetry; apply Z.leb_le; lia).
  replace (j <? Z.of_nat (length l)) with true by (symmetry; apply Z.ltb_lt; lia).
  simpl. destruct (l !! Z.to_nat j) as [a|] eqn:Ha.
  - exists a. split; [done|]. by eapply list_elem_of_lookup_2.
  - apply lookup_ge_None in Ha. lia.
Qed.

Lemma getitem_not_index_ok {A} (l : list A) i :
  ~ index_ok (length l) i -> getitem l i = Raise IndexError.
Proof.
  intros Hno. unfold getitem.
  set (j := if i <? 0 then Z.of_nat (length l) + i else i).
  destruct ((0 <=? j) && (j <? Z.of_nat (length l))) eqn:Hj; [|done].
  exfalso. apply Hno. apply andb_true_iff in Hj as [H1 H2].
  apply Z.leb_le in H1. apply Z.ltb_lt in H2.
  subst j. unfold index_ok. destruct (Z.ltb_spec i 0); lia.
Qed.

Lemma index_ok_dec n i : {index_ok n i} + {~ index_ok n i}.
Proof.
  unfold index_ok.
  destruct (Z_le_dec (- Z.of_nat n) i); [|right; lia].
  destruct (Z_lt_dec i (Z.of_nat n)); [left|right]; lia.
Qed.

Lemma tet_edges_ok coords t :
  tet_index_ok (length coords) t ->
  exists segs, tet_edges coords t = Ret segs /\ length segs = 6%nat /\
               forall p q, (p, q) ∈ segs -> p ∈ coords /\ q ∈ coords.
Proof.
  destruct t as [[[a b] c] d]. intros (Ha & Hb & Hc & Hd).
  destruct (getitem_index_ok _ _ Ha) as (p0 & Hg0 & ?).
  destruct (getitem_index_ok _ _ Hb) as (p1 & Hg1 & ?).
  destruct (getitem_index_ok _ _ Hc) as (p2 & Hg2 & ?).
  destruct (getitem_index_ok _ _ Hd) as (p3 & Hg3 & ?).
  unfold tet_edges. rewrite Hg0, Hg1, Hg2, Hg3. simpl.
  eexists. split; [reflexivity|]. split; [done|].
  intros p q Hpq. repeat (apply elem_of_cons in Hpq as [[= -> ->]|Hpq]; [done|]).
  by apply elem_of_nil in Hpq.
Qed.

Lemma tet_edges_bad coords t :
  ~ tet_index_ok (length coords) t -> tet_edges coords t = Raise IndexError.
Proof.
  destruct t as [[[a b] c] d]. intros Hno. unfold tet_edges.
  destruct (index_ok_dec (length coords) a) as [Ha|Ha];
    [|by rewrite (getitem_not_index_ok _ _ Ha)].
  destruct (getitem_index_ok _ _ Ha) as (p0 & -> & _). simpl.
  destruct (index_ok_dec (length coords) b) as [Hb|Hb];
    [|by rewrite (getitem_not_index_ok _ _ Hb)].
  destruct (getitem_index_ok _ _ Hb) as (p1 & -> & _). simpl.
  destruct (index_ok_dec (length coords) c) as [Hc|Hc];
    [|by rewrite (getitem_not_index_ok _ _ Hc)].
  destruct (getitem_index_ok _ _ Hc) as (p2 & -> & _). simpl.
  destruct (index_ok_dec (length coords) d) as [Hd|Hd];
    [|by rewrite (getitem_not_index_ok _ _ Hd)].
  by destruct Hno.
Qed.

Lemma tet_index_ok_dec n t : {tet_index_ok n t} + {~ tet_index_ok n t}.
Proof.
  destruct t as [[[a b] c] d]. unfold tet_index_ok.
  destruct (index_ok_dec n a); [|right; tauto].
  destruct (index_ok_dec n b); [|right; tauto].
  destruct (index_ok_dec n c); [|right; tauto].
  destruct (index_ok_dec n d); [left|right]; tauto.
Qed.

(** The loop returns six segments for each tetrahedron when every index
    is accepted, and raises [IndexError] at the first one that is not. *)
Lemma neutral_edges_cases coords ts :
  (Forall (tet_index_ok (length coords)) ts /\
   exists segs, neutral_edges coords ts = Ret segs /\
                length segs = (6 * length ts)%nat /\
                forall p q, (p, q) ∈ segs -> p ∈ coords /\ q ∈ coords) \/
  (~ Forall (tet_index_ok (length coords)) ts /\
   neutral_edges coords ts = Raise IndexError).
Proof.
  unfold neutral_edges. induction ts as [|t ts IH].
  - left. split; [constructor|]. exists []. simpl.
    split; [reflexivity|]. split; [reflexivity|].
    intros p q Hpq. by apply elem_of_nil in Hpq.
  - destruct (tet_index_ok_dec (length coords) t) as [Ht|Ht].
    + destruct (tet_edges_ok _ _ Ht) as (s & Hs & Hlen & Hin).
      simpl. rewrite Hs. simpl.
      destruct IH as [(Hall & segs & Hsegs & Hlens & Hins)|(Hno & Hraise)].
      * left. split; [by constructor|].
        apply bind_Ret_inv in Hsegs as (per & Hper & [= <-]). rewrite Hper. simpl.
        eexists. split; [reflexivity|]. split.
        -- rewrite length_app, Hlen, Hlens. lia.
        -- intros p q Hpq. apply elem_of_app in Hpq as [Hpq|Hpq]; eauto.
      * right. split; [intros Hall; apply Hno; by inversion Hall|].
        destruct (for_append (tet_edges coords) ts) as [per|e|code]; simpl in *; done.
    + right. split; [intros Hall; apply Ht; by inversion Hall|].
      simpl. by rewrite (tet_edges_bad _ _ Ht).
Qed.

(** X5: the edge loop of [loadNeutral] returns exactly when every index
    of every tetrahedron lies between [-len(coords)] and [len(coords)-1]
    (a negative index counts from the end and is not refused); it then
    gives six segments for each tetrahedron, between points of [coords].
    In every other case it raises [IndexError]. *)
Theorem neutral_edges_index coords ts :
  (returns (neutral_edges coords ts) <-> Forall (tet_index_ok (length coords)) ts) /\
  (forall segs, neutral_edges coords ts = Ret segs ->
                length segs = (6 * length ts)%nat /\
                forall p q, (p, q) ∈ segs -> p ∈ coords /\ q ∈ coords) /\
  (~ returns (neutral_edges coords ts) -> neutral_edges coords ts = Raise IndexError).
Proof.
  destruct (neutral_edges_cases coords ts)
    as [(Hall & segs & Hsegs & Hlen & Hin)|(Hno & Hraise)].
  - split; [|split].
    + split; [done|]. intros _. by exists segs.
    + intros segs' Hsegs'. rewrite Hsegs in Hsegs'. injection Hsegs' as <-. done.
    + intros Hnr. destruct Hnr. by exists segs.
  - split; [|split].
    + split; [|done]. intros [segs Hsegs]. by rewrite Hraise in Hsegs.
    + intros segs Hsegs. by rewrite Hraise in Hsegs.
    + done.
Qed.

Lemma tet_in_range_index_ok n t : tet_in_range (Z.of_nat n) t -> tet_index_ok n t.
Proof. destruct t as [[[a b] c] d]. unfold tet_in_range, tet_index_ok, index_ok. lia. Qed.

(** X6: for a valid neutral file the edge loop has nothing to refuse:
    on the lists that [convertNeutral2Xml] returns it gives six segments
    for each of the T tetrahedra. *)
Theorem neutral_edges_valid_file infile text w N coords T tets :
  files w !! infile = Some text ->
  neutral_format (readlines text) N coords T tets ->
  ids_in_range (readlines text) N T ->
  exists cs ts segs,
    (convertNeutral2Xml infile None w).1 = Ret (cs, ts) /\
    neutral_edges cs ts = Ret segs /\ length segs = (6 * T)%nat.
Proof.
  intros Hf Hfmt Hids.
  assert (writable None w) as Hw by (intros o Ho; discriminate Ho).
  exists coords, tets.
  rewrite (convertNeutral2Xml_format _ _ _ _ _ _ _ _ Hf Hfmt Hw). simpl.
  destruct (neutral_edges_cases coords tets)
    as [(_ & segs & Hsegs & Hlen & _)|(Hno & _)].
  - exists segs. split; [reflexivity|]. split; [exact Hsegs|].
    pose proof (nf_ntets _ _ _ _ _ Hfmt) as HT. clear Hfmt Hids. subst T. exact Hlen.
  - destruct Hno. rewrite (nf_ncoords _ _ _ _ _ Hfmt).
    eapply Forall_impl; [by eapply tets_in_range|]. apply tet_in_range_index_ok.
Qed.

End Edges.

(** ** loadGmesh *)

Section GmeshMore.
Context `{PyFloat} `{!Toolkit}.

Lemma first_with_none marker lines k :
  (forall l, l ∈ lines -> ~ within marker l) -> first_with marker lines k = None.
Proof.
  revert k. induction lines as [|l lines IH]; intros k Hno; [done|].
  simpl. assert (contains marker l = false) as ->.
  { apply contains_not_within, Hno. by left. }
  apply IH. intros l' Hl'. apply Hno. by right.
Qed.

(** X7: a file in which no line has $Nodes or $Elements is no error for
    [loadGmesh]: it gives the toolkit an empty list of nodes and an empty
    list of triangles. *)
Theorem loadGmesh_no_markers filename text w c alpha bc legend :
  files w !! filename = Some text ->
  (forall l, l ∈ readlines text -> ~ within "$Nodes" l /\ ~ within "$Elements" l) ->
  loadGmesh filename c alpha bc legend w = gmesh_actor [] [] c alpha bc legend w.
Proof.
  intros Hf Hno. unfold loadGmesh.
  rewrite (bindS_Ret _ _ _ _ _ (path_exists_file _ _ _ Hf)). simpl.
  rewrite (bindS_Ret _ _ _ _ _ (read_lines_file _ _ _ Hf)).
  unfold lift, bindS, gmesh_parse, gmesh_count.
  rewrite !first_with_none by (intros l Hl; by apply Hno). done.
Qed.

Lemma pure_gmesh_count marker lines : pure (gmesh_count marker lines).
Proof.
  unfold gmesh_count. destruct (first_with marker lines 0); [|done].
  apply pure_bind; [apply pure_getitem|]; intros ?.
  apply pure_bind; [apply pure_int|]; intros ?. done.
Qed.

Lemma pure_gmesh_node lines i : pure (gmesh_node lines i).
Proof.
  unfold gmesh_node. apply pure_bind; [apply pure_getitem|]; intros ?. simpl.
  repeat (apply pure_bind; [first [apply pure_getitem | apply pure_pyfloat]|]; intros ?).
  done.
Qed.

Lemma pure_gmesh_element lines i : pure (gmesh_element lines i).
Proof.
  unfold gmesh_element. apply pure_bind; [apply pure_getitem|]; intros ?. simpl.
  repeat (apply pure_bind; [first [apply pure_getitem | apply pure_int]|]; intros ?).
  done.
Qed.

Lemma pure_gmesh_parse lines : pure (gmesh_parse lines).
Proof.
  unfold gmesh_parse.
  apply pure_bind; [apply pure_gmesh_count|]; intros ?.
  apply pure_bind; [apply pure_for_append, pure_gmesh_node|]; intros ?.
  apply pure_bind; [apply pure_gmesh_count|]; intros ?.
  apply pure_bind; [apply pure_for_append, pure_gmesh_element|]; intros ?.
  done.
Qed.

Lemma gmesh_node_short lines (j : nat) lj :
  lines !! j = Some lj -> (length (split lj) < 4)%nat ->
  ~ returns (gmesh_node lines (Z.of_nat j)).
Proof.
  intros Hl Hlen [p Hp]. unfold gmesh_node in Hp.
  rewrite (getitem_lookup _ _ _ Hl) in Hp. simpl in Hp.
  repeat (apply bind_Ret_inv in Hp as (? & ? & Hp)).
  match goal with Hg : getitem (split lj) 3 = Ret _ |- _ =>
    rewrite getitem_out_of_range in Hg; [done|lia] end.
Qed.

Lemma gmesh_element_short lines (j : nat) lj :
  lines !! j = Some lj -> (length (split lj) < 3)%nat ->
  ~ returns (gmesh_element lines (Z.of_nat j)).
Proof.
  intros Hl Hlen [p Hp]. unfold gmesh_element in Hp.
  rewrite (getitem_lookup _ _ _ Hl) in Hp. simpl in Hp.
  apply bind_Ret_inv in Hp as (a & Ha & _).
  rewrite getitem_not_index_ok in Ha; [done|]. unfold index_ok. lia.
Qed.

(** A block that falls short is not read to the end. *)
Lemma gmesh_bad_block_fails {A} marker width (body : list string -> Z -> outcome A) lines :
  (forall (j : nat) lj, lines !! j = Some lj -> (length (split lj) < width)%nat ->
                        ~ returns (body lines (Z.of_nat j))) ->
  (forall j, Z.of_nat (length lines) <= j -> ~ returns (body lines j)) ->
  gmesh_bad_block marker width lines ->
  forall idx n ys,
    gmesh_count marker lines = Ret (idx, n) ->
    for_append (body lines) (range (idx + 1) (idx + 1 + n)) = Ret ys -> False.
Proof.
  intros Hshort Hmissing Hbad idx n ys Hcount Hloop.
  unfold gmesh_count in Hcount.
  destruct Hbad as [i Hfirst Hlen|i l Hfirst Hl Hint|i l n' j lj Hfirst Hl Hint Hj Hlj Hw
                   |i l n' Hfirst Hl Hint Hlen];
    rewrite (first_with_first _ _ i 0 Hfirst) in Hcount;
    replace (0 + Z.of_nat i + 1) with (Z.of_nat (i + 1)) in Hcount by lia.
  - rewrite getitem_out_of_range in Hcount; [done|lia].
  - rewrite (getitem_lookup _ _ _ Hl) in Hcount. simpl in Hcount.
    apply bind_Ret_inv in Hcount as (m & Hm & _). apply Hint. by exists m.
  - rewrite (getitem_lookup _ _ _ Hl) in Hcount. simpl in Hcount.
    rewrite Hint in Hcount. injection Hcount as <- <-.
    refine (for_append_fails (body lines) _ (Z.of_nat j) _ _ (ex_intro _ ys Hloop)).
    + apply range_In. lia.
    + by eapply Hshort.
  - rewrite (getitem_lookup _ _ _ Hl) in Hcount. simpl in Hcount.
    rewrite Hint in Hcount. injection Hcount as <- <-.
    refine (for_append_fails (body lines) _ (Z.of_nat (i + 1) + n') _ _
              (ex_intro _ ys Hloop)).
    + apply range_In. pose proof (lookup_lt_Some _ _ _ Hl). lia.
    + apply Hmissing. lia.
Qed.

(** X8: [loadGmesh] does not recover from a block that falls short.  When
    the line after the first $Nodes or $Elements line is missing or no
    integer, when a node line has fewer than four tokens or an element
    line fewer than three, or when the file ends before the block does,
    the call raises before the toolkit is called and leaves the state as
    it was. *)
Theorem loadGmesh_malformed filename text w c alpha bc legend :
  files w !! filename = Some text ->
  gmesh_bad_block "$Nodes" 4 (readlines text) \/
  gmesh_bad_block "$Elements" 3 (readlines text) ->
  exists e, loadGmesh filename c alpha bc legend w = (Raise e, w).
Proof.
  intros Hf Hbad. unfold loadGmesh.
  rewrite (bindS_Ret _ _ _ _ _ (path_exists_file _ _ _ Hf)). simpl.
  rewrite (bindS_Ret _ _ _ _ _ (read_lines_file _ _ _ Hf)).
  assert (~ returns (gmesh_parse (readlines text))) as Hnr.
  { intros [r Hr]. unfold gmesh_parse in Hr.
    apply bind_Ret_inv in Hr as ([idx n] & Hcn & Hr).
    apply bind_Ret_inv in Hr as (nodes & Hnodes & Hr).
    apply bind_Ret_inv in Hr as ([idx' n'] & Hce & Hr).
    apply bind_Ret_inv in Hr as (elems & Helems & _).
    simpl in *. destruct Hbad as [Hbad|Hbad].
    - eapply (gmesh_bad_block_fails _ _ gmesh_node); [| |exact Hbad|exact Hcn|exact Hnodes].
      + intros j lj. apply gmesh_node_short.
      + intros j Hj [p Hp]. unfold gmesh_node in Hp.
        by rewrite getitem_out_of_range in Hp.
    - eapply (gmesh_bad_block_fails _ _ gmesh_element); [| |exact Hbad|exact Hce|exact Helems].
      + intros j lj. apply gmesh_element_short.
      + intros j Hj [p Hp]. unfold gmesh_element in Hp.
        by rewrite getitem_out_of_range in Hp. }
  destruct (pure_not_returns_raises _ (pure_gmesh_parse _) Hnr) as [e He].
  exists e. unfold lift, bindS. by rewrite He.
Qed.

End GmeshMore.

(** ** loadPCD: the reading of the points *)

Section PcdFacts.
Context `{PyFloat}.

Lemma pcd_loop_plain pre rest st :
  pcd_start st = false -> Forall pcd_plain pre ->
  pcd_loop (pre ++ rest) st = pcd_loop rest st.
Proof.
  intros Hst Hpre. induction Hpre as [|l pre [Hp Hd] _ IH]; [done|].
  apply contains_not_within in Hp, Hd.
  simpl. unfold pcd_point, pcd_header.
  repeat (rewrite ?Hst, ?Hp, ?Hd, ?andb_false_r; simpl). apply IH.
Qed.

Lemma pcd_loop_count pl n rest st :
  pcd_start st = false -> pcd_count_line pl n ->
  pcd_loop (pl :: rest) st
  = pcd_loop rest {| pcd_start := false; pcd_pts := pcd_pts st;
                     pcd_N := pcd_N st; pcd_expN := n |}.
Proof.
  intros Hst (Hp & Hd & tok & Htok & Hint).
  apply contains_within in Hp. apply contains_not_within in Hd.
  pose proof (getitem_lookup _ _ _ Htok) as Hg. change (Z.of_nat 1) with 1 in Hg.
  simpl. unfold pcd_point, pcd_header.
  repeat (rewrite ?Hst, ?Hp, ?Hd, ?Hg, ?Hint, ?andb_false_r; simpl). done.
Qed.

Lemma pcd_loop_data_marker dl rest st :
  pcd_start st = false -> within "DATA ascii" dl -> ~ within "POINTS" dl ->
  pcd_loop (dl :: rest) st
  = pcd_loop rest {| pcd_start := true; pcd_pts := pcd_pts st;
                     pcd_N := pcd_N st; pcd_expN := pcd_expN st |}.
Proof.
  intros Hst Hd Hp. apply contains_within in Hd. apply contains_not_within in Hp.
  simpl. unfold pcd_point, pcd_header.
  repeat (rewrite ?Hst, ?Hp, ?Hd, ?andb_false_r; simpl). done.
Qed.

Lemma pcd_point_line st l p :
  pcd_start st = true -> pcd_N st < pcd_expN st -> pcd_line l p ->
  pcd_point st l
  = Ret (Some {| pcd_start := true; pcd_pts := pcd_pts st ++ [p];
                 pcd_N := pcd_N st + 1; pcd_expN := pcd_expN st |}).
Proof.
  intros Hst Hlt (x & y & z & more & Hs & Hx & Hy & Hz).
  unfold pcd_point. rewrite Hst.
  replace (pcd_expN st <=? pcd_N st) with false by (symmetry; apply Z.leb_gt; lia).
  rewrite Hs.
  change 0 with (Z.of_nat 0). change 1 with (Z.of_nat 1). change 2 with (Z.of_nat 2).
  rewrite (getitem_lookup _ 0 x) by done. simpl. rewrite (pyfloat_Some _ _ Hx). simpl.
  rewrite (getitem_lookup _ 1 y) by done. simpl. rewrite (pyfloat_Some _ _ Hy). simpl.
  rewrite (getitem_lookup _ 2 z) by done. simpl. rewrite (pyfloat_Some _ _ Hz). simpl.
  by destruct p as [[??]?].
Qed.

Lemma pcd_loop_data data ps rest acc n :
  Forall2 pcd_line data ps ->
  pcd_loop (data ++ rest)
           {| pcd_start := true; pcd_pts := acc; pcd_N := n;
              pcd_expN := n + Z.of_nat (length data) |}
  = Ret {| pcd_start := true; pcd_pts := acc ++ ps;
           pcd_N := n + Z.of_nat (length data);
           pcd_expN := n + Z.of_nat (length data) |}.
Proof.
  intros Hdata. revert acc n. induction Hdata as [|l p data ps Hl _ IH]; intros acc n.
  - simpl. rewrite app_nil_r, Z.add_0_r. destruct rest as [|l rest]; [done|].
    simpl. unfold pcd_point. simpl. by rewrite Z.leb_refl.
  - simpl app. cbn [pcd_loop]. rewrite (pcd_point_line _ _ p) by (simpl; try done; lia).
    simpl. unfold pcd_header. simpl.
    specialize (IH (acc ++ [p]) (n + 1)).
    replace (n + 1 + Z.of_nat (length data)) with (n + Z.of_nat (S (length data))) in IH by lia.
    rewrite IH. by rewrite <- app_assoc.
Qed.

Lemma pcd_loop_format lines pts :
  pcd_format lines pts ->
  pcd_loop lines pcd_init
  = Ret {| pcd_start := true; pcd_pts := pts;
           pcd_N := Z.of_nat (length pts); pcd_expN := Z.of_nat (length pts) |}.
Proof.
  intros (pre & pl & mid & dl & data & rest & -> & Hpre & Hmid & Hpl & Hd & Hp & Hdata).
  rewrite (pcd_loop_plain pre _ pcd_init eq_refl Hpre).
  rewrite (pcd_loop_count pl _ _ pcd_init eq_refl Hpl). simpl.
  rewrite (pcd_loop_plain mid) by done.
  rewrite (pcd_loop_data_marker dl) by done. simpl.
  pose proof (pcd_loop_data data pts rest [] 0 Hdata) as Hloop. simpl in Hloop.
  rewrite Z.add_0_l in Hloop. rewrite Hloop.
  by rewrite (Forall2_length _ _ _ Hdata).
Qed.

(** X9: on a PCD file with a header that counts n points, the line
    "DATA ascii" and at least n lines of data after it, the reader of
    [loadPCD] takes the first three tokens of each of the first n lines of
    data as a point, reads nothing of what follows, and prints no message
    about a mismatch. *)
Theorem pcd_points_format filename text w pts :
  files w !! filename = Some text ->
  pcd_format (readlines text) pts ->
  pcd_points filename w = (Ret pts, w).
Proof.
  intros Hf Hfmt. unfold pcd_points.
  rewrite (bindS_Ret _ _ _ _ _ (read_lines_file _ _ _ Hf)).
  unfold lift, bindS. rewrite (pcd_loop_format _ _ Hfmt). simpl.
  by rewrite Z.eqb_refl.
Qed.

Lemma pcd_point_inv st l st' :
  pcd_inv st -> pcd_point st l = Ret (Some st') -> pcd_inv st'.
Proof.
  intros Hinv. pose proof Hinv as (HN & _ & Hle). unfold pcd_point.
  destruct (pcd_start st) eqn:Hst; [|by intros [= <-]].
  destruct (Z.leb_spec (pcd_expN st) (pcd_N st)); [done|].
  intros Hr. repeat (apply bind_Ret_inv in Hr as (? & ? & Hr)).
  injection Hr as <-. unfold pcd_inv. simpl. rewrite length_app. simpl.
  repeat apply conj; [lia|done|right; lia].
Qed.

Lemma pcd_header_inv st l st' :
  pcd_inv st -> pcd_header st l = Ret st' -> pcd_inv st'.
Proof.
  intros Hinv. pose proof Hinv as (HN & Hs & Hle). unfold pcd_header.
  destruct (pcd_start st) eqn:Hst; simpl.
  - rewrite Hst. simpl. by intros [= <-].
  - specialize (Hs eq_refl).
    destruct (contains "POINTS" l).
    + intros Hr. apply bind_Ret_inv in Hr as (st1 & Hst1 & Hr).
      repeat (apply bind_Ret_inv in Hst1 as (? & ? & Hst1)). injection Hst1 as <-.
      simpl in Hr.
      destruct (contains "DATA ascii" l); injection Hr as <-;
        unfold pcd_inv; simpl; rewrite ?Hst; (split; [exact HN|split; [by intros _|by left]]).
    + simpl. rewrite Hst. simpl.
      destruct (contains "DATA ascii" l); intros [= <-]; [|exact Hinv].
      unfold pcd_inv; simpl. split; [exact HN|split; [by intros _|by left]].
Qed.

Lemma pcd_loop_inv lines st st' :
  pcd_inv st -> pcd_loop lines st = Ret st' -> pcd_inv st'.
Proof.
  revert st. induction lines as [|l lines IH]; intros st Hinv; simpl.
  - by intros [= <-].
  - intros Hr. apply bind_Ret_inv in Hr as (r & Hpoint & Hr).
    destruct r as [st1|]; [|by injection Hr as <-].
    apply bind_Ret_inv in Hr as (st2 & Hheader & Hr).
    eapply IH; [|exact Hr].
    eapply pcd_header_inv; [|exact Hheader]. by eapply pcd_point_inv.
Qed.

(** X10: whatever the file holds, when the loop of [loadPCD] ends without
    an exception, [N] is the number of points that were read, and that is
    never more than the count last read from a POINTS line (none when
    that count is below 1). *)
Theorem pcd_loop_bound lines st :
  pcd_loop lines pcd_init = Ret st ->
  pcd_N st = Z.of_nat (length (pcd_pts st)) /\
  (length (pcd_pts st) <= Z.to_nat (pcd_expN st))%nat.
Proof.
  intros Hr. assert (pcd_inv pcd_init) as Hinit by (split; [done|split; [done|by left]]).
  destruct (pcd_loop_inv _ _ _ Hinit Hr) as (HN & _ & [Hnil|Hle]).
  - split; [done|]. rewrite Hnil. simpl. lia.
  - split; [done|]. lia.
Qed.

Lemma printc_red_word strings w :
  printc strings (CStr "red") nl w = (Ret tt, printed_red (join " " strings) w).
Proof. unfold printc, printed_red, stdout_write. by destruct (has_colors w). Qed.

(** X11: a PCD file without a line "DATA ascii" (a binary one, say) is no
    error for the reader of [loadPCD]: it reads no point, and when the
    header counts n points, n not 0, it prints the mismatch of n and 0 in
    red and goes on with the empty list. *)
Theorem pcd_points_header_only filename text w n :
  files w !! filename = Some text ->
  pcd_header_only (readlines text) n ->
  n <> 0 ->
  pcd_points filename w
  = (Ret [], printed_red ("Mismatch in pcd file " +:+ str n +:+ " 0") w).
Proof.
  intros Hf (pre & pl & mid & Hlines & Hpre & Hmid & Hpl) Hn. unfold pcd_points.
  rewrite (bindS_Ret _ _ _ _ _ (read_lines_file _ _ _ Hf)).
  unfold lift, bindS at 1. rewrite Hlines.
  rewrite (pcd_loop_plain pre _ pcd_init eq_refl Hpre).
  rewrite (pcd_loop_count pl _ _ pcd_init eq_refl Hpl). simpl.
  rewrite <- (app_nil_r mid), (pcd_loop_plain mid []) by done. simpl.
  replace (n =? 0) with false by (symmetry; by apply Z.eqb_neq).
  unfold bindS. by rewrite printc_red_word.
Qed.

End PcdFacts.

(** ** Video.addFrame, Video.pause and the name that Video.close gives *)

Section VideoMore.
Context `{PyFloat}.

Lemma getitem_last {A} (l : list A) a : last l = Some a -> getitem l (-1) = Ret a.
Proof.
  intros Hl. rewrite last_lookup in Hl.
  assert (length l <> 0%nat) as Hlen by (intros Hz; rewrite Hz in Hl; by destruct l).
  change (-1) with (- Z.of_nat 1). apply getitem_from_end; [lia|].
  by replace (length l - 1)%nat with (pred (length l)) by lia.
Qed.

Lemma pause_loop_frames status fr n (v : Video) w :
  exists v' w',
    pause_loop status fr n v w = (Ret v', w') /\
    frames v' = frames v ++ map (fun i => frame_path (Z.of_nat i)) (seq (length (frames v)) n) /\
    commands w' = commands w ++ map (copy_frame fr) (seq (length (frames v)) n) /\
    stdout w' = stdout w.
Proof.
  revert v w. induction n as [|n IH]; intros v w; simpl.
  - eexists _, _. split; [reflexivity|]. by rewrite !app_nil_r.
  - unfold bindS, os_system.
    destruct (IH (add_frame (frame_path (Z.of_nat (length (frames v)))) v)
                 {| files := files w; dirs := dirs w; has_colors := has_colors w;
                    stdout := stdout w;
                    commands := commands w ++
                      ["cp -f " +:+ fr +:+ " " +:+ frame_path (Z.of_nat (length (frames v)))] |})
      as (v' & w' & -> & Hf & Hc & Ho).
    eexists _, _. split; [reflexivity|]. rewrite Hf, Hc, Ho. simpl.
    rewrite length_app. simpl. rewrite Nat.add_1_r, <- !app_assoc. done.
Qed.

(** X12: [pause] reads the last frame before it looks at the length of
    the pause: on a video without a frame it raises [IndexError], for a
    pause of any length, and copies nothing. *)
Theorem Video_pause_no_frame float_int status pause (v : Video) w :
  frames v = [] ->
  Video_pause float_int status pause v w = (Raise IndexError, w).
Proof. intros Hf. unfold Video_pause, bindS, lift. by rewrite Hf. Qed.

(** X13: on a video with a frame, a pause of [n] = int(fps * pause) frames
    (none when [n] is not positive) appends [n] frame names, numbered
    from the number of frames on, and runs one [cp] of the frame that was
    the last one for each of them, in this order; it prints nothing. *)
Theorem Video_pause_frames float_int status pause (v : Video) w fr n :
  last (frames v) = Some fr ->
  float_int (float_mul (fps v) (num_float pause)) = Ret n ->
  exists v' w',
    Video_pause float_int status pause v w = (Ret v', w') /\
    frames v' = frames v ++ map (fun i => frame_path (Z.of_nat i))
                                (seq (length (frames v)) (Z.to_nat n)) /\
    commands w' = commands w ++ map (copy_frame fr) (seq (length (frames v)) (Z.to_nat n)) /\
    stdout w' = stdout w.
Proof.
  intros Hl Hn. unfold Video_pause, bindS, lift.
  rewrite (getitem_last _ _ Hl), Hn. apply pause_loop_frames.
Qed.

Lemma str_inj a b : str a = str b -> a = b.
Proof. intros Hs. pose proof (int_str a) as Ha. rewrite Hs, int_str in Ha. congruence. Qed.

Lemma string_app_cons x (a b : string) : String x a +:+ b = String x (a +:+ b).
Proof. reflexivity. Qed.

Lemma string_length_app (a b : string) :
  String.length (a +:+ b) = (String.length a + String.length b)%nat.
Proof.
  induction a as [|x a IH]; [done|]. rewrite string_app_cons. simpl. by rewrite IH.
Qed.

Lemma string_app_inv_tail (a b c : string) : a +:+ c = b +:+ c -> a = b.
Proof.
  revert b. induction a as [|x a IH]; intros [|y b] Heq.
  - done.
  - exfalso. apply (f_equal String.length) in Heq.
    rewrite string_app_cons in Heq. change (EmptyString +:+ c) with c in Heq.
    simpl in Heq. rewrite string_length_app in Heq. lia.
  - exfalso. apply (f_equal String.length) in Heq.
    rewrite string_app_cons in Heq. change (EmptyString +:+ c) with c in Heq.
    simpl in Heq. rewrite string_length_app in Heq. lia.
  - rewrite !string_app_cons in Heq. injection Heq as -> Heq. f_equal. by apply IH.
Qed.

Lemma frame_path_inj i j : frame_path i = frame_path j -> i = j.
Proof.
  unfold frame_path. intros Heq. apply String.app_inj in Heq.
  apply string_app_inv_tail in Heq. by apply str_inj.
Qed.

Lemma numbered_frames_snoc (v : Video) :
  numbered_frames v ->
  numbered_frames (add_frame (frame_path (Z.of_nat (length (frames v)))) v).
Proof.
  unfold numbered_frames, add_frame. simpl. intros Hn.
  rewrite length_app. simpl. rewrite Nat.add_1_r, seq_S, map_app. simpl.
  by rewrite <- Hn.
Qed.

Lemma numbered_frames_app (v v' : Video) n :
  numbered_frames v ->
  frames v' = frames v ++ map (fun i => frame_path (Z.of_nat i)) (seq (length (frames v)) n) ->
  numbered_frames v'.
Proof.
  unfold numbered_frames. intros Hn ->.
  rewrite length_app, length_map, length_seq, seq_app, map_app. simpl. by rewrite <- Hn.
Qed.

(** X14: the frames of a video stay numbered: when they are
    /tmp/vpvid/0.png, /tmp/vpvid/1.png, ... there is no name twice, and
    they are numbered again after an [addFrame] or a [pause] that
    returns.  So no frame is written over an earlier one. *)
Theorem Video_frames_numbered (v : Video) :
  numbered_frames v ->
  NoDup (frames v) /\
  (forall screenshot w v' w',
      Video_addFrame screenshot v w = (Ret v', w') ->
      numbered_frames v' /\ length (frames v') = S (length (frames v))) /\
  (forall float_int status pause w v' w',
      Video_pause float_int status pause v w = (Ret v', w') -> numbered_frames v').
Proof.
  intros Hn. split; [|split].
  - rewrite Hn. apply NoDup_fmap_2; [|apply NoDup_seq].
    intros i j Heq. apply frame_path_inj in Heq. lia.
  - intros screenshot w v' w' Ha. unfold Video_addFrame, bindS in Ha.
    destruct (screenshot _ w) as [[[]|e|code] w1]; try done.
    injection Ha as <- <-. split; [by apply numbered_frames_snoc|].
    unfold add_frame. simpl. rewrite length_app. simpl. lia.
  - intros float_int status pause w v' w' Hp. unfold Video_pause, bindS, lift in Hp.
    destruct (getitem (frames v) (-1)) as [fr|e|code]; try done.
    destruct (float_int _) as [n|e|code]; try done.
    destruct (pause_loop_frames status fr (Z.to_nat n) v w) as (v1 & w1 & Hl & Hf & _).
    rewrite Hl in Hp. injection Hp as <- <-. by eapply numbered_frames_app.
Qed.

Lemma before_dot_no_dot s : ~ within "." (before_dot s).
Proof.
  induction s as [|c s IH]; simpl.
  - intros (a & b & Heq). by destruct a.
  - destruct (Ascii.eqb_spec c ".") as [->|Hc].
    + intros (a & b & Heq). by destruct a.
    + intros (a & b & Heq). destruct a as [|x a].
      * change (EmptyString +:+ "." +:+ b) with (String "." b) in Heq.
        injection Heq as Heq _. congruence.
      * rewrite string_app_cons in Heq. injection Heq as _ Heq. apply IH. by exists a, b.
Qed.

Lemma before_dot_prefix s :
  s = before_dot s \/ exists b, s = before_dot s +:+ "." +:+ b.
Proof.
  induction s as [|c s IH]; simpl; [by left|].
  destruct (Ascii.eqb_spec c ".") as [->|Hc].
  - right. by exists s.
  - destruct IH as [IH|(b & IH)].
    + left. by rewrite <- IH.
    + right. exists b. rewrite string_app_cons. by rewrite <- IH.
Qed.

(** X15: when [close] returns, the name of the video is what stood
    before the first dot of the old name, with .mp4 behind it: a name
    such as ./out/movie.avi, which starts with a dot, becomes .mp4. *)
Theorem Video_close_name status (v : Video) w v' w' :
  Video_close status v w = (Ret v', w') ->
  exists a, name v' = a +:+ ".mp4" /\ ~ within "." a /\
            (name v = a \/ exists b, name v = a +:+ "." +:+ b).
Proof.
  intros Hc. exists (before_dot (name v)).
  split; [|split; [apply before_dot_no_dot|apply before_dot_prefix]].
  unfold Video_close, bindS in Hc.
  destruct (duration v) as [d|]; [|done]. destruct (num_truthy d); [|done].
  destruct (printc _ _ _ w) as [[[]|e|code] w1]; try done. unfold ret in Hc.
  destruct (os_system _ _ w1) as [[out|e|code] w2]; try done.
  destruct (if out =? 0 then _ else _) as [[[]|e|code] w3]; try done.
  destruct (printc _ _ _ w3) as [[[]|e|code] w4]; try done.
  by injection Hc as <- _.
Qed.

End VideoMore.

(** ** ProgressBar: the percentage and the redrawing *)

Section ProgressBarMore.
Context `{PyFloat}.

Lemma round_div_mono a a' b : 0 < b -> a <= a' -> round_div a b <= round_div a' b.
Proof.
  intros Hb Ha. unfold round_div.
  pose proof (Z.div_mod a b ltac:(lia)) as Hdm.
  pose proof (Z.div_mod a' b ltac:(lia)) as Hdm'.
  pose proof (Z.mod_pos_bound a b Hb) as Hr.
  pose proof (Z.mod_pos_bound a' b Hb) as Hr'.
  pose proof (Z.div_le_mono a a' b Hb Ha) as Hq.
  rewrite (Z.abs_eq (a mod b)), (Z.abs_eq (a' mod b)), (Z.abs_eq b) by lia.
  assert (a / b < a' / b \/ (a / b = a' / b /\ a mod b <= a' mod b)) as [Hlt|[Heq Hle]] by nia.
  - destruct (Z.compare_spec (2 * (a mod b)) b), (Z.compare_spec (2 * (a' mod b)) b);
      destruct (Z.even (a / b)), (Z.even (a' / b)); lia.
  - rewrite <- Heq.
    destruct (Z.compare_spec (2 * (a mod b)) b), (Z.compare_spec (2 * (a' mod b)) b);
      destruct (Z.even (a / b)); lia.
Qed.

Lemma round_div_0 b : 0 < b -> round_div 0 b = 0.
Proof.
  intros Hb. unfold round_div. rewrite Z.div_0_l, Zmod_0_l by lia.
  simpl. by destruct b.
Qed.

Lemma round_div_100 b : 0 < b -> round_div (b * 100) b = 100.
Proof.
  intros Hb. unfold round_div.
  rewrite (Z.mul_comm b 100), Z.div_mul, Z.mod_mul by lia. simpl. by destruct b.
Qed.

(** The count that [_update] keeps. *)
Lemma ProgressBar_update_fields counts pb :
  stop pb - start pb <> 0 ->
  exists pb',
    ProgressBar_update counts pb = (Ret tt, pb') /\
    _counts pb' = (if counts <? start pb then start pb
                   else if stop pb <? counts then stop pb else counts) /\
    percent pb' = round_div ((_counts pb' - start pb) * 100) (stop pb - start pb) /\
    start pb' = start pb /\ stop pb' = stop pb /\ step pb' = step pb /\
    _oldbar pb' = _oldbar pb.
Proof.
  intros Hne. unfold ProgressBar_update.
  cbn [set_counts set_percent start stop _counts percent].
  destruct (Z.eqb_spec (stop pb - start pb) 0) as [|_]; [done|].
  eexists. split; [reflexivity|].
  repeat match goal with |- context [if ?b =? ?c then _ else _] => destruct (b =? c) end;
    cbn; repeat apply conj; reflexivity.
Qed.

(** X16: the percentage that [_update] computes does not go down when
    the count goes up; it is 0 for every count up to [start] and 100 for
    every count from [stop] on. *)
Theorem ProgressBar_percent_mono counts counts' pb :
  start pb < stop pb ->
  counts <= counts' ->
  percent (ProgressBar_update counts pb).2 <= percent (ProgressBar_update counts' pb).2 /\
  (counts <= start pb -> percent (ProgressBar_update counts pb).2 = 0) /\
  (stop pb <= counts -> percent (ProgressBar_update counts pb).2 = 100).
Proof.
  intros Hlt Hle.
  destruct (ProgressBar_update_fields counts pb ltac:(lia)) as (p1 & Hu1 & Hc1 & Hp1 & _).
  destruct (ProgressBar_update_fields counts' pb ltac:(lia)) as (p2 & Hu2 & Hc2 & Hp2 & _).
  rewrite Hu1, Hu2. simpl. rewrite Hp1, Hp2, Hc1, Hc2. split; [|split].
  - apply round_div_mono; [lia|].
    destruct (Z.ltb_spec counts (start pb)), (Z.ltb_spec counts' (start pb)),
      (Z.ltb_spec (stop pb) counts), (Z.ltb_spec (stop pb) counts'); lia.
  - intros Hs.
    replace (if counts <? start pb then start pb
             else if stop pb <? counts then stop pb else counts) with (start pb)
      by (destruct (Z.ltb_spec counts (start pb)), (Z.ltb_spec (stop pb) counts); lia).
    rewrite Z.sub_diag. apply round_div_0. lia.
  - intros Hs.
    replace (if counts <? start pb then start pb
             else if stop pb <? counts then stop pb else counts) with (stop pb)
      by (destruct (Z.ltb_spec counts (start pb)), (Z.ltb_spec (stop pb) counts); lia).
    apply round_div_100. lia.
Qed.

(** X17: [print] moves the count to the number it is given, kept between
    [start] and [stop]; without a number, and also for the number 0, it
    moves the count by [step] instead. *)
Theorem ProgressBar_print_counts eta txt counts pb w pb' w' :
  start pb < stop pb ->
  ProgressBar_print eta txt counts (pb, w) = (Ret tt, (pb', w')) ->
  (counts = None \/ counts = Some 0 ->
   _counts pb' = Z.max (start pb) (Z.min (stop pb) (_counts pb + step pb))) /\
  (forall c, counts = Some c -> c <> 0 ->
   _counts pb' = Z.max (start pb) (Z.min (stop pb) c)).
Proof.
  intros Hlt Hp. unfold ProgressBar_print in Hp.
  match type of Hp with context [ProgressBar_update ?c pb] =>
    destruct (ProgressBar_update_fields c pb ltac:(lia)) as (p1 & Hu & Hc & _);
    rewrite Hu in Hp; set (target := c) in * end.
  assert (_counts pb' = _counts p1) as ->.
  { destruct (String.eqb _ _); [by injection Hp as <- _|].
    destruct (if ETA _ then eta else _) as [e|e|code]; try done.
    destruct (show_bar _ _ w) as [[[]|e'|code] w1]; try done. by injection Hp as <- _. }
  assert (_counts p1 = Z.max (start pb) (Z.min (stop pb) target)) as ->.
  { rewrite Hc. destruct (Z.ltb_spec target (start pb)), (Z.ltb_spec (stop pb) target); lia. }
  split.
  - intros [->| ->]; by subst target.
  - intros c -> Hc0. subst target. by destruct (Z.eqb_spec c 0).
Qed.

Lemma ProgressBar_update_again counts pb pb' pb2 :
  ProgressBar_update counts pb = (Ret tt, pb') ->
  start pb2 = start pb' -> stop pb2 = stop pb' -> width pb2 = width pb' ->
  _counts pb2 = _counts pb' -> percent pb2 = percent pb' -> bar pb2 = bar pb' ->
  ProgressBar_update counts pb2 = (Ret tt, pb2).
Proof.
  destruct pb, pb2. intros Hu. unfold ProgressBar_update in *. cbn in Hu. cbn.
  destruct (_ - _ =? 0) eqn:Hz in Hu; [done|].
  repeat match type of Hu with context [if ?b =? ?c then _ else _] =>
           destruct (b =? c) eqn:? in Hu end;
    injection Hu as <-; cbn; intros -> -> -> -> -> ->; rewrite Hz;
    repeat match goal with Hb : (_ =? _) = _ |- _ => rewrite Hb; clear Hb end;
    reflexivity.
Qed.

(** X18: the bar is drawn again only when it has changed: after a
    [print] with a count that returned, a second [print] with the same
    count, whatever its text, writes nothing and changes nothing. *)
Theorem ProgressBar_print_again eta txt eta' txt' c pb w pb' w' :
  c <> 0 ->
  ProgressBar_print eta txt (Some c) (pb, w) = (Ret tt, (pb', w')) ->
  ProgressBar_print eta' txt' (Some c) (pb', w') = (Ret tt, (pb', w')).
Proof.
  intros Hc Hp. unfold ProgressBar_print in *.
  destruct (Z.eqb_spec c 0) as [|_]; [done|].
  destruct (ProgressBar_update c pb) as [[[]|e|code] p1] eqn:Hu; try done.
  destruct (String.eqb (bar p1) (_oldbar p1)) eqn:Hsame.
  - injection Hp as <- <-.
    rewrite (ProgressBar_update_again c pb p1 p1 Hu) by reflexivity. by rewrite Hsame.
  - destruct (if ETA _ then eta else _) as [e|e|code]; try done.
    destruct (show_bar _ _ w) as [[[]|e'|code] w1]; try done.
    injection Hp as <- <-.
    rewrite (ProgressBar_update_again c pb p1 _ Hu) by reflexivity.
    cbn. by rewrite String.eqb_refl.
Qed.

End ProgressBarMore.

(** ** printc, write and loadFile *)

Section PrintcFacts.

Lemma cols_range s n : cols s = Some n -> 0 <= n < 8.
Proof.
  unfold cols.
  repeat match goal with |- context [if ?b then _ else _] => destruct b end;
    intros [= <-]; lia.
Qed.

Lemma printc_returns strings c end_ w :
  exists w', printc strings c end_ w = (Ret tt, w').
Proof.
  unfold printc, stdout_write. destruct (has_colors w); [|by eexists].
  destruct c as [n|s]; [by eexists|]. destruct (cols (lower s)); by eexists.
Qed.

Lemma printc_appends strings c end_ w :
  exists out,
    printc strings c end_ w
    = (Ret tt, {| files := files w; dirs := dirs w; has_colors := has_colors w;
                  stdout := stdout w ++ [out]; commands := commands w |}).
Proof.
  unfold printc, stdout_write. destruct (has_colors w); [|by eexists].
  destruct c as [n|s]; [by eexists|]. destruct (cols (lower s)); by eexists.
Qed.

(** X19: [printc] never raises, also for a color name it does not know:
    it writes one text to the terminal and touches nothing else.  The
    text is the words joined by blanks and the end mark, either as they
    are, which is the case on a terminal without colors, or between the
    escape sequence of a color from 30 to 37 and the reset sequence. *)
Theorem printc_once strings c end_ w :
  exists out,
    printc strings c end_ w
    = (Ret tt, {| files := files w; dirs := dirs w; has_colors := has_colors w;
                  stdout := stdout w ++ [out]; commands := commands w |}) /\
    (has_colors w = false -> out = join " " strings +:+ end_) /\
    (out = join " " strings +:+ end_ \/
     exists n, 0 <= n < 8 /\
       out = esc +:+ "[1;" +:+ str (30 + n) +:+ "m" +:+ join " " strings
             +:+ esc +:+ "[0m" +:+ end_).
Proof.
  unfold printc, stdout_write. destruct (has_colors w) eqn:Hcol.
  - destruct c as [n|s].
    + eexists. split; [reflexivity|]. split; [done|]. right. exists (n mod 8).
      split; [apply Z.mod_pos_bound; lia|done].
    + destruct (cols (lower s)) as [n|] eqn:Hn.
      * eexists. split; [reflexivity|]. split; [done|]. right. exists n.
        split; [by eapply cols_range|done].
      * eexists. split; [reflexivity|]. split; [done|]. by left.
  - eexists. split; [reflexivity|]. split; [done|]. by left.
Qed.

End PrintcFacts.

Section LoadersMore.
Context `{Toolkit}.

Lemma try_except_returns {A} (m h : M A) w :
  (forall w1, exists a w2, h w1 = (Ret a, w2)) ->
  exists a w2, try_except m h w = (Ret a, w2).
Proof.
  intros Hh. unfold try_except. destruct (m w) as [[a|e|code] w1]; [by eexists _, _|..];
    apply Hh.
Qed.

Lemma save_with_cases wr obj fileoutput w :
  exists r w1,
    vtk_write wr obj fileoutput w = (r, w1) /\
    ((r = Ret tt /\
      save_with wr obj fileoutput w = printc ["Saved file: " +:+ fileoutput] (CStr "g") nl w1) \/
     (r <> Ret tt /\
      save_with wr obj fileoutput w
      = (Ret tt, printed_red ("Error saving: " +:+ fileoutput) w1))).
Proof.
  unfold save_with, try_except, bindS.
  destruct (vtk_write wr obj fileoutput w) as [[[]|e|code] w1]; eexists _, _;
    (split; [reflexivity|]).
  - left. split; [done|].
    by destruct (printc _ _ _ w1) as [[[]|e|code] w2] eqn:Hp;
      destruct (printc_returns ["Saved file: " +:+ fileoutput] (CStr "g") nl w1)
        as (w3 & Hout); rewrite Hout in Hp.
  - right. split; [done|]. apply printc_red_name.
  - right. split; [done|]. apply printc_red_name.
Qed.

(** X20: for a name with the mark of a writer ([.obj] goes another way)
    [write] returns whatever the writer of the toolkit does: when the
    writer raises, or ends the process, [write] prints "Error saving" in
    red and returns; when the writer returns, it prints "Saved file". *)
Theorem write_protected obj fileoutput w :
  let fr := lower fileoutput in
  within ".vtk" fr \/ within ".ply" fr \/
  (~ within ".obj" fr /\
   (within ".stl" fr \/ within ".byu" fr \/ within ".g" fr \/ within ".vtp" fr)) ->
  (write obj fileoutput w).1 = Ret tt /\
  exists wr r w1,
    vtk_write wr obj fileoutput w = (r, w1) /\
    (r = Ret tt ->
     write obj fileoutput w = printc ["Saved file: " +:+ fileoutput] (CStr "g") nl w1) /\
    (r <> Ret tt ->
     write obj fileoutput w = (Ret tt, printed_red ("Error saving: " +:+ fileoutput) w1)).
Proof.
  intros fr Hmark.
  assert (exists wr, write obj fileoutput = save_with wr obj fileoutput) as [wr ->].
  { unfold write. fold fr.
    destruct (contains ".vtk" fr) eqn:Hvtk; [by eexists|].
    destruct (contains ".ply" fr) eqn:Hply; [by eexists|].
    apply contains_not_within in Hvtk, Hply.
    destruct Hmark as [?|[?|[Hobj Hmark]]]; [done|done|].
    apply contains_not_within in Hobj. rewrite Hobj.
    destruct (contains ".stl" fr) eqn:Hstl; [by eexists|].
    destruct (contains ".byu" fr || contains ".g" fr) eqn:Hbyu; [by eexists|].
    apply orb_false_elim in Hbyu as [Hbyu Hg].
    destruct (contains ".vtp" fr) eqn:Hvtp; [by eexists|].
    apply contains_not_within in Hstl, Hbyu, Hg, Hvtp.
    by destruct Hmark as [?|[?|[?|?]]]. }
  destruct (save_with_cases wr obj fileoutput w) as (r & w1 & Hw & Hcases).
  split.
  - destruct Hcases as [[_ ->]|[_ ->]]; [|done].
    by destruct (printc_returns ["Saved file: " +:+ fileoutput] (CStr "g") nl w1)
      as (w3 & ->).
  - exists wr, r, w1. split; [done|]. split; intros Hr; destruct Hcases as [[? ?]|[? ?]]; done.
Qed.

Ltac missing_loader Hm :=
  unfold bindS; rewrite (path_exists_missing _ _ Hm); simpl;
  rewrite printc_red_int; eexists; reflexivity.

(** X21: [loadFile] on a path that does not exist, the names of images
    apart, never raises and reads no file.  For a name with one of the
    marks .xml, .neutral, .gmsh, .pcd, .tif or .slc it prints one message
    in red and returns [None]; for every other name it prints two, that
    of [loadPoly] and "Unable to load", and returns [False]. *)
Theorem loadFile_missing p c alpha wire bc edges legend texture
        smoothing threshold connectivity scaling w :
  let fl := lower p in
  let named := within ".xml" fl \/ within ".neutral" fl \/ within ".gmsh" fl \/
               within ".pcd" fl \/ within ".tif" fl \/ within ".slc" fl in
  missing p w ->
  ~ within ".png" fl -> ~ within ".jpg" fl -> ~ within ".jpeg" fl ->
  (named ->
   exists msg,
     loadFile p c alpha wire bc edges legend texture
              smoothing threshold connectivity scaling w
     = (Ret PyNone, printed_red msg w)) /\
  (~ named ->
   loadFile p c alpha wire bc edges legend texture
            smoothing threshold connectivity scaling w
   = (Ret PyFalse,
      printed_red ("Unable to load " +:+ p)
                  (printed_red ("Error in loadPoly: Cannot find " +:+ p) w))).
Proof.
  intros fl named Hm Hpng Hjpg Hjpeg.
  apply contains_not_within in Hpng, Hjpg, Hjpeg.
  assert (contains ".xml.gz" fl = true -> contains ".xml" fl = true) as Hgz.
  { intros Hc. apply contains_within. apply contains_within in Hc.
    by apply (within_longer ".xml" ".gz"). }
  unfold loadFile. fold fl.
  destruct (contains ".xml" fl) eqn:Hxml.
  { split; [intros _|intros []; left; by apply contains_within].
    simpl. unfold loadXml. missing_loader Hm. }
  destruct (contains ".xml.gz" fl) eqn:Hxmlgz; [by specialize (Hgz eq_refl)|]. simpl.
  destruct (contains ".neutral" fl) eqn:Hneu.
  { split; [intros _|intros []; right; left; by apply contains_within].
    unfold loadNeutral. missing_loader Hm. }
  destruct (contains ".gmsh" fl) eqn:Hgm.
  { split; [intros _|intros []; do 2 right; left; by apply contains_within].
    unfold loadGmesh. missing_loader Hm. }
  destruct (contains ".pcd" fl) eqn:Hpcd.
  { split; [intros _|intros []; do 3 right; left; by apply contains_within].
    unfold loadPCD. missing_loader Hm. }
  destruct (contains ".tif" fl || contains ".slc" fl) eqn:Hvol.
  { split; [intros _|intros []; apply orb_true_iff in Hvol as [Hv|Hv];
                     apply contains_within in Hv; unfold named; tauto].
    unfold loadVolume. missing_loader Hm. }
  apply orb_false_elim in Hvol as [Htif Hslc].
  rewrite Hpng, Hjpg, Hjpeg. simpl.
  apply contains_not_within in Hxml, Hneu, Hgm, Hpcd, Htif, Hslc.
  split; [intros Hn; exfalso; subst named; tauto|intros _].
  unfold loadFile_else, loadPoly, bindS. rewrite (path_exists_missing _ _ Hm). simpl.
  rewrite printc_red_int. unfold ret. by rewrite printc_red_int.
Qed.

(** X22: a name with the mark of an image and none of the marks tried
    before goes to the reader of the toolkit at once, the PNG reader for
    .png and the JPEG reader otherwise: on this way nothing tests that the
    file exists, and the branch of [load2Dimage] that ends the process is
    not reached. *)
Theorem loadFile_image filename c alpha wire bc edges legend texture
        smoothing threshold connectivity scaling :
  let fl := lower filename in
  ~ within ".xml" fl -> ~ within ".neutral" fl -> ~ within ".gmsh" fl ->
  ~ within ".pcd" fl -> ~ within ".tif" fl -> ~ within ".slc" fl ->
  within ".png" fl \/ within ".jpg" fl \/ within ".jpeg" fl ->
  loadFile filename c alpha wire bc edges legend texture
           smoothing threshold connectivity scaling
  = image_actor (if contains ".png" fl then vtkPNGReader else vtkJPEGReader)
                filename alpha.
Proof.
  intros fl Hxml Hneu Hgm Hpcd Htif Hslc Himg.
  assert (contains ".xml.gz" fl = false) as Hgz.
  { apply contains_not_within. intros Hw. apply Hxml.
    by apply (within_longer ".xml" ".gz"). }
  apply contains_not_within in Hxml, Hneu, Hgm, Hpcd, Htif, Hslc.
  assert (contains ".png" fl || contains ".jpg" fl || contains ".jpeg" fl = true) as Hi.
  { destruct Himg as [Hi|[Hi|Hi]]; apply contains_within in Hi; rewrite Hi;
      by rewrite ?orb_true_r. }
  unfold loadFile. fold fl. rewrite Hxml, Hgz, Hneu, Hgm, Hpcd, Htif, Hslc, Hi. simpl.
  unfold load2Dimage. fold fl.
  destruct (contains ".png" fl); [done|]. simpl in Hi. by rewrite Hi.
Qed.

End LoadersMore.

(** ** loadXml: the extraction loop and the packed files *)

Section XmlMore.
Context `{PyFloat}.

Lemma xml_float_missing e key : ET.get e key = None -> xml_float e key = Raise TypeError.
Proof. intros Hg. unfold xml_float. by rewrite Hg. Qed.

Lemma xml_int_missing e key : ET.get e key = None -> xml_int e key = Raise TypeError.
Proof. intros Hg. unfold xml_int. by rewrite Hg. Qed.

Lemma xml_vertex_missing e key :
  key ∈ ["x"; "y"; "z"] -> ET.get e key = None -> ~ returns (xml_vertex e).
Proof.
  intros Hkey Hg [p Hp]. unfold xml_vertex in Hp.
  apply bind_Ret_inv in Hp as (x & Hx & Hp).
  apply bind_Ret_inv in Hp as (y & Hy & Hp).
  apply bind_Ret_inv in Hp as (z & Hz & _).
  apply xml_float_missing in Hg.
  repeat (apply elem_of_cons in Hkey as [->|Hkey]; [congruence|]).
  by apply elem_of_nil in Hkey.
Qed.

Lemma xml_tetrahedron_missing e key :
  key ∈ ["v0"; "v1"; "v2"; "v3"] -> ET.get e key = None -> ~ returns (xml_tetrahedron e).
Proof.
  intros Hkey Hg [p Hp]. unfold xml_tetrahedron in Hp.
  apply bind_Ret_inv in Hp as (v0 & H0 & Hp).
  apply bind_Ret_inv in Hp as (v1 & H1 & Hp).
  apply bind_Ret_inv in Hp as (v2 & H2 & Hp).
  apply bind_Ret_inv in Hp as (v3 & H3 & _).
  apply xml_int_missing in Hg.
  repeat (apply elem_of_cons in Hkey as [->|Hkey]; [congruence|]).
  by apply elem_of_nil in Hkey.
Qed.

(** X23: the extraction loop of [loadXml] asks every vertex, three
    levels below the root, for x, y and z, and every tetrahedron for v0
    to v3.  When one of them lacks one of these attributes the loop does
    not return: there is no default for a coordinate or a vertex number. *)
Theorem xml_extract_missing_attr root elem e key :
  elem ∈ concat (map ET.children (ET.children root)) ->
  ET.get e key = None ->
  (e ∈ ET.findall "vertex" elem /\ key ∈ ["x"; "y"; "z"]) \/
  (e ∈ ET.findall "tetrahedron" elem /\ key ∈ ["v0"; "v1"; "v2"; "v3"]) ->
  ~ returns (xml_extract root).
Proof.
  intros Helem Hg Hcase Hr. unfold xml_extract in Hr.
  apply returns_bind_inv in Hr as (parts & Hparts & _).
  apply (for_append_fails xml_elem _ elem Helem); [|by exists parts].
  intros Hre. unfold xml_elem in Hre.
  apply returns_bind_inv in Hre as (vs & Hvs & Hre).
  apply returns_bind_inv in Hre as (ts & Hts & _).
  destruct Hcase as [[He Hkey]|[He Hkey]].
  - apply (for_append_fails xml_vertex _ e He); [|by exists vs].
    by apply (xml_vertex_missing e key).
  - apply (for_append_fails xml_tetrahedron _ e He); [|by exists ts].
    by apply (xml_tetrahedron_missing e key).
Qed.

End XmlMore.

Section LoadXmlMore.
Context `{Toolkit}.

(** X24: a file whose name holds .gz is unpacked by [loadXml] into
    /tmp/filename.xml, whatever that file held before, and read from
    there.  When the unpacking fails, [loadXml] ends with its exception
    and leaves /tmp/filename.xml empty. *)
Theorem loadXml_gz filename packed c alpha wire bc edges legend w :
  files w !! filename = Some packed ->
  within ".gz" filename ->
  dirs w !! "/tmp/filename.xml" = None ->
  (forall e, gunzip packed = Raise e ->
     loadXml filename c alpha wire bc edges legend w
     = (Raise e, with_file "/tmp/filename.xml" EmptyString w)) /\
  (forall text root mesh,
     gunzip packed = Ret text -> ET.parse text = Ret root -> xml_extract root = Ret mesh ->
     loadXml filename c alpha wire bc edges legend w
     = (print ["..loading"; filename] ;;;
        xml_actor mesh.1 mesh.2 c alpha wire edges legend)
         (with_file "/tmp/filename.xml" text w)).
Proof.
  intros Hf Hgz Hd. apply contains_within in Hgz.
  assert (read_text filename w = (Ret packed, w)) as Hread
      by (unfold read_text; by rewrite Hf).
  split.
  - intros e He. unfold loadXml.
    rewrite (bindS_Ret _ _ _ _ _ (path_exists_file _ _ _ Hf)). simpl. rewrite Hgz.
    unfold bindS at 1. unfold bindS at 1. rewrite Hread.
    unfold bindS at 1. rewrite (open_w_file _ _ Hd).
    unfold bindS at 1, lift. by rewrite He.
  - intros text root mesh Hg Hparse Hmesh. unfold loadXml.
    rewrite (bindS_Ret _ _ _ _ _ (path_exists_file _ _ _ Hf)). simpl. rewrite Hgz.
    unfold bindS at 1. unfold bindS at 1. rewrite Hread.
    unfold bindS at 1. rewrite (open_w_file _ _ Hd).
    unfold bindS at 1, lift. rewrite Hg.
    unfold bindS at 1. rewrite file_write_with_file.
    change (EmptyString +:+ text) with text.
    unfold read_text. simpl. rewrite lookup_insert_eq.
    unfold bindS at 1. rewrite Hparse.
    unfold bindS. destruct (print _ _) as [[[]|e|code] w'']; try done.
    by rewrite Hmesh.
Qed.

End LoadXmlMore.


(** ** More of loadFile, loadPoly, ProgressBar and Video.close *)

Section GenericFiles.
Context `{Toolkit}.

(** X25: on a file that exists and has none of the marks that [loadFile]
    tests, a reader that gives no poly data makes [loadFile] return
    [False] after the message "Unable to load" was printed twice, once by
    [loadPoly] and once by [loadFile]. *)
Theorem loadFile_unreadable p text c alpha wire bc edges legend texture
        smoothing threshold connectivity scaling w w1 :
  let fl := lower p in
  files w !! p = Some text ->
  (forall mark, mark ∈ [".xml"; ".neutral"; ".gmsh"; ".pcd"; ".tif"; ".slc";
                        ".png"; ".jpg"; ".jpeg"] -> ~ within mark fl) ->
  read_poly (poly_reader fl) (poly_geometry fl) p w = (Ret None, w1) ->
  loadFile p c alpha wire bc edges legend texture
           smoothing threshold connectivity scaling w
  = (Ret PyFalse,
     printed_red ("Unable to load " +:+ p) (printed_red ("Unable to load " +:+ p) w1)).
Proof.
  intros fl Hf Hno Hread.
  assert (forall mark, mark ∈ [".xml"; ".neutral"; ".gmsh"; ".pcd"; ".tif"; ".slc";
                               ".png"; ".jpg"; ".jpeg"] -> contains mark fl = false) as Hc.
  { intros mark Hmark. apply contains_not_within. by apply Hno. }
  assert (contains ".xml.gz" fl = false) as Hgz.
  { apply contains_not_within. intros Hw. apply (Hno ".xml"); [apply list_elem_of_here|].
    by apply (within_longer ".xml" ".gz"). }
  unfold loadFile. fold fl.
  rewrite Hgz, !Hc by (repeat first [apply list_elem_of_here | apply list_elem_of_further]).
  simpl. unfold loadFile_else, loadPoly.
  unfold bindS at 1. unfold bindS at 1. rewrite (path_exists_file _ _ _ Hf). simpl.
  fold fl. unfold bindS at 1. rewrite Hread.
  unfold bindS. rewrite printc_red_int. unfold ret. by rewrite printc_red_int.
Qed.

(** X26: the reader and the geometry filter of [loadPoly] are chosen by
    two chains of tests.  They agree in one direction only: whenever the
    reader of structured (unstructured) grids is chosen, so is the filter
    for structured (unstructured) grids, and without a filter the reader
    is neither of the two. *)
Theorem loadPoly_reader_filter fl :
  (poly_reader fl = vtkXMLStructuredGridReader ->
   poly_geometry fl = vtkStructuredGridGeometryFilter) /\
  (poly_reader fl = vtkXMLUnstructuredGridReader ->
   poly_geometry fl = vtkGeometryFilter) /\
  (poly_geometry fl = NoFilter ->
   poly_reader fl <> vtkXMLStructuredGridReader /\
   poly_reader fl <> vtkXMLUnstructuredGridReader).
Proof.
  unfold poly_reader, poly_geometry.
  destruct (contains ".vtk" fl), (contains ".ply" fl), (contains ".obj" fl),
    (contains ".stl" fl), (contains ".byu" fl), (contains ".g" fl),
    (contains ".vtp" fl), (contains ".vts" fl), (contains ".vtu" fl),
    (contains ".txt" fl), (contains ".xyz" fl); simpl;
    (split; [|split]); try done; intros _; by split.
Qed.

(** X29: the test that the path exists does not tell a file from a
    directory: on the path of a directory [loadXml], [loadNeutral] and
    [loadGmesh] print nothing and raise [IOError] when they open it. *)
Theorem loaders_on_directory p entries c alpha wire bc edges legend w :
  dirs w !! p = Some entries ->
  files w !! p = None ->
  loadXml p c alpha wire bc edges legend w = (Raise IOError, w) /\
  loadNeutral p c alpha bc edges legend w = (Raise IOError, w) /\
  loadGmesh p c alpha bc legend w = (Raise IOError, w).
Proof.
  intros Hd Hf.
  assert (read_text p w = (Raise IOError, w)) as Htext
      by (unfold read_text; by rewrite Hf).
  assert (read_lines p w = (Raise IOError, w)) as Hlines
      by (unfold read_lines; by rewrite Hf).
  split; [|split].
  - unfold loadXml. rewrite (bindS_Ret _ _ _ _ _ (path_exists_dir _ _ _ Hd)). simpl.
    destruct (contains ".gz" p).
    + unfold bindS at 1. unfold bindS at 1. by rewrite Htext.
    + unfold bindS at 1. by rewrite Htext.
  - unfold loadNeutral. rewrite (bindS_Ret _ _ _ _ _ (path_exists_dir _ _ _ Hd)). simpl.
    unfold convertNeutral2Xml. unfold bindS at 1. unfold bindS at 1. by rewrite Hlines.
  - unfold loadGmesh. rewrite (bindS_Ret _ _ _ _ _ (path_exists_dir _ _ _ Hd)). simpl.
    unfold bindS at 1. by rewrite Hlines.
Qed.

End GenericFiles.

Section BarAndVideoMore.
Context `{PyFloat}.

(** X27: a bar whose [stop] equals its [start] cannot be made: the
    constructor divides by [stop - start] in [_update] and raises
    [ZeroDivisionError], before the range is computed. *)
Theorem ProgressBar_init_empty arange a step_ c ETA_ width_ :
  ProgressBar_init arange a a step_ c ETA_ width_ = Raise ZeroDivisionError.
Proof.
  unfold ProgressBar_init, ProgressBar_update.
  cbn [set_counts set_percent start stop _counts percent].
  by rewrite Z.sub_diag.
Qed.

(** X28: [close] tells of an encoder that failed and goes on: when
    [ffmpeg] ends with a status that is not 0, [close] prints "ffmpeg
    returning error" in red, then still prints "Video saved as" with the
    new name, and returns. *)
Theorem Video_close_encoder_error status (v : Video) d w :
  duration v = Some d ->
  num_truthy d = true ->
  (forall cmd, status cmd <> 0) ->
  exists v' w' recalculated w2,
    Video_close status v w = (Ret v', w') /\
    name v' = before_dot (name v) +:+ ".mp4" /\
    stdout w2 = stdout w ++ [recalculated] /\
    w' = (printc ["Video saved as"; name v'] (CStr "green") nl
                 (printed_red "ffmpeg returning error" w2)).2 /\
    length (stdout w') = (length (stdout w) + 3)%nat.
Proof.
  intros Hd Ht Hs. unfold Video_close. rewrite Hd, Ht.
  set (rate := float_div (float_of_Z (Z.of_nat (length (frames v)))) (num_float d)).
  destruct (printc_appends ["Recalculated video FPS to"; str_float (float_round_to rate 3)]
                           (CStr "yellow") nl w) as (out & Hp).
  unfold bindS at 1. unfold bindS at 1. rewrite Hp. unfold ret at 1.
  unfold bindS at 1, os_system.
  destruct (Z.eqb_spec (status (ffmpeg (str_float rate) (before_dot (name v) +:+ ".mp4"))) 0)
    as [Hz|_]; [by apply Hs in Hz|].
  unfold bindS at 1. rewrite printc_red_int. unfold bindS.
  match goal with |- context [printc ?l ?c ?e ?w0] =>
    destruct (printc_appends l c e w0) as (out' & Hp') end.
  rewrite Hp'. unfold ret.
  eexists _, _, out,
    {| files := files w; dirs := dirs w; has_colors := has_colors w;
       stdout := stdout w ++ [out];
       commands := commands w ++
         [ffmpeg (str_float rate) (before_dot (name v) +:+ ".mp4")] |}.
  split; [reflexivity|]. split; [reflexivity|].
  split; [reflexivity|]. split.
  - symmetry. exact (f_equal snd Hp').
  - simpl. rewrite !length_app. simpl. lia.
Qed.

End BarAndVideoMore.

(** ** The further properties on sample files *)

(** X1 on the sample file. *)
Lemma convertNeutral2Xml_lengths_witness :
  files sample_world !! "in.neutral" = Some sample_neutral /\
  @convertNeutral2Xml ZFloat "in.neutral" None sample_world
  = (Ret (sample_coords, sample_tets), sample_world) /\
  exists N T,
    declares_N (readlines sample_neutral) N /\ declares_T (readlines sample_neutral) N T /\
    length sample_coords = Z.to_nat N /\ length sample_tets = Z.to_nat T.
Proof.
  assert (@convertNeutral2Xml ZFloat "in.neutral" None sample_world
          = (Ret (sample_coords, sample_tets), sample_world)) as Hr
      by (vm_compute; reflexivity).
  split; [reflexivity|]. split; [exact Hr|].
  exact (@convertNeutral2Xml_lengths ZFloat "in.neutral" None sample_neutral sample_world
           sample_coords sample_tets sample_world eq_refl Hr).
Defined.

(** X3 on the sample file. *)
Lemma convertNeutral2Xml_again_witness :
  files sample_world !! "in.neutral" = Some sample_neutral /\
  @neutral_format ZFloat (readlines sample_neutral) 4 sample_coords 1 sample_tets /\
  "out.xml" <> EmptyString /\ "out.xml" <> "in.neutral" /\
  dirs sample_world !! "out.xml" = None /\
  @convertNeutral2Xml ZFloat "in.neutral" (Some "out.xml")
    (@convertNeutral2Xml ZFloat "in.neutral" (Some "out.xml") sample_world).2
  = @convertNeutral2Xml ZFloat "in.neutral" (Some "out.xml") sample_world.
Proof.
  assert ("out.xml" <> EmptyString) as Hne by discriminate.
  assert ("out.xml" <> "in.neutral") as Hdiff by discriminate.
  split; [reflexivity|]. split; [exact sample_neutral_format|].
  split; [exact Hne|]. split; [exact Hdiff|]. split; [reflexivity|].
  exact (@convertNeutral2Xml_again ZFloat "in.neutral" "out.xml" sample_neutral sample_world
           4 sample_coords 1 sample_tets eq_refl sample_neutral_format Hne Hdiff eq_refl).
Defined.

(** X4 on the sample file. *)
Lemma loadNeutral_reads_witness :
  files sample_world !! "in.neutral" = Some sample_neutral /\
  @loadNeutral ZFloat StubToolkit "in.neutral" false false false false false sample_world
  = @neutral_actor ZFloat StubToolkit "in.neutral" sample_coords sample_tets
                   false false false false sample_world.
Proof.
  split; [reflexivity|].
  exact (proj1 (@loadNeutral_reads ZFloat StubToolkit "in.neutral" sample_neutral
                  sample_world false false false false false eq_refl)
               4%nat sample_coords 1%nat sample_tets sample_neutral_format).
Defined.

(** X6 on the sample file. *)
Lemma neutral_edges_valid_file_witness :
  files sample_world !! "in.neutral" = Some sample_neutral /\
  @neutral_format ZFloat (readlines sample_neutral) 4 sample_coords 1 sample_tets /\
  ids_in_range (readlines sample_neutral) 4 1 /\
  exists cs ts segs,
    (@convertNeutral2Xml ZFloat "in.neutral" None sample_world).1 = Ret (cs, ts) /\
    @neutral_edges ZFloat cs ts = Ret segs /\ length segs = (6 * 1)%nat.
Proof.
  split; [reflexivity|]. split; [exact sample_neutral_format|].
  split; [exact sample_ids_in_range|].
  exact (@neutral_edges_valid_file ZFloat "in.neutral" sample_neutral sample_world
           4 sample_coords 1 sample_tets eq_refl sample_neutral_format sample_ids_in_range).
Defined.

Lemma no_marker_gmsh_lines l :
  l ∈ readlines no_marker_gmsh -> ~ within "$Nodes" l /\ ~ within "$Elements" l.
Proof.
  intros Hl.
  replace (readlines no_marker_gmsh)
    with ["$MeshFormat" +:+ nl; "2.2 0 8" +:+ nl; "$EndMeshFormat" +:+ nl] in Hl
    by (vm_compute; reflexivity).
  repeat (apply elem_of_cons in Hl as [->|Hl];
          [split; apply (proj1 (contains_not_within _ _)); vm_compute; reflexivity|]).
  by apply elem_of_nil in Hl.
Qed.

(** X7 on a file that holds a format block only. *)
Lemma loadGmesh_no_markers_witness :
  files (with_file "t.gmsh" no_marker_gmsh world0) !! "t.gmsh" = Some no_marker_gmsh /\
  (forall l, l ∈ readlines no_marker_gmsh ->
             ~ within "$Nodes" l /\ ~ within "$Elements" l) /\
  @loadGmesh ZFloat StubToolkit "t.gmsh" false false false false
             (with_file "t.gmsh" no_marker_gmsh world0)
  = @gmesh_actor ZFloat StubToolkit [] [] false false false false
                 (with_file "t.gmsh" no_marker_gmsh world0).
Proof.
  split; [reflexivity|]. split; [exact no_marker_gmsh_lines|].
  exact (@loadGmesh_no_markers ZFloat StubToolkit "t.gmsh" no_marker_gmsh
           (with_file "t.gmsh" no_marker_gmsh world0) false false false false
           eq_refl no_marker_gmsh_lines).
Defined.

Lemma short_gmsh_bad : gmesh_bad_block "$Nodes" 4 (readlines short_gmsh).
Proof.
  apply (gmesh_missing_line _ _ _ 0 ("2" +:+ nl) 2).
  - apply first_marker_at.
    + eexists. split; [reflexivity|]. vm_compute. reflexivity.
    + intros j l Hj. lia.
  - reflexivity.
  - vm_compute. reflexivity.
  - vm_compute. reflexivity.
Qed.

(** X8 on a file whose block of nodes ends early. *)
Lemma loadGmesh_malformed_witness :
  files (with_file "t.gmsh" short_gmsh world0) !! "t.gmsh" = Some short_gmsh /\
  (gmesh_bad_block "$Nodes" 4 (readlines short_gmsh) \/
   gmesh_bad_block "$Elements" 3 (readlines short_gmsh)) /\
  exists e, @loadGmesh ZFloat StubToolkit "t.gmsh" false false false false
              (with_file "t.gmsh" short_gmsh world0)
            = (Raise e, with_file "t.gmsh" short_gmsh world0).
Proof.
  split; [reflexivity|]. split; [left; exact short_gmsh_bad|].
  exact (@loadGmesh_malformed ZFloat StubToolkit "t.gmsh" short_gmsh
           (with_file "t.gmsh" short_gmsh world0) false false false false
           eq_refl (or_introl short_gmsh_bad)).
Defined.

Lemma plain_line l :
  contains "POINTS" l = false -> contains "DATA ascii" l = false -> pcd_plain l.
Proof. intros Hp Hd. split; by apply contains_not_within. Qed.

Lemma count_line l tok n :
  contains "POINTS" l = true -> contains "DATA ascii" l = false ->
  split l !! 1%nat = Some tok -> int tok = Ret n -> pcd_count_line l n.
Proof.
  intros Hp Hd Htok Hn. split; [by apply contains_within|].
  split; [by apply contains_not_within|]. by exists tok.
Qed.

Lemma sample_pcd_format :
  @pcd_format ZFloat (readlines sample_pcd) [(0, 0, 0); (1, 2, 3)].
Proof.
  exists ["# .PCD v0.7" +:+ nl; "FIELDS x y z" +:+ nl], ("POINTS 2" +:+ nl), [],
         ("DATA ascii" +:+ nl), ["0 0 0" +:+ nl; "1 2 3" +:+ nl], [].
  split; [vm_compute; reflexivity|].
  split; [repeat constructor; apply plain_line; vm_compute; reflexivity|].
  split; [constructor|].
  split; [apply (count_line _ "2"); vm_compute; reflexivity|].
  split; [apply contains_within; vm_compute; reflexivity|].
  split; [apply contains_not_within; vm_compute; reflexivity|].
  apply List.Forall2_cons; [|apply List.Forall2_cons; [|apply List.Forall2_nil]].
  - exists "0", "0", "0", []. repeat apply conj; vm_compute; reflexivity.
  - exists "1", "2", "3", []. repeat apply conj; vm_compute; reflexivity.
Qed.

(** X9 on a file of two points. *)
Lemma pcd_points_format_witness :
  files (with_file "c.pcd" sample_pcd world0) !! "c.pcd" = Some sample_pcd /\
  @pcd_format ZFloat (readlines sample_pcd) [(0, 0, 0); (1, 2, 3)] /\
  @pcd_points ZFloat "c.pcd" (with_file "c.pcd" sample_pcd world0)
  = (Ret [(0, 0, 0); (1, 2, 3)], with_file "c.pcd" sample_pcd world0).
Proof.
  split; [reflexivity|]. split; [exact sample_pcd_format|].
  exact (@pcd_points_format ZFloat "c.pcd" sample_pcd (with_file "c.pcd" sample_pcd world0)
           [(0, 0, 0); (1, 2, 3)] eq_refl sample_pcd_format).
Defined.

(** X10 on the same file. *)
Lemma pcd_loop_bound_witness :
  exists st,
    @pcd_loop ZFloat (readlines sample_pcd) pcd_init = Ret st /\
    pcd_N st = Z.of_nat (length (pcd_pts st)) /\
    (length (pcd_pts st) <= Z.to_nat (pcd_expN st))%nat.
Proof.
  assert (exists st, @pcd_loop ZFloat (readlines sample_pcd) pcd_init = Ret st)
    as [st Hst] by (eexists; vm_compute; reflexivity).
  exists st. split; [exact Hst|].
  exact (@pcd_loop_bound ZFloat (readlines sample_pcd) st Hst).
Defined.

Lemma binary_pcd_header : pcd_header_only (readlines binary_pcd) 2.
Proof.
  exists ["FIELDS x y z" +:+ nl], ("POINTS 2" +:+ nl), ["DATA binary" +:+ nl].
  split; [vm_compute; reflexivity|].
  split; [repeat constructor; apply plain_line; vm_compute; reflexivity|].
  split; [repeat constructor; apply plain_line; vm_compute; reflexivity|].
  apply (count_line _ "2"); vm_compute; reflexivity.
Qed.

(** X11 on a binary file. *)
Lemma pcd_points_header_only_witness :
  files (with_file "b.pcd" binary_pcd world0) !! "b.pcd" = Some binary_pcd /\
  pcd_header_only (readlines binary_pcd) 2 /\
  2 <> 0 /\
  @pcd_points ZFloat "b.pcd" (with_file "b.pcd" binary_pcd world0)
  = (Ret [], printed_red ("Mismatch in pcd file " +:+ str 2 +:+ " 0")
                         (with_file "b.pcd" binary_pcd world0)).
Proof.
  assert (2 <> 0) as Hn by lia.
  split; [reflexivity|]. split; [exact binary_pcd_header|]. split; [exact Hn|].
  exact (@pcd_points_header_only ZFloat "b.pcd" binary_pcd
           (with_file "b.pcd" binary_pcd world0) 2 eq_refl binary_pcd_header Hn).
Defined.

(** X12 on a video that was just opened. *)
Lemma Video_pause_no_frame_witness :
  frames sample_video = [] /\
  @Video_pause ZFloat (fun x => Ret x) (fun _ => 0) (PInt 0) sample_video world0
  = (Raise IndexError, world0).
Proof.
  split; [reflexivity|].
  exact (@Video_pause_no_frame ZFloat (fun x => Ret x) (fun _ => 0) (PInt 0)
           sample_video world0 eq_refl).
Defined.

(** X13 on a video of two frames, for a pause of one second. *)
Lemma Video_pause_frames_witness :
  last (frames two_frames) = Some (frame_path 1) /\
  (fun x : Z => Ret x) (@float_mul ZFloat (fps two_frames) (@num_float ZFloat (PInt 1)))
  = Ret 12 /\
  exists v' w',
    @Video_pause ZFloat (fun x => Ret x) (fun _ => 0) (PInt 1) two_frames world0
    = (Ret v', w') /\
    frames v' = frames two_frames ++ map (fun i => frame_path (Z.of_nat i))
                                         (seq (length (frames two_frames)) (Z.to_nat 12)) /\
    commands w' = commands world0 ++ map (copy_frame (frame_path 1))
                                         (seq (length (frames two_frames)) (Z.to_nat 12)) /\
    stdout w' = stdout world0.
Proof.
  split; [reflexivity|]. split; [reflexivity|].
  exact (@Video_pause_frames ZFloat (fun x => Ret x) (fun _ => 0) (PInt 1) two_frames world0
           (frame_path 1) 12 eq_refl eq_refl).
Defined.

Lemma two_frames_numbered : numbered_frames two_frames.
Proof. reflexivity. Qed.

(** X14 on a video of two frames. *)
Lemma Video_frames_numbered_witness :
  numbered_frames two_frames /\
  NoDup (frames two_frames) /\
  (forall screenshot w v' w',
      @Video_addFrame ZFloat screenshot two_frames w = (Ret v', w') ->
      numbered_frames v' /\ length (frames v') = S (length (frames two_frames))) /\
  (forall float_int status pause w v' w',
      @Video_pause ZFloat float_int status pause two_frames w = (Ret v', w') ->
      numbered_frames v').
Proof.
  split; [exact two_frames_numbered|].
  exact (@Video_frames_numbered ZFloat two_frames two_frames_numbered).
Defined.

(** X15 on the name ./out/movie.avi. *)
Lemma Video_close_name_witness :
  exists v' w',
    @Video_close ZFloat (fun _ => 0) two_frames world0 = (Ret v', w') /\
    exists a, name v' = a +:+ ".mp4" /\ ~ within "." a /\
              (name two_frames = a \/ exists b, name two_frames = a +:+ "." +:+ b).
Proof.
  assert (exists v' w', @Video_close ZFloat (fun _ => 0) two_frames world0 = (Ret v', w'))
    as (v' & w' & Hc) by (eexists _, _; vm_compute; reflexivity).
  exists v', w'. split; [exact Hc|].
  exact (@Video_close_name ZFloat (fun _ => 0) two_frames world0 v' w' Hc).
Defined.

(** X16 on a bar from 0 to 10. *)
Lemma ProgressBar_percent_mono_witness :
  start sample_bar < stop sample_bar /\ 3 <= 7 /\
  percent (@ProgressBar_update ZFloat 3 sample_bar).2
  <= percent (@ProgressBar_update ZFloat 7 sample_bar).2 /\
  (3 <= start sample_bar -> percent (@ProgressBar_update ZFloat 3 sample_bar).2 = 0) /\
  (stop sample_bar <= 3 -> percent (@ProgressBar_update ZFloat 3 sample_bar).2 = 100).
Proof.
  assert (start sample_bar < stop sample_bar) as Hlt by (vm_compute; reflexivity).
  assert (3 <= 7) as Hle by lia.
  split; [exact Hlt|]. split; [exact Hle|].
  exact (@ProgressBar_percent_mono ZFloat 3 7 sample_bar Hlt Hle).
Defined.

(** X17 on a bar from 0 to 10, for [print(counts=0)]. *)
Lemma ProgressBar_print_counts_witness :
  start sample_bar < stop sample_bar /\
  exists pb' w',
    @ProgressBar_print ZFloat (Ret EmptyString) "msg" (Some 0) (sample_bar, world0)
    = (Ret tt, (pb', w')) /\
    (Some 0 = None \/ Some 0 = Some 0 ->
     _counts pb' = Z.max (start sample_bar)
                         (Z.min (stop sample_bar) (_counts sample_bar + step sample_bar))) /\
    (forall c, Some 0 = Some c -> c <> 0 ->
     _counts pb' = Z.max (start sample_bar) (Z.min (stop sample_bar) c)).
Proof.
  assert (start sample_bar < stop sample_bar) as Hlt by (vm_compute; reflexivity).
  assert (exists pb' w',
             @ProgressBar_print ZFloat (Ret EmptyString) "msg" (Some 0) (sample_bar, world0)
             = (Ret tt, (pb', w')))
    as (pb' & w' & Hp) by (eexists _, _; vm_compute; reflexivity).
  split; [exact Hlt|]. exists pb', w'. split; [exact Hp|].
  exact (@ProgressBar_print_counts ZFloat (Ret EmptyString) "msg" (Some 0)
           sample_bar world0 pb' w' Hlt Hp).
Defined.

(** X18 on a bar from 0 to 10, for two calls of [print(counts=4)]. *)
Lemma ProgressBar_print_again_witness :
  4 <> 0 /\
  exists pb' w',
    @ProgressBar_print ZFloat (Ret EmptyString) "one" (Some 4) (sample_bar, world0)
    = (Ret tt, (pb', w')) /\
    @ProgressBar_print ZFloat (Ret EmptyString) "two" (Some 4) (pb', w')
    = (Ret tt, (pb', w')).
Proof.
  assert (4 <> 0) as Hc by lia.
  assert (exists pb' w',
             @ProgressBar_print ZFloat (Ret EmptyString) "one" (Some 4) (sample_bar, world0)
             = (Ret tt, (pb', w')))
    as (pb' & w' & Hp) by (eexists _, _; vm_compute; reflexivity).
  split; [exact Hc|]. exists pb', w'. split; [exact Hp|].
  exact (@ProgressBar_print_again ZFloat (Ret EmptyString) "one" (Ret EmptyString) "two" 4
           sample_bar world0 pb' w' Hc Hp).
Defined.

Lemma stl_mark :
  let fr := lower "mesh.stl" in
  within ".vtk" fr \/ within ".ply" fr \/
  (~ within ".obj" fr /\
   (within ".stl" fr \/ within ".byu" fr \/ within ".g" fr \/ within ".vtp" fr)).
Proof.
  right. right. split.
  - apply contains_not_within. vm_compute. reflexivity.
  - left. apply contains_within. vm_compute. reflexivity.
Qed.

(** X20 with a writer that ends the process. *)
Lemma write_protected_witness :
  (let fr := lower "mesh.stl" in
   within ".vtk" fr \/ within ".ply" fr \/
   (~ within ".obj" fr /\
    (within ".stl" fr \/ within ".byu" fr \/ within ".g" fr \/ within ".vtp" fr))) /\
  (@write ZFloat FailingToolkit tt "mesh.stl" world0).1 = Ret tt /\
  exists wr r w1,
    @vtk_write ZFloat FailingToolkit wr tt "mesh.stl" world0 = (r, w1) /\
    (r = Ret tt ->
     @write ZFloat FailingToolkit tt "mesh.stl" world0
     = printc ["Saved file: " +:+ "mesh.stl"] (CStr "g") nl w1) /\
    (r <> Ret tt ->
     @write ZFloat FailingToolkit tt "mesh.stl" world0
     = (Ret tt, printed_red ("Error saving: " +:+ "mesh.stl") w1)).
Proof.
  split; [exact stl_mark|].
  exact (@write_protected ZFloat FailingToolkit tt "mesh.stl" world0 stl_mark).
Defined.

Lemma not_within_by_contains p s : contains p s = false -> ~ within p s.
Proof. apply contains_not_within. Qed.

Lemma within_by_contains p s : contains p s = true -> within p s.
Proof. apply contains_within. Qed.

(** X21 on a name without a mark, in the empty state. *)
Lemma loadFile_missing_witness :
  missing "nowhere.abc" world0 /\
  ~ within ".png" (lower "nowhere.abc") /\ ~ within ".jpg" (lower "nowhere.abc") /\
  ~ within ".jpeg" (lower "nowhere.abc") /\
  ~ (within ".xml" (lower "nowhere.abc") \/ within ".neutral" (lower "nowhere.abc") \/
     within ".gmsh" (lower "nowhere.abc") \/ within ".pcd" (lower "nowhere.abc") \/
     within ".tif" (lower "nowhere.abc") \/ within ".slc" (lower "nowhere.abc")) /\
  @loadFile ZFloat StubToolkit "nowhere.abc"
            false false false false false false false false false false false world0
  = (Ret PyFalse,
     printed_red ("Unable to load " +:+ "nowhere.abc")
                 (printed_red ("Error in loadPoly: Cannot find " +:+ "nowhere.abc") world0)).
Proof.
  assert (missing "nowhere.abc" world0) as Hm by (split; reflexivity).
  assert (~ within ".png" (lower "nowhere.abc")) as Hpng
      by (apply not_within_by_contains; vm_compute; reflexivity).
  assert (~ within ".jpg" (lower "nowhere.abc")) as Hjpg
      by (apply not_within_by_contains; vm_compute; reflexivity).
  assert (~ within ".jpeg" (lower "nowhere.abc")) as Hjpeg
      by (apply not_within_by_contains; vm_compute; reflexivity).
  assert (~ (within ".xml" (lower "nowhere.abc") \/ within ".neutral" (lower "nowhere.abc") \/
             within ".gmsh" (lower "nowhere.abc") \/ within ".pcd" (lower "nowhere.abc") \/
             within ".tif" (lower "nowhere.abc") \/ within ".slc" (lower "nowhere.abc")))
    as Hnamed.
  { intros [Hw|[Hw|[Hw|[Hw|[Hw|Hw]]]]]; revert Hw; apply not_within_by_contains;
      vm_compute; reflexivity. }
  split; [exact Hm|]. split; [exact Hpng|]. split; [exact Hjpg|]. split; [exact Hjpeg|].
  split; [exact Hnamed|].
  exact (proj2 (@loadFile_missing ZFloat StubToolkit "nowhere.abc"
                  false false false false false false false false false false false world0
                  Hm Hpng Hjpg Hjpeg) Hnamed).
Defined.

(** X22 on the name photo.JPG. *)
Lemma loadFile_image_witness :
  ~ within ".xml" (lower "photo.JPG") /\ ~ within ".neutral" (lower "photo.JPG") /\
  ~ within ".gmsh" (lower "photo.JPG") /\ ~ within ".pcd" (lower "photo.JPG") /\
  ~ within ".tif" (lower "photo.JPG") /\ ~ within ".slc" (lower "photo.JPG") /\
  (within ".png" (lower "photo.JPG") \/ within ".jpg" (lower "photo.JPG") \/
   within ".jpeg" (lower "photo.JPG")) /\
  @loadFile ZFloat StubToolkit "photo.JPG"
            false false false false false false false false false false false
  = @image_actor ZFloat StubToolkit
      (if contains ".png" (lower "photo.JPG") then vtkPNGReader else vtkJPEGReader)
      "photo.JPG" false.
Proof.
  assert (~ within ".xml" (lower "photo.JPG")) as H1
      by (apply not_within_by_contains; vm_compute; reflexivity).
  assert (~ within ".neutral" (lower "photo.JPG")) as H2
      by (apply not_within_by_contains; vm_compute; reflexivity).
  assert (~ within ".gmsh" (lower "photo.JPG")) as H3
      by (apply not_within_by_contains; vm_compute; reflexivity).
  assert (~ within ".pcd" (lower "photo.JPG")) as H4
      by (apply not_within_by_contains; vm_compute; reflexivity).
  assert (~ within ".tif" (lower "photo.JPG")) as H5
      by (apply not_within_by_contains; vm_compute; reflexivity).
  assert (~ within ".slc" (lower "photo.JPG")) as H6
      by (apply not_within_by_contains; vm_compute; reflexivity).
  assert (within ".png" (lower "photo.JPG") \/ within ".jpg" (lower "photo.JPG") \/
          within ".jpeg" (lower "photo.JPG")) as H7
      by (right; left; apply within_by_contains; vm_compute; reflexivity).
  split; [exact H1|]. split; [exact H2|]. split; [exact H3|]. split; [exact H4|].
  split; [exact H5|]. split; [exact H6|]. split; [exact H7|].
  exact (@loadFile_image ZFloat StubToolkit "photo.JPG"
           false false false false false false false false false false false
           H1 H2 H3 H4 H5 H6 H7).
Defined.

(** X23 on a mesh whose vertex has no z. *)
Lemma xml_extract_missing_attr_witness :
  flat_vertices ∈ concat (map ET.children (ET.children flat_mesh)) /\
  ET.get flat_vertex "z" = None /\
  ((flat_vertex ∈ ET.findall "vertex" flat_vertices /\ "z" ∈ ["x"; "y"; "z"]) \/
   (flat_vertex ∈ ET.findall "tetrahedron" flat_vertices /\
    "z" ∈ ["v0"; "v1"; "v2"; "v3"])) /\
  ~ returns (@xml_extract ZFloat flat_mesh).
Proof.
  assert (flat_vertices ∈ concat (map ET.children (ET.children flat_mesh))) as Helem
      by apply list_elem_of_here.
  assert ((flat_vertex ∈ ET.findall "vertex" flat_vertices /\ "z" ∈ ["x"; "y"; "z"]) \/
          (flat_vertex ∈ ET.findall "tetrahedron" flat_vertices /\
           "z" ∈ ["v0"; "v1"; "v2"; "v3"])) as Hcase.
  { left. split.
    - apply list_elem_of_here.
    - do 2 apply list_elem_of_further. apply list_elem_of_here. }
  split; [exact Helem|]. split; [reflexivity|]. split; [exact Hcase|].
  exact (@xml_extract_missing_attr ZFloat flat_mesh flat_vertices flat_vertex "z"
           Helem eq_refl Hcase).
Defined.

(** X24 with an unpacking that fails. *)
Lemma loadXml_gz_witness :
  files (with_file "m.xml.gz" "packed" world0) !! "m.xml.gz" = Some "packed" /\
  within ".gz" "m.xml.gz" /\
  dirs (with_file "m.xml.gz" "packed" world0) !! "/tmp/filename.xml" = None /\
  @gunzip ZFloat FailingToolkit "packed" = Raise IOError /\
  @loadXml ZFloat FailingToolkit "m.xml.gz" false false false false false false
           (with_file "m.xml.gz" "packed" world0)
  = (Raise IOError,
     with_file "/tmp/filename.xml" EmptyString (with_file "m.xml.gz" "packed" world0)).
Proof.
  assert (within ".gz" "m.xml.gz") as Hgz
      by (apply within_by_contains; vm_compute; reflexivity).
  split; [reflexivity|]. split; [exact Hgz|]. split; [reflexivity|]. split; [reflexivity|].
  exact (proj1 (@loadXml_gz ZFloat FailingToolkit "m.xml.gz" "packed"
                  false false false false false false
                  (with_file "m.xml.gz" "packed" world0) eq_refl Hgz eq_refl)
               IOError eq_refl).
Defined.

Lemma no_mark_abc mark :
  mark ∈ [".xml"; ".neutral"; ".gmsh"; ".pcd"; ".tif"; ".slc"; ".png"; ".jpg"; ".jpeg"] ->
  ~ within mark (lower "data.abc").
Proof.
  intros Hmark.
  repeat (apply elem_of_cons in Hmark as [->|Hmark];
          [apply not_within_by_contains; vm_compute; reflexivity|]).
  by apply elem_of_nil in Hmark.
Qed.

(** X25 on a file that the reader cannot read. *)
Lemma loadFile_unreadable_witness :
  files (with_file "data.abc" "junk" world0) !! "data.abc" = Some "junk" /\
  (forall mark,
      mark ∈ [".xml"; ".neutral"; ".gmsh"; ".pcd"; ".tif"; ".slc"; ".png"; ".jpg"; ".jpeg"] ->
      ~ within mark (lower "data.abc")) /\
  @read_poly ZFloat FailingToolkit (poly_reader (lower "data.abc"))
             (poly_geometry (lower "data.abc")) "data.abc"
             (with_file "data.abc" "junk" world0)
  = (Ret None, with_file "data.abc" "junk" world0) /\
  @loadFile ZFloat FailingToolkit "data.abc"
            false false false false false false false false false false false
            (with_file "data.abc" "junk" world0)
  = (Ret PyFalse,
     printed_red ("Unable to load " +:+ "data.abc")
       (printed_red ("Unable to load " +:+ "data.abc")
                    (with_file "data.abc" "junk" world0))).
Proof.
  split; [reflexivity|]. split; [exact no_mark_abc|]. split; [reflexivity|].
  exact (@loadFile_unreadable ZFloat FailingToolkit "data.abc" "junk"
           false false false false false false false false false false false
           (with_file "data.abc" "junk" world0) (with_file "data.abc" "junk" world0)
           eq_refl no_mark_abc eq_refl).
Defined.

(** X28 on a video of two frames, with an encoder that fails. *)
Lemma Video_close_encoder_error_witness :
  duration two_frames = Some (PInt 2) /\
  @num_truthy ZFloat (PInt 2) = true /\
  (forall cmd : string, (fun _ : string => 1) cmd <> 0) /\
  exists v' w' recalculated w2,
    @Video_close ZFloat (fun _ => 1) two_frames world0 = (Ret v', w') /\
    name v' = before_dot (name two_frames) +:+ ".mp4" /\
    stdout w2 = stdout world0 ++ [recalculated] /\
    w' = (printc ["Video saved as"; name v'] (CStr "green") nl
                 (printed_red "ffmpeg returning error" w2)).2 /\
    length (stdout w') = (length (stdout world0) + 3)%nat.
Proof.
  assert (forall cmd : string, (fun _ : string => 1) cmd <> 0) as Hs by (intros _; lia).
  split; [reflexivity|]. split; [reflexivity|]. split; [exact Hs|].
  exact (@Video_close_encoder_error ZFloat (fun _ => 1) two_frames (PInt 2) world0
           eq_refl eq_refl Hs).
Defined.

(** X29 on a directory with the name of a mesh. *)
Lemma loaders_on_directory_witness :
  dirs dir_world !! "mesh.gmsh" = Some [] /\
  files dir_world !! "mesh.gmsh" = None /\
  @loadXml ZFloat StubToolkit "mesh.gmsh" false false false false false false dir_world
  = (Raise IOError, dir_world) /\
  @loadNeutral ZFloat StubToolkit "mesh.gmsh" false false false false false dir_world
  = (Raise IOError, dir_world) /\
  @loadGmesh ZFloat StubToolkit "mesh.gmsh" false false false false dir_world
  = (Raise IOError, dir_world).
Proof.
  split; [reflexivity|]. split; [reflexivity|].
  exact (@loaders_on_directory ZFloat StubToolkit "mesh.gmsh" []
           false false false false false false dir_world eq_refl eq_refl).
Defined.
